(** * strands_portkey: the Portkey model provider for Strands Agents

    A shallow embedding of [_errors.py], [_formatting.py] and [model.py],
    and the properties of the request formatter, the chunk translator,
    the streaming generator and the structured-output call.

    Conventions of the embedding.
    - A Python [str] is a [string]: a sequence of 8-bit characters
      (code points 0..255).
    - A Python [int] is a [Z].
    - A [TypedDict] whose keys are optional is a record of [option]
      fields: [None] is "key absent".
    - A call that may raise returns a [Result]; a generator returns the
      events it has yielded together with the way it ended ([Gen]).
    - The async iterator returned by the gateway is the list of the
      chunks it delivers, consumed from the front, and the exception
      that it raises after the last of them when it does not end. *)

From Stdlib Require Import ZArith String Ascii List Bool Lia.
From Stdlib Require Import DecimalString DecimalZ.
From stdpp Require Import base option list gmap strings.

Open Scope string_scope.
Open Scope Z_scope.
Open Scope list_scope.

(* ===================================================================== *)
(** * Python values and control *)
(* ===================================================================== *)

Module Py.

(** Exceptions.  [ApiError] stands for whatever the gateway client raises;
    [text] is what [str(error)] returns.  The two Strands exceptions carry
    their message and the exception they were raised [from]; so does a
    [RuntimeError] that was raised from another exception.
    [AttributeError type attr] is the failure to read the attribute
    [attr] of an object of class [type]; [StopIteration] is what [next]
    raises on an iterator that has nothing to give. *)
#[warnings="-register-all"]
Inductive exn : Type :=
| ApiError (text : string)
| ContextWindowOverflowException (msg : string) (cause : exn)
| ModelThrottledException (msg : string) (cause : exn)
| TypeError (msg : string)
| RuntimeError (msg : string) (cause : option exn)
| ValueError (msg : string)
| KeyError (key : string)
| IndexError (msg : string)
| AttributeError (type attr : string)
| UnboundLocalError (var : string)
| StopIteration.

(** [str(error)] *)
Definition str (e : exn) : string :=
  match e with
  | ApiError text => text
  | ContextWindowOverflowException msg _ => msg
  | ModelThrottledException msg _ => msg
  | TypeError msg => msg
  | RuntimeError msg _ => msg
  | ValueError msg => msg
  | KeyError key => "'" +:+ key +:+ "'"
  | IndexError msg => msg
  | AttributeError type attr =>
      "'" +:+ type +:+ "' object has no attribute '" +:+ attr +:+ "'"
  | UnboundLocalError var =>
      "cannot access local variable '" +:+ var +:+
      "' where it is not associated with a value"
  | StopIteration => ""
  end.

(** [error.__cause__] *)
Definition cause (e : exn) : option exn :=
  match e with
  | ContextWindowOverflowException _ c => Some c
  | ModelThrottledException _ c => Some c
  | RuntimeError _ c => c
  | _ => None
  end.

(** A call either raises or returns. *)
Inductive Result (A : Type) : Type :=
| Raise (e : exn)
| Return (a : A).
Arguments Raise {A} e.
Arguments Return {A} a.

Definition rbind {A B} (r : Result A) (k : A -> Result B) : Result B :=
  match r with
  | Raise e => Raise e
  | Return a => k a
  end.

(** [[f(x) for x in l]] where [f] may raise: the first exception wins. *)
Fixpoint rmap {A B} (f : A -> Result B) (l : list A) : Result (list B) :=
  match l with
  | [] => Return []
  | x :: l' =>
      rbind (f x) (fun y => rbind (rmap f l') (fun ys => Return (y :: ys)))
  end.

(** Truthiness of an optional string: [None] and [""] are falsy. *)
Definition truthy_str (o : option string) : bool :=
  match o with
  | Some s => negb (String.eqb s "")
  | None => false
  end.

(** Truthiness of a list. *)
Definition truthy_list {A} (l : list A) : bool :=
  match l with
  | [] => false
  | _ :: _ => true
  end.

(** [pattern in message] on strings. *)
Fixpoint startswith (pat s : string) : bool :=
  match pat, s with
  | EmptyString, _ => true
  | String a pat', String b s' => Ascii.eqb a b && startswith pat' s'
  | String _ _, EmptyString => false
  end.

Fixpoint contains (pat s : string) : bool :=
  startswith pat s ||
  match s with
  | EmptyString => false
  | String _ s' => contains pat s'
  end.

(** [str.lower()]: on code points below 256 only the letters A..Z and
    the Latin-1 capitals change; the latter never become ASCII, so for
    the ASCII patterns searched below only A..Z matter. *)
Definition lower_char (c : ascii) : ascii :=
  let n := N_of_ascii c in
  if (65 <=? n)%N && (n <=? 90)%N then ascii_of_N (n + 32)
  else if (192 <=? n)%N && (n <=? 222)%N && negb (n =? 215)%N
       then ascii_of_N (n + 32)
  else c.

Fixpoint lower (s : string) : string :=
  match s with
  | EmptyString => EmptyString
  | String c s' => String (lower_char c) (lower s')
  end.

(** [sep.join(l)] *)
Fixpoint join (sep : string) (l : list string) : string :=
  match l with
  | [] => ""
  | [s] => s
  | s :: l' => s +:+ sep +:+ join sep l'
  end.

End Py.
Import Py.

(** [Result] is a monad: [x ← r; k] runs [k] when [r] returns. *)
Global Instance Result_ret : MRet Result := @Return.
Global Instance Result_bind : MBind Result := fun A B k r => rbind r k.

(* ===================================================================== *)
(** * _errors.py *)
(* ===================================================================== *)

(** The frozenset of overflow messages; [any] makes the order of
    iteration irrelevant. *)
Definition CONTEXT_WINDOW_OVERFLOW_MESSAGES : list string :=
  [ "prompt is too long";
    "input is too long";
    "maximum context length";
    "context window";
    "context length exceeded";
    "too many tokens" ].

Definition handle_api_error (error : exn) : Result unit :=
  let message := lower (str error) in
  if existsb (fun pattern => contains pattern message)
             CONTEXT_WINDOW_OVERFLOW_MESSAGES
  then Raise (ContextWindowOverflowException (str error) error)
  else if contains "rate" message || contains "429" message
          || contains "overloaded" message || contains "529" message
  then Raise (ModelThrottledException (str error) error)
  else Return tt.

(* ===================================================================== *)
(** * The [json] and [base64] modules of the Python library *)
(* ===================================================================== *)

Module Json.

(** JSON values as Python holds them: [None], [bool], [int], [str],
    [list] and [dict] with string keys (in insertion order). *)
#[warnings="-register-all"]
Inductive json : Type :=
| JNull
| JBool (b : bool)
| JInt (n : Z)
| JStr (s : string)
| JArr (items : list json)
| JObj (members : list (string * json)).

Definition dquote : ascii := "034"%char.
Definition backslash : ascii := "092"%char.

Definition hex_digit (n : N) : ascii :=
  if (n <? 10)%N then ascii_of_N (48 + n) else ascii_of_N (87 + n).

(** [ESCAPE_ASCII]: the quote, the backslash and every character outside
    [' '..'~'] are escaped; [ensure_ascii] is the default. *)
Definition escape_char (c : ascii) : string :=
  let n := N_of_ascii c in
  if (n =? 34)%N then String backslash (String dquote "")
  else if (n =? 92)%N then String backslash (String backslash "")
  else if (n =? 10)%N then String backslash "n"
  else if (n =? 13)%N then String backslash "r"
  else if (n =? 9)%N then String backslash "t"
  else if (n =? 8)%N then String backslash "b"
  else if (n =? 12)%N then String backslash "f"
  else if (n <? 32)%N || (126 <? n)%N
       then String backslash
              (String "u" (String "0" (String "0"
                 (String (hex_digit (n / 16)) (String (hex_digit (n mod 16)) "")))))
  else String c "".

Fixpoint escape (s : string) : string :=
  match s with
  | EmptyString => ""
  | String c s' => escape_char c +:+ escape s'
  end.

Definition encode_str (s : string) : string :=
  String dquote (escape s +:+ String dquote "").

Definition encode_int (n : Z) : string :=
  DecimalString.NilZero.string_of_int (Z.to_int n).

(** [json.dumps(v)] with the default separators [", "] and [": "]. *)
Fixpoint dumps (v : json) : string :=
  match v with
  | JNull => "null"
  | JBool true => "true"
  | JBool false => "false"
  | JInt n => encode_int n
  | JStr s => encode_str s
  | JArr items => "[" +:+ join ", " (List.map dumps items) +:+ "]"
  | JObj members =>
      "{" +:+
      join ", " (List.map (fun kv => encode_str (fst kv) +:+ ": " +:+ dumps (snd kv))
                          members) +:+
      "}"
  end.

(** ** [json.loads]

    The decoder on the JSON texts whose values are in [json]: no floats,
    and no [\u] escape above 255. *)

Definition is_ws (c : ascii) : bool :=
  let n := N_of_ascii c in
  (n =? 32)%N || (n =? 9)%N || (n =? 10)%N || (n =? 13)%N.

Fixpoint skip_ws (s : string) : string :=
  match s with
  | String c s' => if is_ws c then skip_ws s' else s
  | EmptyString => s
  end.

Definition is_digit (c : ascii) : bool :=
  let n := N_of_ascii c in (48 <=? n)%N && (n <=? 57)%N.

Definition hex_value (c : ascii) : option N :=
  let n := N_of_ascii c in
  if (48 <=? n)%N && (n <=? 57)%N then Some (n - 48)%N
  else if (97 <=? n)%N && (n <=? 102)%N then Some (n - 87)%N
  else if (65 <=? n)%N && (n <=? 70)%N then Some (n - 55)%N
  else None.

(** The character written by a two-character escape. *)
Definition unescape (e : ascii) : option ascii :=
  let n := N_of_ascii e in
  if (n =? 34)%N then Some dquote
  else if (n =? 92)%N then Some backslash
  else if (n =? 47)%N then Some "/"%char
  else if (n =? 98)%N then Some (ascii_of_N 8)
  else if (n =? 102)%N then Some (ascii_of_N 12)
  else if (n =? 110)%N then Some (ascii_of_N 10)
  else if (n =? 114)%N then Some (ascii_of_N 13)
  else if (n =? 116)%N then Some (ascii_of_N 9)
  else None.

Definition prepend (c : ascii) (r : string * string) : string * string :=
  (String c r.1, r.2).

(** The body of a string, after the opening quote: the decoded string
    and what follows the closing quote. *)
Fixpoint scan_string (s : string) : option (string * string) :=
  match s with
  | EmptyString => None
  | String c s' =>
      if Ascii.eqb c dquote then Some ("", s')
      else if Ascii.eqb c backslash then
        match s' with
        | EmptyString => None
        | String e s'' =>
            if Ascii.eqb e "u" then
              match s'' with
              | String h1 (String h2 (String h3 (String h4 s3))) =>
                  match hex_value h1, hex_value h2, hex_value h3, hex_value h4 with
                  | Some a, Some b, Some c, Some d =>
                      let n := (((a * 16 + b) * 16 + c) * 16 + d)%N in
                      if (n <? 256)%N
                      then option_map (prepend (ascii_of_N n)) (scan_string s3)
                      else None
                  | _, _, _, _ => None
                  end
              | _ => None
              end
            else
              match unescape e with
              | Some ch => option_map (prepend ch) (scan_string s'')
              | None => None
              end
        end
      else if (N_of_ascii c <? 32)%N then None
      else option_map (prepend c) (scan_string s')
  end.

Fixpoint span_digits (s : string) : string * string :=
  match s with
  | String c s' =>
      if is_digit c then prepend c (span_digits s') else ("", s)
  | EmptyString => ("", "")
  end.

(** An integer: an optional minus sign and digits without a leading
    zero. *)
Definition scan_int (s : string) : option (Z * string) :=
  let '(sign, body) :=
    match s with
    | String c s' => if Ascii.eqb c "-" then ("-", s') else ("", s)
    | EmptyString => ("", s)
    end in
  let '(ds, rest) := span_digits body in
  match ds with
  | EmptyString => None
  | String d ds' =>
      if Ascii.eqb d "0" && negb (String.eqb ds' "") then None
      else option_map (fun i => (Z.of_int i, rest))
                      (DecimalString.NilZero.int_of_string (sign +:+ ds))
  end.

Fixpoint strip_prefix (lit s : string) : option string :=
  match lit, s with
  | EmptyString, _ => Some s
  | String a lit', String b s' =>
      if Ascii.eqb a b then strip_prefix lit' s' else None
  | String _ _, EmptyString => None
  end.

Fixpoint parse_value (fuel : nat) (s : string) : option (json * string) :=
  match fuel with
  | O => None
  | S fuel' =>
      match skip_ws s with
      | EmptyString => None
      | String c s' =>
          if Ascii.eqb c "n" then
            option_map (fun rest => (JNull, rest)) (strip_prefix "ull" s')
          else if Ascii.eqb c "t" then
            option_map (fun rest => (JBool true, rest)) (strip_prefix "rue" s')
          else if Ascii.eqb c "f" then
            option_map (fun rest => (JBool false, rest)) (strip_prefix "alse" s')
          else if Ascii.eqb c dquote then
            option_map (fun r => (JStr r.1, r.2)) (scan_string s')
          else if Ascii.eqb c "[" then
            match skip_ws s' with
            | String c' rest =>
                if Ascii.eqb c' "]" then Some (JArr [], rest)
                else option_map (fun r => (JArr r.1, r.2)) (parse_items fuel' s')
            | EmptyString => None
            end
          else if Ascii.eqb c "{" then
            match skip_ws s' with
            | String c' rest =>
                if Ascii.eqb c' "}" then Some (JObj [], rest)
                else option_map (fun r => (JObj r.1, r.2)) (parse_members fuel' s')
            | EmptyString => None
            end
          else
            option_map (fun r => (JInt r.1, r.2)) (scan_int (String c s'))
      end
  end
with parse_items (fuel : nat) (s : string) : option (list json * string) :=
  match fuel with
  | O => None
  | S fuel' =>
      match parse_value fuel' s with
      | None => None
      | Some (v, rest) =>
          match skip_ws rest with
          | String c rest' =>
              if Ascii.eqb c "," then
                option_map (fun r => (v :: r.1, r.2)) (parse_items fuel' rest')
              else if Ascii.eqb c "]" then Some ([v], rest')
              else None
          | EmptyString => None
          end
      end
  end
with parse_members (fuel : nat) (s : string)
  : option (list (string * json) * string) :=
  match fuel with
  | O => None
  | S fuel' =>
      match skip_ws s with
      | String q s1 =>
          if Ascii.eqb q dquote then
            match scan_string s1 with
            | None => None
            | Some (k, s2) =>
                match skip_ws s2 with
                | String c s3 =>
                    if Ascii.eqb c ":" then
                      match parse_value fuel' s3 with
                      | None => None
                      | Some (v, s4) =>
                          match skip_ws s4 with
                          | String c' s5 =>
                              if Ascii.eqb c' "," then
                                option_map (fun r => ((k, v) :: r.1, r.2))
                                           (parse_members fuel' s5)
                              else if Ascii.eqb c' "}" then Some ([(k, v)], s5)
                              else None
                          | EmptyString => None
                          end
                      end
                    else None
                | EmptyString => None
                end
            end
          else None
      | EmptyString => None
      end
  end.

(** [json.loads(s)]: one value, and nothing but white space after it. *)
Definition loads (s : string) : option json :=
  match parse_value (S (String.length s)) s with
  | Some (v, rest) =>
      match skip_ws rest with
      | EmptyString => Some v
      | String _ _ => None
      end
  | None => None
  end.

End Json.
Import Json.

Module Base64.

Definition alphabet : string :=
  "ABCDEFGHIJKLMNOPQRSTUVWXYZabcdefghijklmnopqrstuvwxyz0123456789+/".

Definition sextet (n : N) : ascii :=
  match String.get (N.to_nat (n mod 64)) alphabet with
  | Some c => c
  | None => "="%char
  end.

(** [base64.b64encode(bs).decode("utf-8")] *)
Fixpoint b64encode (bs : list Byte.byte) : string :=
  match bs with
  | [] => ""
  | [a] =>
      let n := (Byte.to_N a * 65536)%N in
      String (sextet (n / 262144)) (String (sextet (n / 4096)) "==")
  | [a; b] =>
      let n := (Byte.to_N a * 65536 + Byte.to_N b * 256)%N in
      String (sextet (n / 262144)) (String (sextet (n / 4096))
        (String (sextet (n / 64)) "="))
  | a :: b :: c :: rest =>
      let n := (Byte.to_N a * 65536 + Byte.to_N b * 256 + Byte.to_N c)%N in
      String (sextet (n / 262144)) (String (sextet (n / 4096))
        (String (sextet (n / 64)) (String (sextet n) (b64encode rest))))
  end.

End Base64.
Import Base64.

(* ===================================================================== *)
(** * Types of the host framework ([strands.types]) *)
(* ===================================================================== *)

Inductive Role : Type := user | assistant.

Definition role_str (r : Role) : string :=
  match r with
  | user => "user"
  | assistant => "assistant"
  end.

(** [{"format": ..., "source": {"bytes": ...}}] *)
Record ImageContent : Type := {
  image_format : string;
  image_bytes : list Byte.byte
}.

(** [{"toolUseId": ..., "name": ..., "input": ...}] *)
Record ToolUse : Type := {
  tu_toolUseId : string;
  tu_name : string;
  tu_input : json
}.

(** One entry of a tool result's content: a dict that may hold the keys
    [json], [text] and [image], and other keys (a document, say).
    [trc_first_key] is the first key of the dict, [next(iter(content))]:
    [None] for the empty dict, which holds none of the three. *)
Record ToolResultContent : Type := {
  trc_json : option json;
  trc_text : option string;
  trc_image : option ImageContent;
  trc_first_key : option string
}.

(** [{"toolUseId": ..., "content": [...]}] *)
Record ToolResult : Type := {
  tr_toolUseId : string;
  tr_content : list ToolResultContent
}.

(** A content block: a dict that may hold the keys [text], [image],
    [toolUse] and [toolResult]; a block of another kind holds none of
    them.  The formatter reads these four keys and, for the message of
    its error, the first key of the dict, [next(iter(content))]:
    [first_key], which is [None] for the empty dict. *)
Record ContentBlock : Type := {
  text : option string;
  image : option ImageContent;
  toolUse : option ToolUse;
  toolResult : option ToolResult;
  first_key : option string
}.

Record Message : Type := {
  role : Role;
  content : list ContentBlock
}.

(** A system content block: [{"text": ...}] or [{"cachePoint": ...}]. *)
Record SystemContentBlock : Type := {
  sys_text : option string;
  sys_cachePoint : option string
}.

(** [{"name": ..., "description": ..., "inputSchema": {"json": ...}}] *)
Record ToolSpec : Type := {
  spec_name : string;
  spec_description : string;
  spec_inputSchema_json : json
}.

(** A tool choice: a dict with the key [auto], [any] or [tool];
    [choice_tool] is [tool_choice["tool"]["name"]].  The empty dict is the
    record without any key. *)
Record ToolChoice : Type := {
  choice_auto : bool;
  choice_any : bool;
  choice_tool : option string
}.

Definition ToolChoiceAuto : ToolChoice :=
  {| choice_auto := true; choice_any := false; choice_tool := None |}.
Definition ToolChoiceAny : ToolChoice :=
  {| choice_auto := false; choice_any := true; choice_tool := None |}.
Definition ToolChoiceTool (name : string) : ToolChoice :=
  {| choice_auto := false; choice_any := false; choice_tool := Some name |}.

(** Truthiness of the dict: it has a key. *)
Definition truthy_choice (tc : ToolChoice) : bool :=
  choice_auto tc || choice_any tc || bool_decide (is_Some (choice_tool tc)).

(* ===================================================================== *)
(** * Types of the gateway client *)
(* ===================================================================== *)

(** One fragment of a streamed tool call.  Its [function] object may be
    [None]; [format_chunk] reads [function.name] and
    [function.arguments] from it without a test. *)
Record ChoiceDeltaToolCallFunction : Type := {
  fn_name : option string;
  fn_arguments : option string
}.

Record ChoiceDeltaToolCall : Type := {
  tc_index : Z;
  tc_id : option string;
  tc_function : option ChoiceDeltaToolCallFunction
}.

Record CompletionUsage : Type := {
  prompt_tokens : Z;
  completion_tokens : Z;
  total_tokens : Z
}.

(** [delta.reasoning_content] is [None] also when the attribute is
    missing: [hasattr(...) and ...] treats both alike. *)
Record ChoiceDelta : Type := {
  delta_content : option string;
  delta_reasoning_content : option string;
  delta_tool_calls : option (list ChoiceDeltaToolCall)
}.

Record Choice : Type := {
  choice_delta : ChoiceDelta;
  finish_reason : option string
}.

(** A streamed chunk; [choices] is empty also when the attribute is
    missing or [None]: [getattr(event, "choices", None)] is falsy alike. *)
Record ChatCompletionChunk : Type := {
  choices : list Choice;
  usage : option CompletionUsage
}.

(* ===================================================================== *)
(** * The wire format *)
(* ===================================================================== *)

(** A formatted content part:
    [{"text": t, "type": "text"}] or
    [{"image_url": {"detail": d, "format": f, "url": u}, "type": "image_url"}]. *)
Inductive FormattedContent : Type :=
| ContentText (t : string)
| ContentImageUrl (detail format url : string).

(** [{"function": {"arguments": ..., "name": ...}, "id": ..., "type": ...}] *)
Record FormattedToolCall : Type := {
  call_arguments : string;
  call_name : string;
  call_id : string;
  call_type : string
}.

(** The [content] of a formatted message: a string (system message) or a
    list of parts. *)
Inductive MessageContent : Type :=
| ContentStr (s : string)
| ContentParts (parts : list FormattedContent).

Definition truthy_content (c : MessageContent) : bool :=
  match c with
  | ContentStr s => negb (String.eqb s "")
  | ContentParts parts => truthy_list parts
  end.

(** A formatted message: a dict with [role] and [content] and, when
    present, [tool_calls] and [tool_call_id]. *)
Record FormattedMessage : Type := {
  msg_role : string;
  msg_content : MessageContent;
  msg_tool_calls : option (list FormattedToolCall);
  msg_tool_call_id : option string
}.

(** [{"type": "function", "function": {"name", "description", "parameters"}}] *)
Record FormattedTool : Type := {
  tool_type : string;
  tool_name : string;
  tool_description : string;
  tool_parameters : json
}.

(** ["auto"], ["required"] or
    [{"type": "function", "function": {"name": n}}] *)
Inductive FormattedToolChoice : Type :=
| ChoiceStr (s : string)
| ChoiceFunction (type : string) (name : string).

(** The [data] handed to [format_chunk]: nothing, a string, a tool-call
    fragment or a usage object. *)
Inductive Data : Type :=
| DataNone
| DataStr (s : string)
| DataToolCall (tc : ChoiceDeltaToolCall)
| DataUsage (u : CompletionUsage).

(** [case "...":] of a [match] on the data: equality with a string. *)
Definition data_is_str (d : Data) (s : string) : bool :=
  match d with
  | DataStr s' => String.eqb s' s
  | _ => false
  end.

(** The class of the data, as an [AttributeError] names it. *)
Definition type_name (d : Data) : string :=
  match d with
  | DataNone => "NoneType"
  | DataStr _ => "str"
  | DataToolCall _ => "ChoiceDeltaToolCall"
  | DataUsage _ => "CompletionUsage"
  end.

(** The argument of [format_chunk]: a dict with [chunk_type] and, when
    present, [data_type] and [data]. *)
Record ChunkEvent : Type := {
  chunk_type : string;
  data_type : option string;
  data : Data
}.

(** The events of the host framework. *)
Record ToolUseStart : Type := {
  start_name : option string;
  start_toolUseId : option string
}.

Inductive Delta : Type :=
| DeltaText (t : Data)
| DeltaToolUse (input : string)
| DeltaReasoningContent (t : Data).

Record Usage : Type := {
  inputTokens : Z;
  outputTokens : Z;
  totalTokens : Z
}.

Inductive StreamEvent : Type :=
| messageStart (role : string)
| contentBlockStart (start : option ToolUseStart)
| contentBlockDelta (delta : Delta)
| contentBlockStop
| messageStop (stopReason : string)
| metadata (u : Usage) (latencyMs : Z).

(* ===================================================================== *)
(** * _formatting.py *)
(* ===================================================================== *)

Section Formatting.

(** [mimetypes.types_map.get]: the table of the Python installation. *)
Variable types_map : string -> option string.

Definition format_request_message_content (content : ContentBlock)
  : Result FormattedContent :=
  match image content with
  | Some img =>
      let mime_type :=
        default "application/octet-stream" (types_map ("." +:+ image_format img)) in
      let image_data := b64encode (image_bytes img) in
      Return (ContentImageUrl "auto" mime_type
                ("data:" +:+ mime_type +:+ ";base64," +:+ image_data))
  | None =>
      match text content with
      | Some t => Return (ContentText t)
      | None =>
          match first_key content with
          | Some key =>
              Raise (TypeError ("content_type=<" +:+ key +:+ "> | unsupported type"))
          | None => Raise StopIteration
          end
      end
  end.

Definition format_request_message_tool_call (tool_use : ToolUse)
  : FormattedToolCall :=
  {| call_arguments := dumps (tu_input tool_use);
     call_name := tu_name tool_use;
     call_id := tu_toolUseId tool_use;
     call_type := "function" |}.

(** A tool result entry read as a content block: the same dict. *)
Definition as_content_block (c : ToolResultContent) : ContentBlock :=
  {| text := trc_text c; image := trc_image c;
     toolUse := None; toolResult := None; first_key := trc_first_key c |}.

(** [{"text": t}] *)
Definition text_block (t : string) : ContentBlock :=
  {| text := Some t; image := None; toolUse := None; toolResult := None;
     first_key := Some "text" |}.

Definition format_request_tool_message (tool_result : ToolResult)
  : Result FormattedMessage :=
  let contents :=
    List.map (fun content =>
                match trc_json content with
                | Some j => text_block (dumps j)
                | None => as_content_block content
                end)
             (tr_content tool_result) in
  parts ← rmap format_request_message_content contents;
  mret {| msg_role := "tool";
          msg_tool_call_id := Some (tr_toolUseId tool_result);
          msg_content := ContentParts parts;
          msg_tool_calls := None |}.

Definition system_message (s : string) : FormattedMessage :=
  {| msg_role := "system"; msg_content := ContentStr s;
     msg_tool_calls := None; msg_tool_call_id := None |}.

(** The [if]/[elif]/[else] that opens [format_request_messages]: the
    initial value of [formatted_messages]. *)
Definition format_system_messages
    (system_prompt : option string)
    (system_prompt_content : option (list SystemContentBlock))
  : list FormattedMessage :=
  if truthy_list (default [] system_prompt_content) then
    let system_text :=
      join " " (omap sys_text (default [] system_prompt_content)) in
    if truthy_str (Some system_text) then [system_message system_text] else []
  else if truthy_str system_prompt then
    [system_message (default "" system_prompt)]
  else [].

(** One turn of the loop over [messages]: the message itself, then its
    tool messages. *)
Definition format_message (message : Message) : Result (list FormattedMessage) :=
  let contents := content message in
  formatted_contents ←
    rmap format_request_message_content
      (List.filter (fun c => negb (bool_decide (is_Some (toolResult c))
                                   || bool_decide (is_Some (toolUse c))))
                   contents);
  let formatted_tool_calls :=
    List.map format_request_message_tool_call (omap toolUse contents) in
  formatted_tool_messages ←
    rmap format_request_tool_message (omap toolResult contents);
  let formatted_message :=
    {| msg_role := role_str (role message);
       msg_content := ContentParts formatted_contents;
       msg_tool_calls :=
         if truthy_list formatted_tool_calls then Some formatted_tool_calls
         else None;
       msg_tool_call_id := None |} in
  mret (formatted_message :: formatted_tool_messages).

Fixpoint format_messages_loop (messages : list Message)
    (formatted_messages : list FormattedMessage)
  : Result (list FormattedMessage) :=
  match messages with
  | [] => mret formatted_messages
  | message :: rest =>
      ms ← format_message message;
      format_messages_loop rest (formatted_messages ++ ms)
  end.

Definition format_request_messages
    (messages : list Message)
    (system_prompt : option string)
    (system_prompt_content : option (list SystemContentBlock))
  : Result (list FormattedMessage) :=
  formatted_messages ←
    format_messages_loop messages
      (format_system_messages system_prompt system_prompt_content);
  mret (List.filter
          (fun message => truthy_content (msg_content message)
                          || bool_decide (is_Some (msg_tool_calls message)))
          formatted_messages).

End Formatting.

Definition format_tool_choice (tool_choice : ToolChoice) : FormattedToolChoice :=
  if choice_auto tool_choice then ChoiceStr "auto"
  else if choice_any tool_choice then ChoiceStr "required"
  else match choice_tool tool_choice with
       | Some name => ChoiceFunction "function" name
       | None => ChoiceStr "auto"
       end.

Definition format_chunk (event : ChunkEvent) : Result StreamEvent :=
  if String.eqb (chunk_type event) "message_start" then
    mret (messageStart "assistant")
  else if String.eqb (chunk_type event) "content_start" then
    match data_type event with
    | None => Raise (KeyError "data_type")
    | Some dt =>
        if String.eqb dt "tool" then
          match data event with
          | DataToolCall tc =>
              match tc_function tc with
              | Some fn =>
                  mret (contentBlockStart
                          (Some {| start_name := fn_name fn;
                                   start_toolUseId := tc_id tc |}))
              | None => Raise (AttributeError "NoneType" "name")
              end
          | d => Raise (AttributeError (type_name d) "function")
          end
        else mret (contentBlockStart None)
    end
  else if String.eqb (chunk_type event) "content_delta" then
    match data_type event with
    | None => Raise (KeyError "data_type")
    | Some dt =>
        if String.eqb dt "tool" then
          match data event with
          | DataToolCall tc =>
              match tc_function tc with
              | Some fn =>
                  mret (contentBlockDelta
                          (DeltaToolUse (default "" (fn_arguments fn))))
              | None => Raise (AttributeError "NoneType" "arguments")
              end
          | d => Raise (AttributeError (type_name d) "function")
          end
        else if String.eqb dt "reasoning_content" then
          mret (contentBlockDelta (DeltaReasoningContent (data event)))
        else mret (contentBlockDelta (DeltaText (data event)))
    end
  else if String.eqb (chunk_type event) "content_stop" then
    mret contentBlockStop
  else if String.eqb (chunk_type event) "message_stop" then
    if data_is_str (data event) "tool_calls" then mret (messageStop "tool_use")
    else if data_is_str (data event) "length" then mret (messageStop "max_tokens")
    else mret (messageStop "end_turn")
  else if String.eqb (chunk_type event) "metadata" then
    match data event with
    | DataUsage u =>
        mret (metadata {| inputTokens := prompt_tokens u;
                          outputTokens := completion_tokens u;
                          totalTokens := total_tokens u |} 0)
    | d => Raise (AttributeError (type_name d) "prompt_tokens")
    end
  else
    Raise (RuntimeError ("chunk_type=<" +:+ chunk_type event +:+ "> | unknown type")
             None).

(* ===================================================================== *)
(** * Generators *)
(* ===================================================================== *)

(** A generator run to its end: the events it yielded, and whether it
    returned or raised after the last of them. *)
Definition Gen (E A : Type) : Type := (list E * Result A)%type.

Definition gret {E A} (a : A) : Gen E A := ([], Return a).

Definition gbind {E A B} (g : Gen E A) (k : A -> Gen E B) : Gen E B :=
  match g with
  | (evs, Raise e) => (evs, Raise e)
  | (evs, Return a) => let '(evs', r) := k a in (evs ++ evs', r)
  end.

Global Instance Gen_ret {E} : MRet (Gen E) := @gret E.
Global Instance Gen_bind {E} : MBind (Gen E) := fun A B k g => gbind g k.

(** [yield e] *)
Definition yield {E} (e : E) : Gen E unit := ([e], Return tt).

(** A call inside the generator: it yields nothing. *)
Definition call {E A} (r : Result A) : Gen E A := ([], r).

(** [yield format_chunk(ev)] *)
Definition yield_chunk (ev : ChunkEvent) : Gen StreamEvent unit :=
  e ← call (format_chunk ev); yield e.

(** [if c: body] *)
Definition when {E} (c : bool) (body : Gen E unit) : Gen E unit :=
  if c then body else mret tt.

(** [for x in l: body(x)] *)
Fixpoint for_each {E A} (l : list A) (body : A -> Gen E unit) : Gen E unit :=
  match l with
  | [] => mret tt
  | x :: l' => _ ← body x; for_each l' body
  end.

(** An exception that leaves the body of an async generator: a
    [StopIteration] is replaced by a [RuntimeError] raised from it. *)
Definition leave_generator (e : exn) : exn :=
  match e with
  | StopIteration =>
      RuntimeError "async generator raised StopIteration" (Some StopIteration)
  | _ => e
  end.

(** An async generator with the given body. *)
Definition async_generator {E A} (body : Gen E A) : Gen E A :=
  match body with
  | (evs, Raise e) => (evs, Raise (leave_generator e))
  | (evs, Return a) => (evs, Return a)
  end.

(** The events and the outcome of a run. *)
Definition events {E A} (g : Gen E A) : list E := fst g.
Definition outcome {E A} (g : Gen E A) : Result A := snd g.

(* ===================================================================== *)
(** * model.py *)
(* ===================================================================== *)

Record PortkeyConfig : Type := {
  model_id : string;
  params : option (gmap string json)
}.

(** A value of the request dict. *)
Inductive PayloadValue : Type :=
| PMessages (ms : list FormattedMessage)
| PStr (s : string)
| PBool (b : bool)
| PStreamOptions (include_usage : bool)
| PTools (ts : list FormattedTool)
| PToolChoice (c : FormattedToolChoice)
| PParam (v : json).

(** A Python object returned as parsed output: the names of the classes
    of its type (its method resolution order), its fields, and its truth
    value [bool(o)], which is [False] only when its class defines
    [__bool__] or [__len__] and that says so. *)
Record PyObject : Type := {
  obj_mro : list string;
  obj_fields : json;
  obj_truthy : bool
}.

Definition isinstance (o : PyObject) (cls : string) : bool :=
  bool_decide (cls ∈ obj_mro o).

Record ParsedChoice : Type := {
  message_parsed : option PyObject
}.

Record ParsedChatCompletion : Type := {
  parsed_choices : list ParsedChoice
}.

(** The async iterator that [chat.completions.create] returns: the
    chunks that it delivers, in order, and the exception that it raises
    when it is asked for the next one, if it does not end after them. *)
Record AsyncStream : Type := {
  delivered_chunks : list ChatCompletionChunk;
  raised_after : option exn
}.

(** The iterator that delivers the chunks and ends. *)
Definition delivered (chunks : list ChatCompletionChunk) : AsyncStream :=
  {| delivered_chunks := chunks; raised_after := None |}.

(** The gateway client: [chat.completions.create], called with the
    request as keyword arguments, and
    [beta.chat.completions.parse(model, messages, response_format)]. *)
Record AsyncPortkey : Type := {
  chat_completions_create :
    gmap string PayloadValue -> Result AsyncStream;
  beta_chat_completions_parse :
    string -> PayloadValue -> string -> Result ParsedChatCompletion
}.

Record PortkeyModel : Type := {
  config : PortkeyConfig;
  client : AsyncPortkey
}.

(** The [tool_calls] dict of [stream]: keys in insertion order.
    [tool_calls.setdefault(k, []).append(v)] *)
Fixpoint setdefault_append (k : Z) (v : ChoiceDeltaToolCall)
    (d : list (Z * list ChoiceDeltaToolCall))
  : list (Z * list ChoiceDeltaToolCall) :=
  match d with
  | [] => [(k, [v])]
  | (k', vs) :: d' =>
      if Z.eqb k' k then (k', vs ++ [v]) :: d'
      else (k', vs) :: setdefault_append k v d'
  end.

(** The local variables of [stream] that outlive the first loop; [None]
    is a variable not yet bound. *)
Record Locals : Type := {
  tool_calls : list (Z * list ChoiceDeltaToolCall);
  var_choice : option Choice;
  var_event : option ChatCompletionChunk
}.

Definition read_local {E A} (name : string) (v : option A) : Gen E A :=
  match v with
  | Some a => mret a
  | None => call (Raise (UnboundLocalError name))
  end.

Section Model.

Variable types_map : string -> option string.

Definition format_tool_spec (tool_spec : ToolSpec) : FormattedTool :=
  {| tool_type := "function";
     tool_name := spec_name tool_spec;
     tool_description := spec_description tool_spec;
     tool_parameters := spec_inputSchema_json tool_spec |}.

(** The request is written as a dict display that ends with the extra
    parameters of the configuration: a key among them replaces the same
    key written before it.  [tools] and [tool_choice] are assigned
    afterwards. *)
Definition format_request (self : PortkeyModel)
    (messages : list Message)
    (tool_specs : option (list ToolSpec))
    (system_prompt : option string)
    (tool_choice : option ToolChoice)
    (system_prompt_content : option (list SystemContentBlock))
  : Result (gmap string PayloadValue) :=
  formatted ←
    format_request_messages types_map messages system_prompt system_prompt_content;
  let request : gmap string PayloadValue :=
    (PParam <$> default ∅ (params (config self))) ∪
    <["messages" := PMessages formatted]>
      (<["model" := PStr (model_id (config self))]>
        (<["stream" := PBool true]>
          (<["stream_options" := PStreamOptions true]> ∅))) in
  if truthy_list (default [] tool_specs) then
    let request :=
      <["tools" := PTools (List.map format_tool_spec (default [] tool_specs))]>
        request in
    match tool_choice with
    | Some tc =>
        if truthy_choice tc
        then mret (<["tool_choice" := PToolChoice (format_tool_choice tc)]> request)
        else mret request
    | None => mret request
    end
  else mret request.

(** The first loop of [stream] over an iterator that delivers
    [response] and then ends, or raises [failure]: it consumes the
    chunks up to the one that declares a finish reason, and returns the
    locals and the chunks not yet consumed. *)
Fixpoint content_loop (failure : option exn)
    (response : list ChatCompletionChunk) (l : Locals)
  : Gen StreamEvent (Locals * list ChatCompletionChunk) :=
  match response with
  | [] =>
      match failure with
      | Some e => call (Raise e)
      | None => mret (l, [])
      end
  | event :: rest =>
      match choices event with
      | [] =>
          content_loop failure rest
            {| tool_calls := tool_calls l; var_choice := var_choice l;
               var_event := Some event |}
      | choice :: _ =>
          let delta := choice_delta choice in
          _ ← when (truthy_str (delta_content delta))
                (yield_chunk {| chunk_type := "content_delta";
                                data_type := Some "text";
                                data := DataStr (default "" (delta_content delta)) |});
          _ ← when (truthy_str (delta_reasoning_content delta))
                (yield_chunk {| chunk_type := "content_delta";
                                data_type := Some "reasoning_content";
                                data := DataStr (default ""
                                          (delta_reasoning_content delta)) |});
          let l' :=
            {| tool_calls :=
                 fold_left (fun d tool_call =>
                              setdefault_append (tc_index tool_call) tool_call d)
                           (default [] (delta_tool_calls delta)) (tool_calls l);
               var_choice := Some choice;
               var_event := Some event |} in
          if truthy_str (finish_reason choice) then mret (l', rest)
          else content_loop failure rest l'
      end
  end.

(** The second loop, [async for event in response: _ = event], over
    what the first loop has left of the iterator. *)
Definition drain_loop (failure : option exn)
    (response : list ChatCompletionChunk) (l : Locals)
  : Gen StreamEvent Locals :=
  match failure with
  | Some e => call (Raise e)
  | None =>
      mret {| tool_calls := tool_calls l; var_choice := var_choice l;
              var_event := match last response with
                           | Some event => Some event
                           | None => var_event l
                           end |}
  end.

(** The body of [for tool_deltas in tool_calls.values()]. *)
Definition flush_tool_call (tool_deltas : list ChoiceDeltaToolCall)
  : Gen StreamEvent unit :=
  first ← call (match tool_deltas with
                | d :: _ => Return d
                | [] => Raise (IndexError "list index out of range")
                end);
  _ ← yield_chunk {| chunk_type := "content_start"; data_type := Some "tool";
                     data := DataToolCall first |};
  _ ← for_each tool_deltas (fun tool_delta =>
         yield_chunk {| chunk_type := "content_delta"; data_type := Some "tool";
                        data := DataToolCall tool_delta |});
  yield_chunk {| chunk_type := "content_stop"; data_type := Some "tool";
                 data := DataNone |}.

Definition finish_reason_data (choice : Choice) : Data :=
  match finish_reason choice with
  | Some s => DataStr s
  | None => DataNone
  end.

(** What follows the gateway call in [stream]. *)
Definition stream_response (response : AsyncStream)
  : Gen StreamEvent unit :=
  _ ← yield_chunk {| chunk_type := "message_start"; data_type := None;
                     data := DataNone |};
  _ ← yield_chunk {| chunk_type := "content_start"; data_type := Some "text";
                     data := DataNone |};
  st ← content_loop (raised_after response) (delivered_chunks response)
         {| tool_calls := []; var_choice := None; var_event := None |};
  let l := st.1 in
  _ ← yield_chunk {| chunk_type := "content_stop"; data_type := Some "text";
                     data := DataNone |};
  _ ← for_each (List.map snd (tool_calls l)) flush_tool_call;
  choice ← read_local "choice" (var_choice l);
  _ ← yield_chunk {| chunk_type := "message_stop"; data_type := None;
                     data := finish_reason_data choice |};
  l ← drain_loop (raised_after response) st.2 l;
  event ← read_local "event" (var_event l);
  match usage event with
  | Some u => yield_chunk {| chunk_type := "metadata"; data_type := None;
                             data := DataUsage u |}
  | None => mret tt
  end.

Definition stream (self : PortkeyModel)
    (messages : list Message)
    (tool_specs : option (list ToolSpec))
    (system_prompt : option string)
    (tool_choice : option ToolChoice)
    (system_prompt_content : option (list SystemContentBlock))
  : Gen StreamEvent unit :=
  async_generator
    (request ← call (format_request self messages tool_specs system_prompt
                       tool_choice system_prompt_content);
     response ← call (match chat_completions_create (client self) request with
                      | Raise e => _ ← handle_api_error e; Raise e
                      | Return response => Return response
                      end);
     stream_response response).

(** The event of [structured_output]: [{"output": parsed}]. *)
Inductive OutputEvent : Type :=
| output (parsed : PyObject).

(** [for choice in response.choices: if isinstance(...): parsed = ...; break] *)
Fixpoint find_parsed (output_model : string) (cs : list ParsedChoice)
  : option PyObject :=
  match cs with
  | [] => None
  | choice :: cs' =>
      match message_parsed choice with
      | Some o => if isinstance o output_model then Some o
                  else find_parsed output_model cs'
      | None => find_parsed output_model cs'
      end
  end.

Definition structured_output (self : PortkeyModel)
    (output_model : string)
    (prompt : list Message)
    (system_prompt : option string)
  : Gen OutputEvent unit :=
  async_generator
    (request ← call (format_request self prompt None system_prompt None None);
     messages ← call (match request !! "messages" with
                      | Some v => Return v
                      | None => Raise (KeyError "messages")
                      end);
     response ← call (beta_chat_completions_parse (client self)
                        (model_id (config self)) messages output_model);
     if (1 <? length (parsed_choices response))%nat then
       call (Raise (ValueError "Multiple choices found in the response."))
     else
       (* [if parsed:] is the truth value of what the loop has found *)
       match find_parsed output_model (parsed_choices response) with
       | Some parsed =>
           if obj_truthy parsed then yield (output parsed)
           else call (Raise (ValueError
                               "No valid structured output was found in the response."))
       | None =>
           call (Raise (ValueError
                          "No valid structured output was found in the response."))
       end).

End Model.

(* ===================================================================== *)
(** * Vocabulary of the properties *)
(* ===================================================================== *)

(** The chunk ends the content phase: it carries a choice whose finish
    reason is set. *)
Definition ends_phase (c : ChatCompletionChunk) : bool :=
  match choices c with
  | choice :: _ => truthy_str (finish_reason choice)
  | [] => false
  end.

(** The chunks read by the first loop, and those left to the second. *)
Fixpoint consumed (response : list ChatCompletionChunk) : list ChatCompletionChunk :=
  match response with
  | [] => []
  | c :: rest => if ends_phase c then [c] else c :: consumed rest
  end.

Fixpoint remaining (response : list ChatCompletionChunk) : list ChatCompletionChunk :=
  match response with
  | [] => []
  | c :: rest => if ends_phase c then rest else remaining rest
  end.

(** The text and reasoning deltas of one chunk. *)
Definition chunk_events (c : ChatCompletionChunk) : list StreamEvent :=
  match choices c with
  | [] => []
  | choice :: _ =>
      let delta := choice_delta choice in
      (if truthy_str (delta_content delta)
       then [contentBlockDelta (DeltaText (DataStr (default "" (delta_content delta))))]
       else []) ++
      (if truthy_str (delta_reasoning_content delta)
       then [contentBlockDelta
               (DeltaReasoningContent
                  (DataStr (default "" (delta_reasoning_content delta))))]
       else [])
  end.

(** The tool-call fragments of one chunk, and of a list of chunks, in
    arrival order. *)
Definition chunk_fragments (c : ChatCompletionChunk) : list ChoiceDeltaToolCall :=
  match choices c with
  | [] => []
  | choice :: _ => default [] (delta_tool_calls (choice_delta choice))
  end.

Definition fragments (cs : list ChatCompletionChunk) : list ChoiceDeltaToolCall :=
  concat (List.map chunk_fragments cs).

(** The dict built from a list of fragments. *)
Definition accumulate (frags : list ChoiceDeltaToolCall)
    (d : list (Z * list ChoiceDeltaToolCall)) : list (Z * list ChoiceDeltaToolCall) :=
  fold_left (fun d tool_call => setdefault_append (tc_index tool_call) tool_call d)
            frags d.

(** The last choice bound by the loop over [cs]. *)
Definition last_choice (cs : list ChatCompletionChunk) (init : option Choice)
  : option Choice :=
  fold_left (fun acc c => match choices c with
                          | choice :: _ => Some choice
                          | [] => acc
                          end) cs init.

(** The fragment carries its [function] object. *)
Definition has_function (d : ChoiceDeltaToolCall) : Prop :=
  is_Some (tc_function d).

(** The events of one flushed tool call. *)
Definition tool_delta_event (d : ChoiceDeltaToolCall) : StreamEvent :=
  contentBlockDelta (DeltaToolUse (default "" (tc_function d ≫= fn_arguments))).

Definition tool_block (tool_deltas : list ChoiceDeltaToolCall) : list StreamEvent :=
  match tool_deltas with
  | [] => []
  | first :: _ =>
      contentBlockStart (Some {| start_name := tc_function first ≫= fn_name;
                                 start_toolUseId := tc_id first |})
      :: List.map tool_delta_event tool_deltas ++ [contentBlockStop]
  end.

(** The stop reason for a raw finish reason. *)
Definition stop_reason (raw : option string) : string :=
  if decide (raw = Some "tool_calls") then "tool_use"
  else if decide (raw = Some "length") then "max_tokens"
  else "end_turn".

Definition metadata_events (u : option CompletionUsage) : list StreamEvent :=
  match u with
  | Some u => [metadata {| inputTokens := prompt_tokens u;
                           outputTokens := completion_tokens u;
                           totalTokens := total_tokens u |} 0]
  | None => []
  end.

(** The events of the text block: from [messageStart] to the
    [contentBlockStop] that follows the first loop. *)
Definition text_phase_events (response : list ChatCompletionChunk)
  : list StreamEvent :=
  [messageStart "assistant"; contentBlockStart None] ++
  concat (List.map chunk_events (consumed response)) ++
  [contentBlockStop].

(** The events up to and including the flush of the tool calls. *)
Definition content_phase_events (response : list ChatCompletionChunk) : list StreamEvent :=
  [messageStart "assistant"; contentBlockStart None] ++
  concat (List.map chunk_events (consumed response)) ++
  [contentBlockStop] ++
  concat (List.map tool_block
            (List.map snd (accumulate (fragments (consumed response)) []))).

(** The usage read after the second loop: that of the last chunk. *)
Definition final_usage (response : list ChatCompletionChunk) : option CompletionUsage :=
  last response ≫= usage.

(** The indices of [l] in the order of their first occurrence. *)
Fixpoint first_occurrences (l : list Z) : list Z :=
  match l with
  | [] => []
  | x :: l' => x :: List.filter (fun y => negb (Z.eqb y x)) (first_occurrences l')
  end.

(** The fragments that declare index [i], in arrival order. *)
Definition fragments_of (i : Z) (frags : list ChoiceDeltaToolCall)
  : list ChoiceDeltaToolCall :=
  List.filter (fun f => Z.eqb (tc_index f) i) frags.

Definition grouped (frags : list ChoiceDeltaToolCall) (keys : list Z)
  : list (Z * list ChoiceDeltaToolCall) :=
  List.map (fun i => (i, fragments_of i frags)) keys.

(** ** The words of the claim on the classification of errors *)

(** A character of a fragment: a code point below 128 that is not a
    capital letter. *)
Definition fragment_char (p : ascii) : bool :=
  let n := N_of_ascii p in
  (n <? 128)%N && negb ((65 <=? n)%N && (n <=? 90)%N).

Fixpoint fragment_text (fragment : string) : bool :=
  match fragment with
  | EmptyString => true
  | String p fragment' => fragment_char p && fragment_text fragment'
  end.

(** The character [c] of a text is the character [p] of a fragment up
    to case: the same character, or the capital of the small letter
    [p]. *)
Definition same_up_to_case (c p : ascii) : bool :=
  Ascii.eqb c p ||
  (let n := N_of_ascii p in
   (97 <=? n)%N && (n <=? 122)%N && (N_of_ascii c =? n - 32)%N).

(** The piece [s] of a text reads as the fragment, up to case. *)
Fixpoint reads_as (s fragment : string) : bool :=
  match s, fragment with
  | EmptyString, EmptyString => true
  | String c s', String p fragment' => same_up_to_case c p && reads_as s' fragment'
  | _, _ => false
  end.

(** The fragment occurs in the text, whatever the case of its letters. *)
Definition occurs_ignoring_case (fragment message : string) : Prop :=
  exists pre mid post,
    message = pre +:+ mid +:+ post /\ reads_as mid fragment = true.

(** [pat] occurs in [s]. *)
Definition substring_of (pat s : string) : Prop :=
  exists pre post, s = pre +:+ pat +:+ post.

(** The two families of gateway errors, read off the lowercased text. *)
Definition overflow_text (message : string) : Prop :=
  exists pattern, In pattern CONTEXT_WINDOW_OVERFLOW_MESSAGES /\
                  substring_of pattern (lower message).

Definition throttling_text (message : string) : Prop :=
  substring_of "rate" (lower message) \/ substring_of "429" (lower message) \/
  substring_of "overloaded" (lower message) \/ substring_of "529" (lower message).

(** ** Data of the examples *)

Definition no_types : string -> option string := fun _ => None.

Definition text_chunk (s : string) : ChatCompletionChunk :=
  {| choices := [ {| choice_delta := {| delta_content := Some s;
                                        delta_reasoning_content := None;
                                        delta_tool_calls := None |};
                     finish_reason := None |} ];
     usage := None |}.

Definition finish_chunk (reason : string) : ChatCompletionChunk :=
  {| choices := [ {| choice_delta := {| delta_content := None;
                                        delta_reasoning_content := None;
                                        delta_tool_calls := None |};
                     finish_reason := Some reason |} ];
     usage := None |}.

Definition tool_chunk (tcs : list ChoiceDeltaToolCall) (reason : option string)
  : ChatCompletionChunk :=
  {| choices := [ {| choice_delta := {| delta_content := None;
                                        delta_reasoning_content := None;
                                        delta_tool_calls := Some tcs |};
                     finish_reason := reason |} ];
     usage := None |}.

Definition usage_chunk (p c t : Z) : ChatCompletionChunk :=
  {| choices := [];
     usage := Some {| prompt_tokens := p; completion_tokens := c; total_tokens := t |} |}.

Definition keepalive_chunk : ChatCompletionChunk :=
  {| choices := []; usage := None |}.

Definition fragment (i : Z) (id name args : option string) : ChoiceDeltaToolCall :=
  {| tc_index := i; tc_id := id;
     tc_function := Some {| fn_name := name; fn_arguments := args |} |}.

(** A model whose gateway answers every streaming call with [answer]:
    an error, or chunks that are delivered to the end. *)
Definition model_answering (ps : option (gmap string json))
    (answer : Result (list ChatCompletionChunk))
    (parsed : Result ParsedChatCompletion) : PortkeyModel :=
  {| config := {| model_id := "gpt-4o"; params := ps |};
     client := {| chat_completions_create :=
                    fun _ => match answer with
                             | Raise e => Raise e
                             | Return chunks => Return (delivered chunks)
                             end;
                  beta_chat_completions_parse := fun _ _ _ => parsed |} |}.

Definition hi : list Message :=
  [ {| role := user; content := [text_block "Hi"] |} ].

(** Kinds of events. *)
Definition is_content_block (e : StreamEvent) : bool :=
  match e with
  | contentBlockStart _ | contentBlockDelta _ | contentBlockStop => true
  | _ => false
  end.

Definition is_text_delta (e : StreamEvent) : bool :=
  match e with
  | contentBlockDelta (DeltaText _) | contentBlockDelta (DeltaReasoningContent _) => true
  | _ => false
  end.

Definition is_tool_use (e : StreamEvent) : bool :=
  match e with
  | contentBlockStart (Some _) | contentBlockDelta (DeltaToolUse _) => true
  | _ => false
  end.

Definition is_message_stop (e : StreamEvent) : bool :=
  match e with
  | messageStop _ => true
  | _ => false
  end.

Definition is_metadata (e : StreamEvent) : bool :=
  match e with
  | metadata _ _ => true
  | _ => false
  end.

(** Ascending order of a list of indices (insertion sort). *)
Fixpoint insert_ascending (x : Z) (l : list Z) : list Z :=
  match l with
  | [] => [x]
  | y :: l' => if Z.leb x y then x :: l else y :: insert_ascending x l'
  end.

Definition ascending (l : list Z) : list Z := fold_right insert_ascending [] l.

(** The indices of the tool calls of a response: in the order in which
    they first arrive, and in ascending order. *)
Definition arrival_order (response : list ChatCompletionChunk) : list Z :=
  first_occurrences (List.map tc_index (fragments (consumed response))).

Definition index_order (response : list ChatCompletionChunk) : list Z :=
  ascending (arrival_order response).

(** The events of a run that flushes the tool calls in the order [order]
    of their indices. *)
Definition events_flushing (order : list Z) (response : list ChatCompletionChunk)
  : list StreamEvent :=
  let cs := consumed response in
  [messageStart "assistant"; contentBlockStart None] ++
  concat (List.map chunk_events cs) ++
  [contentBlockStop] ++
  concat (List.map (fun i => tool_block (fragments_of i (fragments cs))) order) ++
  [messageStop (stop_reason (last_choice cs None ≫= finish_reason))] ++
  metadata_events (final_usage response).



Definition is_tool_input (e : StreamEvent) : bool :=
  match e with
  | contentBlockDelta (DeltaToolUse _) => true
  | _ => false
  end.

(** A response whose second tool call arrives first. *)
Definition out_of_order_response : list ChatCompletionChunk :=
  [ tool_chunk [fragment 1 (Some "call_b") (Some "calc") (Some "{}")] None;
    tool_chunk [fragment 0 (Some "call_a") (Some "search") (Some "{}")]
      (Some "tool_calls") ].

(** A parsed answer with the given choices. *)
Definition parsed_answer (os : list (option PyObject)) : ParsedChatCompletion :=
  {| parsed_choices := List.map (fun o => {| message_parsed := o |}) os |}.

Definition weather_report : PyObject :=
  {| obj_mro := ["WeatherReport"; "BaseModel"; "object"];
     obj_fields := JObj [("city", JStr "Paris"); ("celsius", JInt 21)];
     obj_truthy := true |}.

(** [Bag()], where [class Bag(BaseModel)] holds [items: list[str] = []]
    and defines [__len__] as [len(self.items)]: an instance that is
    false. *)
Definition empty_bag : PyObject :=
  {| obj_mro := ["Bag"; "BaseModel"; "object"];
     obj_fields := JObj [("items", JArr [])];
     obj_truthy := false |}.

Definition weather_spec : ToolSpec :=
  {| spec_name := "get_weather"; spec_description := "Weather of a city";
     spec_inputSchema_json := JObj [("type", JStr "object")] |}.

(** The filter that closes [format_request_messages]. *)
Definition kept (message : FormattedMessage) : bool :=
  truthy_content (msg_content message)
  || bool_decide (is_Some (msg_tool_calls message)).

(** The fuel that decoding [dumps v] takes. *)
Fixpoint need (v : json) : nat :=
  match v with
  | JArr items => S (fold_right (fun x acc => S (Nat.max (need x) acc)) 0%nat items)
  | JObj members =>
      S (fold_right (fun kv acc => S (Nat.max (need (snd kv)) acc)) 0%nat members)
  | _ => 1%nat
  end.

Definition need_items (items : list json) : nat :=
  fold_right (fun x acc => S (Nat.max (need x) acc)) 0%nat items.

Definition need_members (members : list (string * json)) : nat :=
  fold_right (fun kv acc => S (Nat.max (need (snd kv)) acc)) 0%nat members.

Definition dumps_member (kv : string * json) : string :=
  encode_str (fst kv) +:+ ": " +:+ dumps (snd kv).

(** A tool result entry that the formatter can encode: it holds [json],
    [image] or [text]. *)
Definition supported_entry (c : ToolResultContent) : Prop :=
  is_Some (trc_json c) \/ is_Some (trc_image c) \/ is_Some (trc_text c).

(** The content block that stands for a tool result entry. *)
Definition entry_block (c : ToolResultContent) : ContentBlock :=
  match trc_json c with
  | Some j => text_block (dumps j)
  | None => as_content_block c
  end.

Definition json_entry (j : json) : ToolResultContent :=
  {| trc_json := Some j; trc_text := None; trc_image := None;
     trc_first_key := Some "json" |}.

Definition text_entry (t : string) : ToolResultContent :=
  {| trc_json := None; trc_text := Some t; trc_image := None;
     trc_first_key := Some "text" |}.

Definition weather_result : ToolResult :=
  {| tr_toolUseId := "call_a";
     tr_content := [text_entry "ok";
                    json_entry (JObj [("result", JInt 42);
                                      ("tags", JArr [JStr "a"; JNull; JBool true])])] |}.

(** The string does not go on with a digit. *)
Definition ends_number (rest : string) : Prop :=
  match rest with
  | String c _ => is_digit c = false
  | EmptyString => True
  end.

(** The digits of a number: not empty, without a sign, and without a
    leading zero. *)
Definition plain_digits (ds : string) : Prop :=
  match ds with
  | EmptyString => False
  | String c ds' =>
      is_digit c = true /\ (Ascii.eqb c "0" && negb (String.eqb ds' "") = false)
  end.

(** The first character of [dumps v] opens a value. *)
Definition opens_value (c : ascii) : Prop :=
  is_ws c = false /\ Ascii.eqb c "]" = false /\ Ascii.eqb c "}" = false.

(** Decoding [dumps v] followed by [rest] gives [v] and [rest]. *)
Definition decodes (v : json) : Prop :=
  forall fuel rest,
    (need v <= fuel)%nat -> ends_number rest ->
    parse_value fuel (dumps v +:+ rest) = Some (v, rest).

(** The dict before the tools are added. *)
Definition request_base (self : PortkeyModel) (formatted : list FormattedMessage)
  : gmap string PayloadValue :=
  (PParam <$> default ∅ (params (config self))) ∪
  <["messages" := PMessages formatted]>
    (<["model" := PStr (model_id (config self))]>
      (<["stream" := PBool true]>
        (<["stream_options" := PStreamOptions true]> ∅))).

(** A content block that the formatter can encode: its tool result, if
    any, has supported entries, and a block that is neither a tool use
    nor a tool result holds [image] or [text]. *)
Definition encodable_block (b : ContentBlock) : Prop :=
  match toolResult b with
  | Some tool_result => Forall supported_entry (tr_content tool_result)
  | None =>
      match toolUse b with
      | Some _ => True
      | None => is_Some (image b) \/ is_Some (text b)
      end
  end.

(** ** _config.py and the configuration methods of [PortkeyModel] *)

(** [str.isspace] on one character of code point below 256. *)
Definition isspace (c : ascii) : bool :=
  let n := N_of_ascii c in
  ((9 <=? n)%N && (n <=? 13)%N) || ((28 <=? n)%N && (n <=? 32)%N)
  || (n =? 133)%N || (n =? 160)%N.

Fixpoint lstrip (s : string) : string :=
  match s with
  | String c s' => if isspace c then lstrip s' else s
  | EmptyString => ""
  end.

Fixpoint rstrip (s : string) : string :=
  match s with
  | String c s' =>
      let r := rstrip s' in
      if isspace c && String.eqb r "" then "" else String c r
  | EmptyString => ""
  end.

(** [str.strip()] *)
Definition strip (s : string) : string := rstrip (lstrip s).

(** The validator of [model_id]: it returns the value it was given. *)
Definition model_id_not_empty (v : string) : Result string :=
  if negb (truthy_str (Some (strip v)))
  then Raise (ValueError "model_id must not be empty or whitespace")
  else Return v.

(** What pydantic reports: a required field is missing, or a validator
    raised a [ValueError]. *)
Inductive ValidationError : Type :=
| field_required (field : string)
| value_error (field : string) (msg : string).

(** The keyword arguments of [PortkeyConfig]: each field is given or
    not; [params] may be given as [None]. *)
Record ConfigFields : Type := {
  given_model_id : option string;
  given_params : option (option (gmap string json))
}.

(** The constructor [PortkeyConfig], called with [fields] as keyword
    arguments. *)
Definition PortkeyConfig_init (fields : ConfigFields)
  : ValidationError + PortkeyConfig :=
  match given_model_id fields with
  | None => inl (field_required "model_id")
  | Some v =>
      match model_id_not_empty v with
      | Raise e => inl (value_error "model_id" (str e))
      | Return v' =>
          inr {| model_id := v'; params := default None (given_params fields) |}
      end
  end.

(** [config.model_dump()] *)
Definition model_dump (cfg : PortkeyConfig) : ConfigFields :=
  {| given_model_id := Some (model_id cfg); given_params := Some (params cfg) |}.

(** The dict display that unpacks [a] and then [b]: the keys of [b] win. *)
Definition overlay (a b : ConfigFields) : ConfigFields :=
  {| given_model_id := match given_model_id b with
                       | Some v => Some v
                       | None => given_model_id a
                       end;
     given_params := match given_params b with
                     | Some p => Some p
                     | None => given_params a
                     end |}.

(** The constructor of [PortkeyModel]; [AsyncPortkey_new] builds the
    client from its keyword arguments. *)
Definition PortkeyModel_init
    (AsyncPortkey_new : gmap string json -> AsyncPortkey)
    (client_args : option (gmap string json))
    (model_config : ConfigFields)
  : ValidationError + PortkeyModel :=
  match PortkeyConfig_init model_config with
  | inl err => inl err
  | inr cfg =>
      inr {| config := cfg; client := AsyncPortkey_new (default ∅ client_args) |}
  end.

(** [self.update_config], called with [model_config] as keyword
    arguments: the model after the call and
    the error raised, if any.  The assignment to [self.config] is not
    reached when the constructor raises. *)
Definition update_config (self : PortkeyModel) (model_config : ConfigFields)
  : PortkeyModel * option ValidationError :=
  match PortkeyConfig_init (overlay (model_dump (config self)) model_config) with
  | inl err => (self, Some err)
  | inr cfg => ({| config := cfg; client := client self |}, None)
  end.

Definition get_config (self : PortkeyModel) : PortkeyConfig := config self.

(** Every character of the string is white space. *)
Fixpoint all_space (s : string) : bool :=
  match s with
  | String c s' => isspace c && all_space s'
  | EmptyString => true
  end.

Definition no_fields : ConfigFields :=
  {| given_model_id := None; given_params := None |}.

(** What the formatter raises at a dict that it cannot encode, given
    the first key of the dict: the [TypeError] that names the key, or
    the [StopIteration] of [next] when the dict is empty. *)
Definition unsupported_error (key : option string) : exn :=
  match key with
  | Some key => TypeError ("content_type=<" +:+ key +:+ "> | unsupported type")
  | None => StopIteration
  end.

(** The block is not the empty dict, and no entry of its tool result
    is. *)
Definition has_keys (b : ContentBlock) : Prop :=
  is_Some (first_key b) /\
  forall tool_result,
    toolResult b = Some tool_result ->
    Forall (fun c => is_Some (trc_first_key c)) (tr_content tool_result).

(** The tool results of a conversation, in the order of the blocks. *)
Definition tool_results (messages : list Message) : list ToolResult :=
  concat (List.map (fun message => omap toolResult (content message)) messages).

Definition is_tool_message (m : FormattedMessage) : bool :=
  String.eqb (msg_role m) "tool".

Definition has_entries (tool_result : ToolResult) : bool :=
  truthy_list (tr_content tool_result).

(** A block that is neither a tool use nor a tool result: the condition
    of the first comprehension of the loop. *)
Definition plain_block (c : ContentBlock) : bool :=
  negb (bool_decide (is_Some (toolResult c)) || bool_decide (is_Some (toolUse c))).

(** The message that one turn of the loop builds from the parts of its
    plain blocks. *)
Definition own_message (message : Message) (parts : list FormattedContent)
  : FormattedMessage :=
  let formatted_tool_calls :=
    List.map (format_request_message_tool_call) (omap toolUse (content message)) in
  {| msg_role := role_str (role message);
     msg_content := ContentParts parts;
     msg_tool_calls :=
       if truthy_list formatted_tool_calls then Some formatted_tool_calls else None;
     msg_tool_call_id := None |}.

Definition empty_result : ToolResult :=
  {| tr_toolUseId := "call_b"; tr_content := [] |}.

Definition result_block (tool_result : ToolResult) : ContentBlock :=
  {| text := None; image := None; toolUse := None; toolResult := Some tool_result;
     first_key := Some "toolResult" |}.

Definition use_block (tool_use : ToolUse) : ContentBlock :=
  {| text := None; image := None; toolUse := Some tool_use; toolResult := None;
     first_key := Some "toolUse" |}.

(** A block of another kind, [{"audio": ...}], and the empty dict. *)
Definition unsupported_block : ContentBlock :=
  {| text := None; image := None; toolUse := None; toolResult := None;
     first_key := Some "audio" |}.

Definition empty_block : ContentBlock :=
  {| text := None; image := None; toolUse := None; toolResult := None;
     first_key := None |}.

Definition weather_use : ToolUse :=
  {| tu_toolUseId := "call_a"; tu_name := "get_weather";
     tu_input := JObj [("city", JStr "Paris"); ("days", JInt 2)] |}.

(** A question, the tool use that answers it, and a message that holds
    two tool results, one of them with no content. *)
Definition weather_conversation : list Message :=
  [ {| role := user; content := [text_block "Weather in Paris?"] |};
    {| role := assistant; content := [use_block weather_use] |};
    {| role := user;
       content := [result_block empty_result; result_block weather_result] |} ].

(** The text, and the reasoning text, carried by the deltas of a list of
    events. *)
Fixpoint joined_text (evs : list StreamEvent) : string :=
  match evs with
  | [] => ""
  | contentBlockDelta (DeltaText (DataStr t)) :: evs' => t +:+ joined_text evs'
  | _ :: evs' => joined_text evs'
  end.

Fixpoint joined_reasoning (evs : list StreamEvent) : string :=
  match evs with
  | [] => ""
  | contentBlockDelta (DeltaReasoningContent (DataStr t)) :: evs' =>
      t +:+ joined_reasoning evs'
  | _ :: evs' => joined_reasoning evs'
  end.

(** [delta.content] and [delta.reasoning_content] of the first choice of
    a chunk, the empty string when there is none. *)
Definition chunk_text (c : ChatCompletionChunk) : string :=
  match choices c with
  | choice :: _ => default "" (delta_content (choice_delta choice))
  | [] => ""
  end.

Definition chunk_reasoning (c : ChatCompletionChunk) : string :=
  match choices c with
  | choice :: _ => default "" (delta_reasoning_content (choice_delta choice))
  | [] => ""
  end.

Fixpoint concat_strings (l : list string) : string :=
  match l with
  | [] => ""
  | s :: l' => s +:+ concat_strings l'
  end.

(** The content blocks of a list of events, read from a state [open]
    that tells whether a block is open: [None] when an event is out of
    place - a block opened inside a block, a delta or a stop outside a
    block, another event inside a block - and otherwise the state after
    the last event. *)
Fixpoint bracket_state (open : bool) (evs : list StreamEvent) : option bool :=
  match evs with
  | [] => Some open
  | contentBlockStart _ :: evs' => if open then None else bracket_state true evs'
  | contentBlockDelta _ :: evs' => if open then bracket_state true evs' else None
  | contentBlockStop :: evs' => if open then bracket_state false evs' else None
  | _ :: evs' => if open then None else bracket_state false evs'
  end.

(** A chunk cut down to its first choice, and an iterator that delivers
    its chunks cut down so. *)
Definition first_choice_only (c : ChatCompletionChunk) : ChatCompletionChunk :=
  {| choices := take 1 (choices c); usage := usage c |}.

Definition first_choices (response : AsyncStream) : AsyncStream :=
  {| delivered_chunks := List.map first_choice_only (delivered_chunks response);
     raised_after := raised_after response |}.

(** A model whose gateway answers every streaming call with the
    iterator [response]. *)
Definition model_streaming (response : AsyncStream) : PortkeyModel :=
  {| config := {| model_id := "gpt-4o"; params := None |};
     client := {| chat_completions_create := fun _ => Return response;
                  beta_chat_completions_parse :=
                    fun _ _ _ => Raise (ApiError "unused") |} |}.

(** An iterator that raises after its first chunk, and one whose tool
    call arrives with a fragment that has no [function]. *)
Definition broken_stream : AsyncStream :=
  {| delivered_chunks := [text_chunk "Hel"];
     raised_after := Some (ApiError "Connection reset") |}.

Definition headless_fragment : ChoiceDeltaToolCall :=
  {| tc_index := 0; tc_id := None; tc_function := None |}.

(** A chunk with two choices: the second one says other things. *)
Definition two_choice_chunk : ChatCompletionChunk :=
  {| choices := [ {| choice_delta := {| delta_content := Some "Hi";
                                        delta_reasoning_content := None;
                                        delta_tool_calls := None |};
                     finish_reason := None |};
                  {| choice_delta := {| delta_content := Some "Bye";
                                        delta_reasoning_content := None;
                                        delta_tool_calls := None |};
                     finish_reason := Some "length" |} ];
     usage := None |}.

(** Extra parameters that set one standard key and one key of their own. *)
Definition sampling_params : gmap string json :=
  <["model" := JStr "gpt-4o-mini"]> (<["temperature" := JInt 0]> ∅).

(** The [messages] argument of the structured-output call: the entry
    [messages] of the request. *)
Definition sent_messages (self : PortkeyModel) (formatted : list FormattedMessage)
  : PayloadValue :=
  match default ∅ (params (config self)) !! "messages" with
  | Some v => PParam v
  | None => PMessages formatted
  end.

(** The message holds a block of its own - one that is neither a tool
    use nor a tool result - or a tool use. *)
Definition has_own_content (message : Message) : bool :=
  truthy_list (List.filter plain_block (content message))
  || truthy_list (omap toolUse (content message)).

Definition is_turn_message (m : FormattedMessage) : bool :=
  String.eqb (msg_role m) "user" || String.eqb (msg_role m) "assistant".

(* ===================================================================== *)
(** * Lemmas on generators and on the two loops of [stream] *)
(* ===================================================================== *)


Lemma gbind_return {E A B} evs (a : A) (k : A -> Gen E B) :
  mbind k ((evs, Return a) : Gen E A) = (evs ++ events (k a), outcome (k a)).
Proof. unfold mbind, Gen_bind, gbind, events, outcome. by destruct (k a). Qed.

Lemma gbind_raise {E A B} evs e (k : A -> Gen E B) :
  mbind k ((evs, Raise e) : Gen E A) = (evs, Raise e).
Proof. reflexivity. Qed.

Lemma consumed_remaining response : consumed response ++ remaining response = response.
Proof.
  induction response as [|c rest IH]; simpl; [done|].
  destruct (ends_phase c); simpl; [done | by rewrite IH].
Qed.

Lemma fragments_cons c cs : fragments (c :: cs) = chunk_fragments c ++ fragments cs.
Proof. reflexivity. Qed.

Lemma accumulate_app a b d : accumulate (a ++ b) d = accumulate b (accumulate a d).
Proof. apply fold_left_app. Qed.

Lemma yield_text_delta s :
  yield_chunk {| chunk_type := "content_delta"; data_type := Some "text"; data := DataStr s |}
  = ([contentBlockDelta (DeltaText (DataStr s))], Return tt).
Proof. reflexivity. Qed.

Lemma yield_reasoning_delta s :
  yield_chunk {| chunk_type := "content_delta"; data_type := Some "reasoning_content";
                 data := DataStr s |}
  = ([contentBlockDelta (DeltaReasoningContent (DataStr s))], Return tt).
Proof. reflexivity. Qed.

Lemma content_loop_nf failure response l :
  content_loop failure response l =
  match failure, existsb ends_phase response with
  | Some e, false => (concat (List.map chunk_events response), Raise e)
  | _, _ =>
      (concat (List.map chunk_events (consumed response)),
       Return ({| tool_calls :=
                    accumulate (fragments (consumed response)) (tool_calls l);
                  var_choice := last_choice (consumed response) (var_choice l);
                  var_event := match last (consumed response) with
                               | Some event => Some event
                               | None => var_event l
                               end |},
               remaining response))
  end.
Proof.
  revert l. induction response as [|c rest IH]; intros l.
  - destruct failure; by destruct l.
  - cbn [content_loop].
    destruct (choices c) as [|choice chs] eqn:Hc.
    + assert (ends_phase c = false) as Hends by (unfold ends_phase; by rewrite Hc).
      assert (chunk_events c = []) as Hevs by (unfold chunk_events; by rewrite Hc).
      assert (chunk_fragments c = []) as Hfrags
        by (unfold chunk_fragments; by rewrite Hc).
      cbn [existsb consumed remaining List.map concat]. rewrite Hends, IH.
      cbn [orb tool_calls var_choice var_event List.map concat].
      rewrite last_cons, fragments_cons, Hfrags, Hevs. unfold last_choice.
      cbn [fold_left app]. rewrite Hc.
      destruct failure, (existsb ends_phase rest); by destruct (last (consumed rest)).
    + rewrite yield_text_delta, yield_reasoning_delta.
      assert (ends_phase c = truthy_str (finish_reason choice)) as Hends
        by (unfold ends_phase; by rewrite Hc).
      cbn [existsb consumed remaining]. rewrite Hends.
      destruct (truthy_str (finish_reason choice)) eqn:Hfin.
      * cbn [orb].
        unfold fragments, chunk_events, chunk_fragments, last_choice, accumulate.
        cbn [map concat fold_left last]. rewrite Hc, !app_nil_r.
        destruct failure;
          by destruct (truthy_str (delta_content _)),
                      (truthy_str (delta_reasoning_content _)).
      * assert (chunk_events c =
                (if truthy_str (delta_content (choice_delta choice))
                 then [contentBlockDelta
                         (DeltaText (DataStr (default ""
                            (delta_content (choice_delta choice)))))]
                 else []) ++
                (if truthy_str (delta_reasoning_content (choice_delta choice))
                 then [contentBlockDelta
                         (DeltaReasoningContent (DataStr (default ""
                            (delta_reasoning_content (choice_delta choice)))))]
                 else [])) as Hevs
          by (unfold chunk_events; by rewrite Hc).
        assert (chunk_fragments c =
                default [] (delta_tool_calls (choice_delta choice))) as Hfrags
          by (unfold chunk_fragments; by rewrite Hc).
        assert (forall cs init, last_choice (c :: cs) init =
                                last_choice cs (Some choice)) as Hlast
          by (intros cs init; unfold last_choice; cbn [fold_left]; by rewrite Hc).
        rewrite IH. cbn [tool_calls var_choice var_event orb List.map concat].
        rewrite last_cons, fragments_cons, accumulate_app, Hlast, Hevs, Hfrags.
        unfold accumulate at 2 4.
        destruct failure, (existsb ends_phase rest), (last (consumed rest));
          by destruct (truthy_str (delta_content _)),
                      (truthy_str (delta_reasoning_content _)).
Qed.

Lemma content_loop_eq response l :
  content_loop None response l =
  (concat (List.map chunk_events (consumed response)),
   Return ({| tool_calls := accumulate (fragments (consumed response)) (tool_calls l);
              var_choice := last_choice (consumed response) (var_choice l);
              var_event := match last (consumed response) with
                           | Some event => Some event
                           | None => var_event l
                           end |},
           remaining response)).
Proof. by rewrite content_loop_nf. Qed.

Lemma setdefault_append_nonempty k v d :
  Forall (fun p => p.2 <> []) d -> Forall (fun p => p.2 <> []) (setdefault_append k v d).
Proof.
  induction 1 as [|[k' vs] d Hp Hd IH]; simpl.
  - by repeat constructor.
  - destruct (Z.eqb k' k); constructor; simpl in *; auto.
    by destruct vs.
Qed.

Lemma accumulate_nonempty frags d :
  Forall (fun p => p.2 <> []) d -> Forall (fun p => p.2 <> []) (accumulate frags d).
Proof.
  revert d. induction frags as [|f frags IH]; intros d Hd; simpl; [done|].
  apply IH. by apply setdefault_append_nonempty.
Qed.

Lemma yield_tool_start d :
  yield_chunk {| chunk_type := "content_start"; data_type := Some "tool";
                 data := DataToolCall d |}
  = match tc_function d with
    | Some fn =>
        ([contentBlockStart (Some {| start_name := fn_name fn;
                                     start_toolUseId := tc_id d |})],
         Return tt)
    | None => ([], Raise (AttributeError "NoneType" "name"))
    end.
Proof. unfold yield_chunk. cbn. by destruct (tc_function d). Qed.

Lemma yield_tool_delta d :
  yield_chunk {| chunk_type := "content_delta"; data_type := Some "tool";
                 data := DataToolCall d |}
  = match tc_function d with
    | Some _ => ([tool_delta_event d], Return tt)
    | None => ([], Raise (AttributeError "NoneType" "arguments"))
    end.
Proof.
  unfold yield_chunk, tool_delta_event. cbn. by destruct (tc_function d).
Qed.

Lemma for_each_yield_chunks (l : list ChoiceDeltaToolCall) :
  Forall has_function l ->
  for_each l (fun tool_delta =>
    yield_chunk {| chunk_type := "content_delta"; data_type := Some "tool";
                   data := DataToolCall tool_delta |})
  = (List.map tool_delta_event l, Return tt).
Proof.
  induction 1 as [|d l [fn Hd] _ IH]; [done|].
  cbn [for_each]. rewrite IH, yield_tool_delta, Hd. reflexivity.
Qed.

Lemma flush_tool_call_eq tool_deltas :
  tool_deltas <> [] -> Forall has_function tool_deltas ->
  flush_tool_call tool_deltas = (tool_block tool_deltas, Return tt).
Proof.
  destruct tool_deltas as [|first rest]; [done|]. intros _ Hfun.
  unfold flush_tool_call.
  change (call (Return first)) with (([], Return first) : Gen StreamEvent _).
  rewrite gbind_return. cbn [app].
  rewrite for_each_yield_chunks, yield_tool_start by done.
  inversion Hfun as [|? ? [fn Hfirst] _]; subst. unfold tool_block.
  rewrite Hfirst. reflexivity.
Qed.

Lemma flush_all_eq (calls : list (list ChoiceDeltaToolCall)) :
  Forall (fun tds => tds <> [] /\ Forall has_function tds) calls ->
  for_each calls flush_tool_call = (concat (List.map tool_block calls), Return tt).
Proof.
  induction 1 as [|tds calls [Hne Hfun] Hcalls IH]; [done|].
  cbn [for_each map concat]. rewrite flush_tool_call_eq, IH by done.
  by rewrite gbind_return.
Qed.

Lemma setdefault_append_Forall (P : ChoiceDeltaToolCall -> Prop) k v d :
  P v -> Forall (fun p => Forall P p.2) d ->
  Forall (fun p => Forall P p.2) (setdefault_append k v d).
Proof.
  intros Hv. induction 1 as [|[k' vs] d Hp Hd IH]; simpl.
  - by repeat constructor.
  - destruct (Z.eqb k' k); constructor; simpl in *; auto.
    apply Forall_app. by split; [|repeat constructor].
Qed.

Lemma accumulate_Forall (P : ChoiceDeltaToolCall -> Prop) frags d :
  Forall P frags -> Forall (fun p => Forall P p.2) d ->
  Forall (fun p => Forall P p.2) (accumulate frags d).
Proof.
  intros Hfrags. revert d.
  induction Hfrags as [|f frags Hf _ IH]; intros d Hd; simpl; [done|].
  apply IH. by apply setdefault_append_Forall.
Qed.

Lemma yield_message_stop choice :
  yield_chunk {| chunk_type := "message_stop"; data_type := None;
                 data := finish_reason_data choice |}
  = ([messageStop (stop_reason (finish_reason choice))], Return tt).
Proof.
  unfold yield_chunk, format_chunk, finish_reason_data, stop_reason. cbn [chunk_type data String.eqb Ascii.eqb].
  simpl.
  destruct (finish_reason choice) as [s|]; simpl.
  - destruct (String.eqb_spec s "tool_calls") as [->|H1]; [done|].
    destruct (String.eqb_spec s "length") as [->|H2]; [done|].
    rewrite !decide_False by congruence. done.
  - done.
Qed.

Lemma last_choice_some_last cs choice :
  last_choice cs None = Some choice -> is_Some (last cs).
Proof.
  destruct cs as [|c cs]; [done|]. intros _. rewrite last_cons. by destruct (last cs).
Qed.

Lemma last_consumed_remaining response :
  last response = match last (remaining response) with
                  | Some e => Some e
                  | None => last (consumed response)
                  end.
Proof. by rewrite <- (consumed_remaining response) at 1; rewrite last_app. Qed.

(** The run of [stream_response], in general: the first loop fails
    when the iterator raises before a finish reason; otherwise the text
    block is closed and the tool calls are flushed, which fails at a
    fragment without [function]; then [choice] is read, [messageStop]
    yielded, and the iterator drained, which fails when it raises. *)
Lemma stream_response_nf response :
  let cs := delivered_chunks response in
  let flush :=
    for_each (List.map snd (accumulate (fragments (consumed cs)) []))
             flush_tool_call in
  stream_response response =
  match raised_after response, existsb ends_phase cs with
  | Some e, false =>
      ([messageStart "assistant"; contentBlockStart None] ++
       concat (List.map chunk_events cs), Raise e)
  | failure, _ =>
      match outcome flush with
      | Raise e => (text_phase_events cs ++ events flush, Raise e)
      | Return _ =>
          match last_choice (consumed cs) None with
          | None =>
              (text_phase_events cs ++ events flush,
               Raise (UnboundLocalError "choice"))
          | Some choice =>
              match failure with
              | Some e =>
                  (text_phase_events cs ++ events flush ++
                   [messageStop (stop_reason (finish_reason choice))], Raise e)
              | None =>
                  (text_phase_events cs ++ events flush ++
                   [messageStop (stop_reason (finish_reason choice))] ++
                   metadata_events (final_usage cs), Return tt)
              end
          end
      end
  end.
Proof.
  cbn zeta. unfold stream_response.
  change (yield_chunk {| chunk_type := "message_start"; data_type := None; data := DataNone |})
    with (([messageStart "assistant"], Return tt) : Gen StreamEvent unit).
  change (yield_chunk {| chunk_type := "content_start"; data_type := Some "text"; data := DataNone |})
    with (([contentBlockStart None], Return tt) : Gen StreamEvent unit).
  change (yield_chunk {| chunk_type := "content_stop"; data_type := Some "text"; data := DataNone |})
    with (([contentBlockStop], Return tt) : Gen StreamEvent unit).
  rewrite content_loop_nf.
  set (cs := delivered_chunks response).
  assert (forall ev, last (consumed cs) = Some ev ->
            match last (remaining cs) with
            | Some event => Some event
            | None => Some ev
            end = last cs) as Hlast.
  { intros ev He. by rewrite (last_consumed_remaining cs), He. }
  destruct (raised_after response) as [e|], (existsb ends_phase cs);
    try reflexivity;
    cbn [mbind Gen_bind gbind fst snd tool_calls var_choice var_event app];
    (destruct (for_each (List.map snd (accumulate (fragments (consumed cs)) []))
                        flush_tool_call) as [fevs [e'|[]]] eqn:Hflush;
     cbn [outcome events fst snd mbind Gen_bind gbind app];
     [unfold text_phase_events; by rewrite <- !app_assoc|]);
    (destruct (last_choice (consumed cs) None) as [choice|] eqn:Hchoice;
     [|cbn [read_local call mbind Gen_bind gbind app];
       unfold text_phase_events; cbn [app]; by rewrite <- !app_assoc, ?app_nil_r]);
    cbn [read_local mret Gen_ret gret mbind Gen_bind gbind app];
    rewrite yield_message_stop;
    cbn [mbind Gen_bind gbind app drain_loop call mret Gen_ret gret var_event];
    try (unfold text_phase_events; cbn [app]; by rewrite <- !app_assoc).
  all: apply last_choice_some_last in Hchoice as [ev He].
  all: rewrite He, (Hlast _ He); unfold final_usage.
  all: assert (is_Some (last cs)) as [ev' Hev]
         by (rewrite <- (Hlast _ He); by destruct (last (remaining _))).
  all: rewrite Hev.
  all: cbn [read_local mret Gen_ret gret mbind Gen_bind gbind app option_bind].
  all: unfold text_phase_events.
  all: destruct (usage ev') as [u|]; cbn; rewrite <- ?app_assoc; reflexivity.
Qed.

Lemma flush_accumulated frags :
  Forall has_function frags ->
  for_each (List.map snd (accumulate frags [])) flush_tool_call =
  (concat (List.map tool_block (List.map snd (accumulate frags []))), Return tt).
Proof.
  intros Hfun. apply flush_all_eq. rewrite Forall_map.
  pose proof (accumulate_nonempty frags [] ltac:(constructor)) as Hne.
  pose proof (accumulate_Forall has_function frags [] Hfun ltac:(constructor)) as Hall.
  rewrite Forall_forall in Hne, Hall. apply Forall_forall. intros p Hp.
  split; [by apply Hne | by apply Hall].
Qed.

Lemma stream_response_eq response :
  Forall has_function (fragments (consumed response)) ->
  stream_response (delivered response) =
  match last_choice (consumed response) None with
  | None => (content_phase_events response, Raise (UnboundLocalError "choice"))
  | Some choice =>
      (content_phase_events response ++
       [messageStop (stop_reason (finish_reason choice))] ++
       metadata_events (final_usage response),
       Return tt)
  end.
Proof.
  intros Hfun. rewrite stream_response_nf.
  cbn [delivered delivered_chunks raised_after].
  rewrite (flush_accumulated _ Hfun). cbn [outcome events fst snd].
  unfold content_phase_events, text_phase_events.
  destruct (last_choice (consumed response) None);
    cbn [app]; by rewrite <- ?app_assoc.
Qed.

Lemma in_first_occurrences x l : In x (first_occurrences l) <-> In x l.
Proof.
  induction l as [|y l IH]; simpl; [done|].
  rewrite filter_In, IH, negb_true_iff, Z.eqb_neq.
  destruct (decide (x = y)); intuition.
Qed.

Lemma NoDup_first_occurrences l : List.NoDup (first_occurrences l).
Proof.
  induction l as [|y l IH]; simpl; constructor.
  - rewrite filter_In, negb_true_iff, Z.eqb_neq. intuition.
  - by apply List.NoDup_filter.
Qed.


Lemma first_occurrences_snoc l k :
  first_occurrences (l ++ [k]) =
  if bool_decide (k ∈ l) then first_occurrences l else first_occurrences l ++ [k].
Proof.
  induction l as [|x l IH]; simpl; [done|].
  rewrite IH.
  destruct (bool_decide_reflect (k ∈ l)) as [Hl|Hl];
    destruct (bool_decide_reflect (k ∈ x :: l)) as [Hxl|Hxl];
    rewrite elem_of_cons in Hxl; try tauto.
  - destruct Hxl as [->|?]; [|done].
    rewrite List.filter_app. simpl. rewrite Z.eqb_refl. simpl. by rewrite app_nil_r.
  - rewrite List.filter_app. simpl.
    destruct (Z.eqb_spec k x); [tauto|]. done.
Qed.

Lemma fragments_of_snoc i frags f :
  fragments_of i (frags ++ [f]) =
  fragments_of i frags ++ (if Z.eqb (tc_index f) i then [f] else []).
Proof. unfold fragments_of. by rewrite List.filter_app. Qed.

Lemma setdefault_append_absent k f frags keys :
  ~ In k keys ->
  setdefault_append k f (grouped frags keys) = grouped frags keys ++ [(k, [f])].
Proof.
  induction keys as [|i keys IH]; simpl; intros Hk; [done|].
  destruct (Z.eqb_spec i k); [intuition|]. rewrite IH by intuition. done.
Qed.

Lemma setdefault_append_present k f frags keys :
  tc_index f = k -> In k keys -> List.NoDup keys ->
  setdefault_append k f (grouped frags keys) = grouped (frags ++ [f]) keys.
Proof.
  intros Hf. induction keys as [|i keys IH]; simpl; intros Hk Hnd; [done|].
  inversion Hnd as [|? ? Hi Hnd']; subst.
  rewrite fragments_of_snoc.
  destruct (Z.eqb_spec i (tc_index f)) as [->|Hne].
  - rewrite Z.eqb_refl. f_equal.
    unfold grouped. apply map_ext_in. intros j Hj.
    rewrite fragments_of_snoc.
    destruct (Z.eqb_spec (tc_index f) j); [congruence|]. by rewrite app_nil_r.
  - destruct (Z.eqb_spec (tc_index f) i); [congruence|]. rewrite app_nil_r.
    f_equal. apply IH; [|done]. destruct Hk; [congruence|done].
Qed.

Lemma grouped_snoc_absent frags f keys :
  ~ In (tc_index f) keys ->
  grouped (frags ++ [f]) keys = grouped frags keys.
Proof.
  intros Hk. unfold grouped. apply map_ext_in. intros j Hj.
  rewrite fragments_of_snoc.
  destruct (Z.eqb_spec (tc_index f) j); [congruence|]. by rewrite app_nil_r.
Qed.

Lemma fragments_of_absent i frags :
  ~ In i (List.map tc_index frags) -> fragments_of i frags = [].
Proof.
  induction frags as [|f frags IH]; simpl; intros H; [done|].
  destruct (Z.eqb_spec (tc_index f) i); [intuition|]. apply IH. intuition.
Qed.

(** The dict built by [setdefault(...).append(...)]: one entry per index,
    in the order in which the indices first arrive, each holding the
    fragments of its index in arrival order. *)
Lemma accumulate_grouped frags :
  accumulate frags [] =
  grouped frags (first_occurrences (List.map tc_index frags)).
Proof.
  induction frags as [|f frags IH] using rev_ind; [done|].
  rewrite accumulate_app, IH. cbn [accumulate fold_left].
  rewrite List.map_app. cbn [List.map]. rewrite first_occurrences_snoc.
  case_bool_decide as Hin; rewrite list_elem_of_In in Hin.
  - apply setdefault_append_present; [done| |apply NoDup_first_occurrences].
    by apply in_first_occurrences.
  - rewrite setdefault_append_absent by (by rewrite in_first_occurrences).
    unfold grouped at 2. rewrite List.map_app. cbn [List.map]. f_equal.
    + symmetry. apply grouped_snoc_absent. by rewrite in_first_occurrences.
    + rewrite fragments_of_snoc, Z.eqb_refl, fragments_of_absent by done. done.
Qed.

(* ===================================================================== *)
(** * Substrings *)
(* ===================================================================== *)

Lemma startswith_spec pat s :
  startswith pat s = true <-> exists post, s = pat +:+ post.
Proof.
  revert s. induction pat as [|a pat IH]; intros s; simpl.
  - split; [intros _; by exists s | done].
  - destruct s as [|b s].
    + split; [done | intros [post H]; discriminate].
    + rewrite andb_true_iff, IH. split.
      * intros [Hab [post ->]]. apply Ascii.eqb_eq in Hab as ->. by exists post.
      * intros [post H]. injection H as -> ->.
        split; [apply Ascii.eqb_refl | by exists post].
Qed.

Lemma contains_spec pat s : contains pat s = true <-> substring_of pat s.
Proof.
  induction s as [|c s IH]; simpl.
  - rewrite orb_false_r, startswith_spec. split.
    + intros [post H]. by exists "", post.
    + intros [pre [post H]]. destruct pre; [by exists post | discriminate].
  - rewrite orb_true_iff, startswith_spec, IH. split.
    + intros [[post H] | [pre [post H]]].
      * by exists "", post.
      * exists (String c pre), post. simpl. by rewrite H.
    + intros [pre [post H]]. destruct pre as [|c' pre].
      * left. by exists post.
      * right. injection H as -> ->. by exists pre, post.
Qed.

Lemma append_cons c s t : String c s +:+ t = String c (s +:+ t).
Proof. reflexivity. Qed.

Lemma append_nil_l t : "" +:+ t = t.
Proof. reflexivity. Qed.

Lemma append_assoc s t u : (s +:+ t) +:+ u = s +:+ (t +:+ u).
Proof. induction s as [|c s IH]; [done|]. by rewrite !append_cons, IH. Qed.

Lemma append_nil_r s : s +:+ "" = s.
Proof. induction s as [|c s IH]; [done|]. by rewrite append_cons, IH. Qed.

Lemma length_append s t :
  String.length (s +:+ t) = (String.length s + String.length t)%nat.
Proof. induction s as [|c s IH]; [done|]. rewrite append_cons. simpl. by rewrite IH. Qed.

Lemma lower_append s t : lower (s +:+ t) = lower s +:+ lower t.
Proof. induction s as [|c s IH]; [done|]. rewrite append_cons. simpl. by rewrite IH. Qed.

Lemma substring_of_lower pre mid post :
  substring_of (lower mid) (lower (pre +:+ mid +:+ post)).
Proof. exists (lower pre), (lower post). by rewrite !lower_append. Qed.

Lemma lower_split s a b :
  lower s = a +:+ b ->
  exists s1 s2, s = s1 +:+ s2 /\ lower s1 = a /\ lower s2 = b.
Proof.
  revert s. induction a as [|c a IH]; intros s H.
  - by exists "", s.
  - destruct s as [|c' s]; [discriminate|].
    rewrite append_cons in H. cbn [lower] in H. injection H as Hc H.
    destruct (IH _ H) as (s1 & s2 & -> & H1 & H2).
    exists (String c' s1), s2. cbn [lower]. by rewrite Hc, H1, H2.
Qed.

(** The characters, for proofs by cases on a character. *)
Lemma all_ascii_complete (P : ascii -> bool) :
  forallb P (List.map ascii_of_nat (seq 0 256)) = true -> forall c, P c = true.
Proof.
  intros H c. rewrite forallb_forall in H. apply H.
  rewrite <- (ascii_nat_embedding c). apply in_map, in_seq.
  pose proof (nat_ascii_bounded c). lia.
Qed.

Lemma lower_char_up_to_case c p :
  fragment_char p = true ->
  Ascii.eqb (lower_char c) p = same_up_to_case c p.
Proof.
  assert (forallb
            (fun c => forallb
                        (fun p => implb (fragment_char p)
                                    (Bool.eqb (Ascii.eqb (lower_char c) p)
                                              (same_up_to_case c p)))
                        (List.map ascii_of_nat (seq 0 256)))
            (List.map ascii_of_nat (seq 0 256)) = true) as Hall
    by (vm_compute; reflexivity).
  intros Hp.
  pose proof (all_ascii_complete _ Hall c) as Hc. cbn beta in Hc.
  pose proof (all_ascii_complete _ Hc p) as H. cbn beta in H.
  rewrite Hp in H. cbn [implb] in H. by apply Bool.eqb_prop in H.
Qed.

Lemma reads_as_lower mid fragment :
  fragment_text fragment = true ->
  reads_as mid fragment = true <-> lower mid = fragment.
Proof.
  revert mid. induction fragment as [|p fragment IH]; intros mid Hplain.
  - destruct mid; [done|]. by split.
  - cbn [fragment_text] in Hplain. apply andb_true_iff in Hplain as [Hp Hplain].
    destruct mid as [|c mid]; [by split|].
    cbn [reads_as lower]. rewrite <- (lower_char_up_to_case c p Hp).
    rewrite andb_true_iff, (IH mid Hplain), Ascii.eqb_eq. split.
    + by intros [-> ->].
    + by intros [= -> ->].
Qed.

Lemma occurs_ignoring_case_contains fragment message :
  fragment_text fragment = true ->
  occurs_ignoring_case fragment message <->
  contains fragment (lower message) = true.
Proof.
  intros Hplain. rewrite contains_spec. split.
  - intros (pre & mid & post & -> & Hmid).
    apply (reads_as_lower _ _ Hplain) in Hmid as <-.
    apply substring_of_lower.
  - intros (a & b & H).
    apply lower_split in H as (pre & rest & -> & <- & H).
    apply lower_split in H as (mid & post & -> & Hmid & <-).
    exists pre, mid, post. split; [done|]. by apply reads_as_lower.
Qed.

Lemma occurs_in_fragments fragments message :
  forallb fragment_text fragments = true ->
  (exists fragment, In fragment fragments /\
                    occurs_ignoring_case fragment message) <->
  existsb (fun pattern => contains pattern (lower message)) fragments = true.
Proof.
  intros Hplain. rewrite forallb_forall in Hplain. rewrite existsb_exists.
  split; intros (fragment & Hin & H); exists fragment; (split; [done|]);
    by apply (occurs_ignoring_case_contains _ _ (Hplain _ Hin)).
Qed.

Lemma overflow_text_decide message :
  existsb (fun pattern => contains pattern (lower message))
          CONTEXT_WINDOW_OVERFLOW_MESSAGES = true
  <-> overflow_text message.
Proof.
  unfold overflow_text. rewrite existsb_exists.
  split; intros [p [Hp Hc]]; exists p; split; auto; by apply contains_spec.
Qed.

Lemma throttling_text_decide message :
  contains "rate" (lower message) || contains "429" (lower message)
  || contains "overloaded" (lower message) || contains "529" (lower message) = true
  <-> throttling_text message.
Proof.
  unfold throttling_text. rewrite !orb_true_iff, !contains_spec. tauto.
Qed.

(* ===================================================================== *)
(** * The gateway call of [stream] *)
(* ===================================================================== *)

Section GatewayCall.

Variable types_map : string -> option string.
Variable self : PortkeyModel.
Variable messages : list Message.
Variable tool_specs : option (list ToolSpec).
Variable system_prompt : option string.
Variable tool_choice : option ToolChoice.
Variable system_prompt_content : option (list SystemContentBlock).
Variable request : gmap string PayloadValue.

Hypothesis Hrequest :
  format_request types_map self messages tool_specs system_prompt tool_choice
    system_prompt_content = Return request.

Lemma stream_answered response :
  chat_completions_create (client self) request = Return response ->
  stream types_map self messages tool_specs system_prompt tool_choice
    system_prompt_content = async_generator (stream_response response).
Proof.
  intros Hcreate. unfold stream. rewrite Hrequest.
  cbn [call mbind Gen_bind gbind]. rewrite Hcreate.
  cbn [mbind Gen_bind gbind app]. by destruct (stream_response response).
Qed.

(** The gateway delivers [chunks] to the end, and every fragment read
    carries its [function]. *)
Lemma stream_delivered chunks :
  chat_completions_create (client self) request = Return (delivered chunks) ->
  Forall has_function (fragments (consumed chunks)) ->
  stream types_map self messages tool_specs system_prompt tool_choice
    system_prompt_content =
  match last_choice (consumed chunks) None with
  | None => (content_phase_events chunks, Raise (UnboundLocalError "choice"))
  | Some choice =>
      (content_phase_events chunks ++
       [messageStop (stop_reason (finish_reason choice))] ++
       metadata_events (final_usage chunks),
       Return tt)
  end.
Proof.
  intros Hcreate Hfun.
  rewrite (stream_answered _ Hcreate), (stream_response_eq _ Hfun).
  by destruct (last_choice (consumed chunks) None).
Qed.

Lemma stream_failed e :
  chat_completions_create (client self) request = Raise e ->
  stream types_map self messages tool_specs system_prompt tool_choice
    system_prompt_content =
  ([], match handle_api_error e with
       | Raise e' => Raise e'
       | Return _ => Raise (leave_generator e)
       end).
Proof.
  intros Hcreate. unfold stream. rewrite Hrequest.
  cbn [call mbind Gen_bind gbind]. rewrite Hcreate.
  unfold handle_api_error.
  destruct (existsb _ _); [reflexivity|]. by destruct (_ || _).
Qed.

End GatewayCall.

(* ===================================================================== *)
(** * The content phase *)
(* ===================================================================== *)

Lemma last_choice_from_some cs choice : is_Some (last_choice cs (Some choice)).
Proof.
  revert choice. induction cs as [|c cs IH]; intros choice; simpl; [by eexists|].
  destruct (choices c); apply IH.
Qed.

Lemma last_choice_exists response init :
  Exists (fun c => choices c <> []) response ->
  is_Some (last_choice (consumed response) init).
Proof.
  revert init. induction response as [|c rest IH]; intros init H.
  - inversion H.
  - simpl. unfold ends_phase. destruct (choices c) as [|choice chs] eqn:Hc.
    + simpl. rewrite Hc. apply IH. inversion H; subst; [congruence|done].
    + destruct (truthy_str (finish_reason choice)); simpl; rewrite Hc.
      * by eexists.
      * apply last_choice_from_some.
Qed.

Lemma no_choices_consumed response :
  Forall (fun c => choices c = []) response ->
  consumed response = response /\
  concat (List.map chunk_events response) = [] /\
  fragments response = [] /\
  forall init, last_choice response init = init.
Proof.
  induction 1 as [|c rest Hc Hrest (IH1 & IH2 & IH3 & IH4)]; [done|].
  simpl. unfold ends_phase, chunk_events, fragments, chunk_fragments.
  simpl. rewrite Hc. simpl. rewrite IH1. by repeat split.
Qed.

(** The phase ends at [fin]: nothing before it declares a finish reason. *)
Lemma consumed_split pre fin trailer :
  Forall (fun c => ends_phase c = false) pre -> ends_phase fin = true ->
  consumed (pre ++ fin :: trailer) = pre ++ [fin] /\
  remaining (pre ++ fin :: trailer) = trailer.
Proof.
  intros Hpre Hfin. induction Hpre as [|c pre Hc Hpre [IH1 IH2]]; simpl.
  - by rewrite Hfin.
  - by rewrite Hc, IH1, IH2.
Qed.

Lemma last_choice_snoc cs c choice chs init :
  choices c = choice :: chs -> last_choice (cs ++ [c]) init = Some choice.
Proof.
  intros Hc. unfold last_choice. rewrite fold_left_app. simpl. by rewrite Hc.
Qed.

Lemma chunk_events_text cs :
  Forall (fun e => is_text_delta e = true) (concat (List.map chunk_events cs)).
Proof.
  induction cs as [|c cs IH]; simpl; [constructor|].
  apply Forall_app. split; [|done]. unfold chunk_events.
  destruct (choices c) as [|choice ?]; [constructor|].
  destruct (truthy_str (delta_content _)), (truthy_str (delta_reasoning_content _));
    repeat constructor.
Qed.

Lemma tool_block_events tds :
  Forall (fun e => is_content_block e = true /\ is_text_delta e = false) (tool_block tds).
Proof.
  destruct tds as [|first rest]; [constructor|]. unfold tool_block.
  constructor; [done|]. apply Forall_app. split; [|by repeat constructor].
  apply Forall_forall. intros e He. apply list_elem_of_In, in_map_iff in He as [d [<- _]]. done.
Qed.

Lemma tool_blocks_events calls :
  Forall (fun e => is_content_block e = true /\ is_text_delta e = false)
         (concat (List.map tool_block calls)).
Proof.
  induction calls as [|tds calls IH]; simpl; [constructor|].
  apply Forall_app. split; [apply tool_block_events | done].
Qed.

Lemma content_phase_no_metadata response :
  Forall (fun e => is_metadata e = false /\ is_message_stop e = false)
         (content_phase_events response).
Proof.
  unfold content_phase_events. repeat (apply Forall_app; split).
  - by repeat constructor.
  - eapply Forall_impl; [apply chunk_events_text|]. by intros [].
  - by repeat constructor.
  - eapply Forall_impl; [apply tool_blocks_events|]. by intros [] [].
Qed.

Lemma filter_none {A} (f : A -> bool) l :
  Forall (fun x => f x = false) l -> List.filter f l = [].
Proof. induction 1 as [|x l Hx _ IH]; simpl; [done|]. by rewrite Hx. Qed.

(** Every fragment of a concrete list carries its [function]. *)
Ltac fragments_have_function :=
  cbv;
  repeat (apply Forall_cons_2; [by eexists|]); apply Forall_nil_2.

(* ===================================================================== *)
(** * Properties *)
(* ===================================================================== *)

(** C5. A gateway error is classified by its text read without regard
    to case, the first match winning: a text in which one of the six
    context-overflow fragments occurs raises
    [ContextWindowOverflowException] chained to the original error;
    otherwise a text in which ["rate"], ["429"], ["overloaded"] or
    ["529"] occurs raises [ModelThrottledException] chained to the
    original error; otherwise the original error is raised again,
    unchanged (a [StopIteration] apart, which no async generator lets
    through).  No event is yielded. *)
Theorem gateway_error_classification
    types_map self messages tool_specs system_prompt tool_choice
    system_prompt_content request e :
  format_request types_map self messages tool_specs system_prompt tool_choice
    system_prompt_content = Return request ->
  chat_completions_create (client self) request = Raise e ->
  let run := stream types_map self messages tool_specs system_prompt tool_choice
               system_prompt_content in
  let overflow :=
    exists fragment,
      In fragment ["prompt is too long"; "input is too long";
                   "maximum context length"; "context window";
                   "context length exceeded"; "too many tokens"] /\
      occurs_ignoring_case fragment (str e) in
  let throttling :=
    exists fragment,
      In fragment ["rate"; "429"; "overloaded"; "529"] /\
      occurs_ignoring_case fragment (str e) in
  (overflow ->
   run = ([], Raise (ContextWindowOverflowException (str e) e))) /\
  (~ overflow -> throttling ->
   run = ([], Raise (ModelThrottledException (str e) e))) /\
  (~ overflow -> ~ throttling -> e <> StopIteration ->
   run = ([], Raise e)).
Proof.
  intros Hrequest Hcreate run overflow throttling. subst run.
  rewrite (stream_failed _ _ _ _ _ _ _ _ Hrequest _ Hcreate).
  assert (overflow <->
          existsb (fun pattern => contains pattern (lower (str e)))
                  CONTEXT_WINDOW_OVERFLOW_MESSAGES = true) as Hoverflow
    by (by apply occurs_in_fragments).
  assert (throttling <->
          contains "rate" (lower (str e)) || contains "429" (lower (str e))
          || contains "overloaded" (lower (str e))
          || contains "529" (lower (str e)) = true) as Hthrottling.
  { subst throttling. rewrite occurs_in_fragments by done.
    cbn [existsb]. by rewrite orb_false_r, !orb_assoc. }
  unfold handle_api_error.
  destruct (existsb _ _) eqn:Hover.
  - repeat split; try done; intros Hno; exfalso; apply Hno; by apply Hoverflow.
  - assert (~ overflow) as Hno by (rewrite Hoverflow; congruence).
    destruct (contains "rate" _ || _ || _ || _) eqn:Hthr.
    + repeat split; try done. intros _ Hnot. exfalso. apply Hnot.
      by apply Hthrottling.
    + assert (~ throttling) by (rewrite Hthrottling; congruence).
      repeat split; try done. intros _ _ He. by destruct e.
Qed.

Lemma gateway_error_classification_witness :
  stream no_types
    (model_answering None
       (Raise (ApiError "This model's Maximum Context Length is 4096 tokens"))
       (Raise (ApiError "unused")))
    hi None None None None =
  ([], Raise (ContextWindowOverflowException
                "This model's Maximum Context Length is 4096 tokens"
                (ApiError "This model's Maximum Context Length is 4096 tokens")))
  /\
  stream no_types
    (model_answering None (Raise (ApiError "Error code: 429 - Too Many Requests"))
       (Raise (ApiError "unused")))
    hi None None None None =
  ([], Raise (ModelThrottledException "Error code: 429 - Too Many Requests"
                (ApiError "Error code: 429 - Too Many Requests")))
  /\
  stream no_types
    (model_answering None (Raise (ApiError "disk full"))
       (Raise (ApiError "unused")))
    hi None None None None =
  ([], Raise (ApiError "disk full")).
Proof.
  split; [|split].
  - apply (gateway_error_classification no_types
             (model_answering None
                (Raise (ApiError "This model's Maximum Context Length is 4096 tokens"))
                (Raise (ApiError "unused")))
             hi None None None None _
             (ApiError "This model's Maximum Context Length is 4096 tokens")
             eq_refl eq_refl).
    exists "maximum context length". split; [right; right; by left|].
    by exists "This model's ", "Maximum Context Length", " is 4096 tokens".
  - apply (gateway_error_classification no_types
             (model_answering None
                (Raise (ApiError "Error code: 429 - Too Many Requests"))
                (Raise (ApiError "unused")))
             hi None None None None _
             (ApiError "Error code: 429 - Too Many Requests") eq_refl eq_refl).
    + rewrite occurs_in_fragments by reflexivity. vm_compute. discriminate.
    + exists "429". split; [right; by left|].
      by exists "Error code: ", "429", " - Too Many Requests".
  - apply (gateway_error_classification no_types
             (model_answering None (Raise (ApiError "disk full"))
                (Raise (ApiError "unused")))
             hi None None None None _ (ApiError "disk full") eq_refl eq_refl).
    + rewrite occurs_in_fragments by reflexivity. vm_compute. discriminate.
    + rewrite occurs_in_fragments by reflexivity. vm_compute. discriminate.
    + discriminate.
Defined.

(** C10. When no chunk of the response, delivered to its end, carries
    choice data, [stream] yields [messageStart], the text
    [contentBlockStart] and its [contentBlockStop], and then fails with
    an [UnboundLocalError] on [choice] when it builds the
    [messageStop]. *)
Theorem stream_without_choice_data
    types_map self messages tool_specs system_prompt tool_choice
    system_prompt_content request response :
  format_request types_map self messages tool_specs system_prompt tool_choice
    system_prompt_content = Return request ->
  chat_completions_create (client self) request = Return (delivered response) ->
  Forall (fun c => choices c = []) response ->
  stream types_map self messages tool_specs system_prompt tool_choice
    system_prompt_content =
  ([messageStart "assistant"; contentBlockStart None; contentBlockStop],
   Raise (UnboundLocalError "choice")).
Proof.
  intros Hrequest Hcreate Hnone.
  destruct (no_choices_consumed _ Hnone) as (Hcons & Hev & Hfr & Hlast).
  rewrite (stream_delivered _ _ _ _ _ _ _ _ Hrequest _ Hcreate)
    by (rewrite Hcons, Hfr; constructor).
  unfold content_phase_events. rewrite Hcons, Hev, Hfr, Hlast. reflexivity.
Qed.

Lemma stream_without_choice_data_witness :
  stream no_types
    (model_answering None (Return [keepalive_chunk; usage_chunk 10 5 15])
       (Raise (ApiError "unused")))
    hi None None None None =
  ([messageStart "assistant"; contentBlockStart None; contentBlockStop],
   Raise (UnboundLocalError "choice")).
Proof.
  apply (stream_without_choice_data no_types
           (model_answering None (Return [keepalive_chunk; usage_chunk 10 5 15])
              (Raise (ApiError "unused")))
           hi None None None None _ _ eq_refl eq_refl).
  repeat constructor.
Defined.

(** C6, as amended.  In a run that reaches its end, once the chunk that
    declares the finish reason has ended the content phase, every
    remaining chunk is drained without yielding a content event: the events up to [messageStop] do not
    depend on the trailer.  One [metadata] event is yielded, last, iff
    the last chunk read - the last chunk of the trailer, or the
    finish-reason chunk itself when nothing follows it - carries a usage
    object, as when the usage arrives only after the finish-reason
    chunk; the usage of an earlier chunk is not read, and without a usage
    on the last chunk no [metadata] event is yielded. *)
Theorem trailer_drained_then_metadata
    types_map self messages tool_specs system_prompt tool_choice
    system_prompt_content request pre fin trailer choice others :
  format_request types_map self messages tool_specs system_prompt tool_choice
    system_prompt_content = Return request ->
  chat_completions_create (client self) request =
    Return (delivered (pre ++ fin :: trailer)) ->
  Forall (fun c => ends_phase c = false) pre ->
  choices fin = choice :: others ->
  truthy_str (finish_reason choice) = true ->
  Forall has_function (fragments (pre ++ [fin])) ->
  let run := stream types_map self messages tool_specs system_prompt tool_choice
               system_prompt_content in
  outcome run = Return tt /\
  remaining (pre ++ fin :: trailer) = trailer /\
  events run =
    content_phase_events (pre ++ [fin]) ++
    [messageStop (stop_reason (finish_reason choice))] ++
    metadata_events (final_usage (fin :: trailer)) /\
  Forall (fun e => is_metadata e = false) (content_phase_events (pre ++ [fin])) /\
  length (List.filter is_metadata (events run)) =
    match final_usage (fin :: trailer) with Some _ => 1%nat | None => 0%nat end /\
  (forall u, final_usage (fin :: trailer) = Some u ->
     last (events run) =
       Some (metadata {| inputTokens := prompt_tokens u;
                         outputTokens := completion_tokens u;
                         totalTokens := total_tokens u |} 0)) /\
  (final_usage (fin :: trailer) = None ->
     Forall (fun e => is_metadata e = false) (events run)).
Proof.
  intros Hrequest Hcreate Hpre Hfin Hreason Hfun run.
  assert (ends_phase fin = true) as Hends by (unfold ends_phase; by rewrite Hfin).
  destruct (consumed_split pre fin trailer Hpre Hends) as [Hcons Hrem].
  assert (content_phase_events (pre ++ fin :: trailer) = content_phase_events (pre ++ [fin]))
    as Hphase.
  { unfold content_phase_events. rewrite Hcons.
    destruct (consumed_split pre fin [] Hpre Hends) as [-> _]. done. }
  assert (final_usage (pre ++ fin :: trailer) = final_usage (fin :: trailer)) as Hfinal.
  { unfold final_usage. rewrite last_app. rewrite last_cons.
    by destruct (last trailer). }
  assert (run = (content_phase_events (pre ++ [fin]) ++
                 [messageStop (stop_reason (finish_reason choice))] ++
                 metadata_events (final_usage (fin :: trailer)), Return tt)) as Hrun.
  { subst run.
    rewrite (stream_delivered _ _ _ _ _ _ _ _ Hrequest _ Hcreate)
      by (by rewrite Hcons).
    rewrite Hcons, (last_choice_snoc _ _ _ _ _ Hfin), Hphase, Hfinal. done. }
  assert (Forall (fun e => is_metadata e = false) (content_phase_events (pre ++ [fin])))
    as Hnometa.
  { eapply Forall_impl; [apply content_phase_no_metadata|]. by intros ? []. }
  rewrite Hrun. cbn [outcome events fst snd]. repeat split; try done.
  - rewrite !List.filter_app, (filter_none _ _ Hnometa).
    by destruct (final_usage (fin :: trailer)).
  - intros u ->. by rewrite !last_app.
  - intros ->. apply Forall_app. split; [done|]. by repeat constructor.
Qed.

Lemma trailer_drained_then_metadata_witness :
  events (stream no_types
            (model_answering None
               (Return [text_chunk "Hello"; text_chunk " world"; finish_chunk "stop";
                        usage_chunk 10 5 15])
               (Raise (ApiError "unused")))
            hi None None None None) =
  [messageStart "assistant"; contentBlockStart None;
   contentBlockDelta (DeltaText (DataStr "Hello"));
   contentBlockDelta (DeltaText (DataStr " world"));
   contentBlockStop; messageStop "end_turn";
   metadata {| inputTokens := 10; outputTokens := 5; totalTokens := 15 |} 0].
Proof.
  assert (Forall (fun c => ends_phase c = false) [text_chunk "Hello"; text_chunk " world"])
    as Hpre by repeat constructor.
  destruct (trailer_drained_then_metadata no_types
              (model_answering None
                 (Return [text_chunk "Hello"; text_chunk " world"; finish_chunk "stop";
                          usage_chunk 10 5 15])
                 (Raise (ApiError "unused")))
              hi None None None None _
              [text_chunk "Hello"; text_chunk " world"] (finish_chunk "stop")
              [usage_chunk 10 5 15] _ _ eq_refl eq_refl Hpre eq_refl eq_refl
              ltac:(constructor))
    as (_ & _ & Hevents & _).
  exact Hevents.
Defined.

(** C6, as stated, fails: a usage object read in the trailer, but not on
    its last chunk, gives no [metadata] event. *)
Lemma usage_before_the_last_chunk_is_not_read :
  let trailer := [usage_chunk 10 5 15; keepalive_chunk] in
  Exists (fun c => is_Some (usage c)) trailer /\
  stream no_types
    (model_answering None (Return (finish_chunk "stop" :: trailer))
       (Raise (ApiError "unused")))
    hi None None None None =
  ([messageStart "assistant"; contentBlockStart None; contentBlockStop;
    messageStop "end_turn"], Return tt).
Proof. split; [left; by eexists | reflexivity]. Qed.

Lemma lookup_middle {A} (l1 : list A) (x : A) (l2 : list A) (j : nat) (e : A) :
  (l1 ++ x :: l2) !! j = Some e ->
  ((j < length l1)%nat /\ l1 !! j = Some e) \/
  (j = length l1 /\ e = x) \/
  ((length l1 < j)%nat /\ l2 !! (j - S (length l1))%nat = Some e).
Proof.
  intros H. apply lookup_app_Some in H as [H | [Hle H]].
  - left. split; [by eapply lookup_lt_Some | done].
  - apply lookup_cons_Some in H as [[Hj <-] | [Hlt H]].
    + right; left. split; [lia | done].
    + right; right. split; [lia|]. rewrite <- H. f_equal. lia.
Qed.

(** C3. In a run that reaches its end - the response is delivered, some
    chunk carries choice data and every fragment its [function] -
    [messageStart] is the first event; the text block opened at once is
    closed before any tool-call event; every content block event comes
    before the one [messageStop]; and a [metadata] event is the last
    event of the run. *)
Theorem stream_event_order
    types_map self messages tool_specs system_prompt tool_choice
    system_prompt_content request response :
  format_request types_map self messages tool_specs system_prompt tool_choice
    system_prompt_content = Return request ->
  chat_completions_create (client self) request = Return (delivered response) ->
  Exists (fun c => choices c <> []) response ->
  Forall has_function (fragments (consumed response)) ->
  let run := stream types_map self messages tool_specs system_prompt tool_choice
               system_prompt_content in
  let evs := events run in
  outcome run = Return tt /\
  evs !! 0%nat = Some (messageStart "assistant") /\
  evs !! 1%nat = Some (contentBlockStart None) /\
  exists close stop : nat,
    (1 < close < stop)%nat /\
    (forall j e, (1 < j < close)%nat -> evs !! j = Some e -> is_text_delta e = true) /\
    evs !! close = Some contentBlockStop /\
    (forall j e, evs !! j = Some e -> is_tool_use e = true -> (close < j)%nat) /\
    (exists reason, evs !! stop = Some (messageStop reason)) /\
    (forall j e, evs !! j = Some e -> is_message_stop e = true -> j = stop) /\
    (forall j e, evs !! j = Some e -> is_content_block e = true -> (j < stop)%nat) /\
    (forall j e, evs !! j = Some e -> is_metadata e = true ->
                 (stop < j)%nat /\ S j = length evs).
Proof.
  intros Hrequest Hcreate Hchoice Hfun run evs. subst evs run.
  rewrite (stream_delivered _ _ _ _ _ _ _ _ Hrequest _ Hcreate Hfun).
  destruct (last_choice_exists response None Hchoice) as [choice ->].
  cbn [events outcome fst snd]. unfold content_phase_events.
  pose proof (chunk_events_text (consumed response)) as Htext.
  pose proof (tool_blocks_events
                (List.map snd (accumulate (fragments (consumed response)) []))) as Htools.
  set (T := concat (List.map chunk_events (consumed response))) in *.
  set (F := concat (List.map tool_block _)) in *.
  set (M := metadata_events (final_usage response)).
  assert (M = [] \/ exists u l, M = [metadata u l]) as HM.
  { subst M. destruct (final_usage response); simpl; eauto. }
  split; [done|]. split; [done|]. split; [done|].
  exists (2 + length T)%nat, (3 + length T + length F)%nat.
  assert (forall j e,
            (([messageStart "assistant"; contentBlockStart None] ++ T ++ [contentBlockStop] ++ F)
               ++ [messageStop (stop_reason (finish_reason choice))] ++ M) !! j = Some e ->
            (j = 0%nat /\ e = messageStart "assistant") \/
            (j = 1%nat /\ e = contentBlockStart None) \/
            ((1 < j < 2 + length T)%nat /\ is_text_delta e = true) \/
            (j = (2 + length T)%nat /\ e = contentBlockStop) \/
            ((2 + length T < j < 3 + length T + length F)%nat /\
             is_content_block e = true /\ is_text_delta e = false) \/
            (j = (3 + length T + length F)%nat /\
             e = messageStop (stop_reason (finish_reason choice))) \/
            ((3 + length T + length F < j)%nat /\ S j = length
               (([messageStart "assistant"; contentBlockStart None] ++ T ++ [contentBlockStop] ++ F)
               ++ [messageStop (stop_reason (finish_reason choice))] ++ M) /\
             is_metadata e = true)) as Hcases.
  { intros j e Hj.
    destruct j as [|[|j]]; [left; by inversion Hj | right; left; by inversion Hj |].
    right; right. cbn [app lookup list_lookup] in Hj.
    rewrite <- app_assoc in Hj. cbn [app] in Hj.
    apply lookup_middle in Hj as [[Hlt Hj] | [[-> ->] | [Hlt Hj]]].
    - left. split; [lia|]. eapply Forall_lookup_1 in Htext; eauto.
    - right; left. split; [lia | done].
    - right; right. apply lookup_middle in Hj as [[Hlt' Hj] | [[Hj' ->] | [Hlt' Hj]]].
      + left. split; [lia|]. eapply Forall_lookup_1 in Htools; eauto.
      + right; left. split; [lia | done].
      + right; right. rewrite !length_app. cbn [length].
        destruct HM as [-> | (u & l & ->)]; [by rewrite lookup_nil in Hj|].
        apply list_lookup_singleton_Some in Hj as [Hj <-]. cbn [length].
        split; [lia|]. split; [lia | done]. }
  split; [lia|]. split.
  { intros j e Hrange Hj. apply Hcases in Hj.
    destruct Hj as [[-> _]|[[-> _]|[[_ ?]|[[-> _]|[[? _]|[[-> _]|[? _]]]]]]]; (done || lia). }
  split.
  { change (2 + length T)%nat with (S (S (length T))).
    rewrite <- !app_assoc. cbn [app lookup list_lookup].
    by apply list_lookup_middle. }
  split.
  { intros j e Hj Htool. apply Hcases in Hj.
    destruct Hj as [[_ ->]|[[_ ->]|[[_ He]|[[_ ->]|[[? _]|[[_ ->]|[_ [_ He]]]]]]]];
      try done; try lia; by destruct e as [| | [] | | |]. }
  split.
  { eexists. apply list_lookup_middle. rewrite !length_app. cbn [length]. lia. }
  split.
  { intros j e Hj Hstop. apply Hcases in Hj.
    destruct Hj as [[_ ->]|[[_ ->]|[[_ He]|[[_ ->]|[[_ [He _]]|[[-> _]|[_ [_ He]]]]]]]];
      try done; by destruct e. }
  split.
  { intros j e Hj Hcb. apply Hcases in Hj.
    destruct Hj as [[-> _]|[[-> _]|[[? _]|[[-> _]|[[? _]|[[_ ->]|[_ [_ He]]]]]]]];
      try done; try lia; by destruct e. }
  intros j e Hj Hmeta. apply Hcases in Hj.
  destruct Hj as [[_ ->]|[[_ ->]|[[_ He]|[[_ ->]|[[_ [He _]]|[[_ ->]|[? [? _]]]]]]]];
    try done; by destruct e as [| | [] | | |].
Qed.

Lemma stream_event_order_witness :
  let run := stream no_types
               (model_answering None
                  (Return [tool_chunk [fragment 0 (Some "call_a") (Some "search")
                                         (Some "{}")] None;
                           text_chunk "Hello"; finish_chunk "tool_calls";
                           usage_chunk 10 5 15])
                  (Raise (ApiError "unused")))
               hi None None None None in
  outcome run = Return tt /\
  events run !! 0%nat = Some (messageStart "assistant") /\
  events run !! 3%nat = Some contentBlockStop /\
  events run !! 7%nat = Some (messageStop "tool_use") /\
  last (events run) =
    Some (metadata {| inputTokens := 10; outputTokens := 5; totalTokens := 15 |} 0).
Proof.
  assert (Exists (fun c => choices c <> [])
            [tool_chunk [fragment 0 (Some "call_a") (Some "search") (Some "{}")] None;
             text_chunk "Hello"; finish_chunk "tool_calls"; usage_chunk 10 5 15])
    as Hchoice by (by left).
  destruct (stream_event_order no_types
              (model_answering None
                 (Return [tool_chunk [fragment 0 (Some "call_a") (Some "search")
                                        (Some "{}")] None;
                          text_chunk "Hello"; finish_chunk "tool_calls";
                          usage_chunk 10 5 15])
                 (Raise (ApiError "unused")))
              hi None None None None _ _ eq_refl eq_refl Hchoice
              ltac:(fragments_have_function))
    as (Hout & Hfirst & _).
  split; [exact Hout|]. split; [exact Hfirst|]. by repeat split.
Defined.

Lemma flushed_blocks_grouped frags :
  concat (List.map tool_block (List.map snd (accumulate frags []))) =
  concat (List.map (fun i => tool_block (fragments_of i frags))
            (first_occurrences (List.map tc_index frags))).
Proof.
  rewrite accumulate_grouped. unfold grouped. by rewrite !List.map_map.
Qed.

Lemma fragments_of_present i frags :
  In i (List.map tc_index frags) ->
  exists first rest, fragments_of i frags = first :: rest.
Proof.
  induction frags as [|f frags IH]; simpl; [done|]. intros [<-|Hin].
  - rewrite Z.eqb_refl. eauto.
  - destruct (Z.eqb (tc_index f) i); eauto.
Qed.



(** C2, as amended.  In a run that reaches its end - the response is
    delivered, some chunk carries choice data and every fragment its
    [function] - the accumulated tool calls are flushed after the text block in the order in which their
    indices first arrived - the insertion order of the dict, not the
    ascending order of the indices, which it matches only when the
    indices first arrive in ascending order - each as a
    [contentBlockStart] built from its first fragment, one tool input
    delta per fragment in arrival order, and a [contentBlockStop]. *)
Theorem tool_calls_flushed_in_arrival_order
    types_map self messages tool_specs system_prompt tool_choice
    system_prompt_content request response :
  format_request types_map self messages tool_specs system_prompt tool_choice
    system_prompt_content = Return request ->
  chat_completions_create (client self) request = Return (delivered response) ->
  Exists (fun c => choices c <> []) response ->
  Forall has_function (fragments (consumed response)) ->
  let run := stream types_map self messages tool_specs system_prompt tool_choice
               system_prompt_content in
  let frags := fragments (consumed response) in
  outcome run = Return tt /\
  events run = events_flushing (arrival_order response) response /\
  (forall i, In i (arrival_order response) ->
     exists first rest,
       fragments_of i frags = first :: rest /\
       tool_block (fragments_of i frags) =
         contentBlockStart (Some {| start_name := tc_function first ≫= fn_name;
                                    start_toolUseId := tc_id first |})
         :: List.map tool_delta_event (first :: rest) ++ [contentBlockStop]) /\
  (arrival_order response = index_order response ->
   events run = events_flushing (index_order response) response).
Proof.
  intros Hrequest Hcreate Hchoice Hfun run frags. subst run frags.
  rewrite (stream_delivered _ _ _ _ _ _ _ _ Hrequest _ Hcreate Hfun).
  destruct (last_choice_exists response None Hchoice) as [choice Hlast].
  rewrite Hlast. cbn [events outcome fst snd].
  assert (content_phase_events response ++
          [messageStop (stop_reason (finish_reason choice))] ++
          metadata_events (final_usage response)
          = events_flushing (arrival_order response) response) as Hevents.
  { unfold content_phase_events, events_flushing, arrival_order.
    rewrite Hlast, flushed_blocks_grouped. cbn [mbind option_bind].
    by rewrite <- !app_assoc. }
  repeat split; try done.
  - intros i Hi. apply in_first_occurrences, fragments_of_present in Hi
      as (first & rest & Hi).
    exists first, rest. by rewrite Hi.
  - by intros <-.
Qed.

Lemma tool_calls_flushed_in_arrival_order_witness :
  events (stream no_types
            (model_answering None (Return out_of_order_response)
               (Raise (ApiError "unused")))
            hi None None None None) =
  [messageStart "assistant"; contentBlockStart None; contentBlockStop;
   contentBlockStart (Some {| start_name := Some "calc";
                              start_toolUseId := Some "call_b" |});
   contentBlockDelta (DeltaToolUse "{}"); contentBlockStop;
   contentBlockStart (Some {| start_name := Some "search";
                              start_toolUseId := Some "call_a" |});
   contentBlockDelta (DeltaToolUse "{}"); contentBlockStop;
   messageStop "tool_use"].
Proof.
  assert (Exists (fun c => choices c <> []) out_of_order_response)
    as Hchoice by (by left).
  destruct (tool_calls_flushed_in_arrival_order no_types
              (model_answering None (Return out_of_order_response)
                 (Raise (ApiError "unused")))
              hi None None None None _ _ eq_refl eq_refl Hchoice
              ltac:(fragments_have_function))
    as (_ & Hevents & _).
  exact Hevents.
Defined.

(** C2, as stated, fails: the call of index 1, whose fragment arrives
    first, is flushed before the call of index 0. *)
Lemma tool_calls_not_flushed_in_index_order :
  arrival_order out_of_order_response = [1; 0] /\
  index_order out_of_order_response = [0; 1] /\
  events (stream no_types
            (model_answering None (Return out_of_order_response)
               (Raise (ApiError "unused")))
            hi None None None None)
  <> events_flushing (index_order out_of_order_response) out_of_order_response.
Proof. split; [reflexivity|]. split; [reflexivity|]. vm_compute. discriminate. Qed.



(** X21. The outcomes of a structured-output call that the gateway
    answers: with more than one choice it fails with the "multiple
    choices" error; with no choice, or with one choice whose parsed
    payload is absent, is not an instance of the requested model, or is
    an instance whose truth value is false, it fails with the "no valid
    structured output" error; with one choice whose parsed payload is an
    instance of the requested model and is true, it yields the one event
    that wraps the instance. *)
Theorem structured_output_outcomes
    types_map self output_model prompt system_prompt request formatted response :
  format_request types_map self prompt None system_prompt None None
    = Return request ->
  request !! "messages" = Some formatted ->
  beta_chat_completions_parse (client self) (model_id (config self)) formatted
    output_model = Return response ->
  let run := structured_output types_map self output_model prompt system_prompt in
  ((1 < length (parsed_choices response))%nat ->
   run = ([], Raise (ValueError "Multiple choices found in the response."))) /\
  (parsed_choices response = [] ->
   run = ([], Raise (ValueError
                       "No valid structured output was found in the response."))) /\
  (forall choice,
     parsed_choices response = [choice] ->
     message_parsed choice = None \/
     (exists o, message_parsed choice = Some o /\
                (isinstance o output_model = false \/ obj_truthy o = false)) ->
     run = ([], Raise (ValueError
                         "No valid structured output was found in the response."))) /\
  (forall choice o,
     parsed_choices response = [choice] ->
     message_parsed choice = Some o -> isinstance o output_model = true ->
     obj_truthy o = true ->
     run = ([output o], Return tt)).
Proof.
  intros Hrequest Hmessages Hparse run. subst run. unfold structured_output.
  rewrite Hrequest. cbn [call mbind Gen_bind gbind]. rewrite Hmessages.
  cbn [call mbind Gen_bind gbind]. rewrite Hparse. cbn [app].
  repeat split.
  - intros Hlen. apply Nat.ltb_lt in Hlen. by rewrite Hlen.
  - intros ->. reflexivity.
  - intros choice -> [Hnone | (o & Hsome & [Hinst | Hfalse])]; cbn.
    + by rewrite Hnone.
    + by rewrite Hsome, Hinst.
    + rewrite Hsome. destruct (isinstance o output_model); [|done].
      by rewrite Hfalse.
  - intros choice o -> Hsome Hinst Htrue. cbn. by rewrite Hsome, Hinst, Htrue.
Qed.

Lemma structured_output_outcomes_witness :
  structured_output no_types
    (model_answering None (Raise (ApiError "unused"))
       (Return (parsed_answer [Some weather_report])))
    "WeatherReport" hi None
  = ([output weather_report], Return tt).
Proof.
  destruct (structured_output_outcomes no_types
              (model_answering None (Raise (ApiError "unused"))
                 (Return (parsed_answer [Some weather_report])))
              "WeatherReport" hi None _ _ (parsed_answer [Some weather_report])
              eq_refl eq_refl eq_refl) as (_ & _ & _ & Hvalid).
  exact (Hvalid {| message_parsed := Some weather_report |} weather_report
           eq_refl eq_refl eq_refl eq_refl).
Defined.

(** C9. The claim fails on the code at an instance of the requested
    model whose truth value is false - an empty [Bag], of a class that
    defines [__len__]: the loop finds it, and [if parsed:] then takes
    the branch of the "no valid structured output" error where the
    claim has the instance yielded. *)
Lemma structured_output_falsy_instance :
  isinstance empty_bag "Bag" = true /\
  structured_output no_types
    (model_answering None (Raise (ApiError "unused"))
       (Return (parsed_answer [Some empty_bag])))
    "Bag" hi None
  = ([], Raise (ValueError
                  "No valid structured output was found in the response.")).
Proof. split; reflexivity. Qed.

(* ===================================================================== *)
(** * The request dict *)
(* ===================================================================== *)

Section Request.

Variable types_map : string -> option string.
Variable self : PortkeyModel.
Variable messages : list Message.
Variable tool_specs : option (list ToolSpec).
Variable system_prompt : option string.
Variable tool_choice : option ToolChoice.
Variable system_prompt_content : option (list SystemContentBlock).
Variable request : gmap string PayloadValue.

Hypothesis Hrequest :
  format_request types_map self messages tool_specs system_prompt tool_choice
    system_prompt_content = Return request.

Lemma request_base_messages formatted : is_Some (request_base self formatted !! "messages").
Proof.
  unfold request_base. apply lookup_union_is_Some. right.
  rewrite lookup_insert_eq. by eexists.
Qed.

Lemma request_base_other formatted key :
  default ∅ (params (config self)) !! key = None ->
  key <> "messages" -> key <> "model" -> key <> "stream" -> key <> "stream_options" ->
  request_base self formatted !! key = None.
Proof.
  intros Hkey ? ? ? ?. unfold request_base.
  rewrite lookup_union_r by (by rewrite lookup_fmap, Hkey).
  by rewrite !lookup_insert_ne, lookup_empty.
Qed.

Lemma format_request_cases :
  exists formatted,
    format_request_messages types_map messages system_prompt system_prompt_content
      = Return formatted /\
    request =
      if truthy_list (default [] tool_specs) then
        let with_tools :=
          <["tools" := PTools (List.map format_tool_spec (default [] tool_specs))]>
            (request_base self formatted) in
        match tool_choice with
        | Some tc =>
            if truthy_choice tc
            then <["tool_choice" := PToolChoice (format_tool_choice tc)]> with_tools
            else with_tools
        | None => with_tools
        end
      else request_base self formatted.
Proof.
  unfold format_request in Hrequest.
  destruct (format_request_messages _ _ _ _) as [e|formatted]; [done|].
  exists formatted. split; [done|].
  cbn [mbind Result_bind rbind] in Hrequest. fold (request_base self formatted) in Hrequest.
  destruct (truthy_list _); [|by inversion Hrequest].
  destruct tool_choice as [tc|]; [|by inversion Hrequest].
  destruct (truthy_choice tc); by inversion Hrequest.
Qed.

Lemma format_request_has_messages : is_Some (request !! "messages").
Proof.
  destruct format_request_cases as (formatted & _ & ->).
  pose proof (request_base_messages formatted) as Hm.
  destruct (truthy_list _); [|done].
  destruct tool_choice as [tc|]; [destruct (truthy_choice tc)|];
    by rewrite ?lookup_insert_ne.
Qed.

End Request.

Lemma request_base_extra self formatted key :
  key <> "messages" -> key <> "model" -> key <> "stream" -> key <> "stream_options" ->
  request_base self formatted !! key =
  PParam <$> default ∅ (params (config self)) !! key.
Proof.
  intros ? ? ? ?.
  destruct (default ∅ (params (config self)) !! key) as [v|] eqn:Hkey.
  - unfold request_base. apply lookup_union_Some_l. by rewrite lookup_fmap, Hkey.
  - by apply request_base_other.
Qed.

(** C7, as amended.  The request has the key [tools] iff the list of tool
    specs is not empty or the extra parameters of the configuration hold
    that key: with tool specs it holds the formatted tool specs, which
    replace an entry of the parameters, and without them the entry of
    the parameters.  It has the key [tool_choice] iff the list of tool
    specs is not empty and a tool choice (a dict with a key) was given,
    or the extra parameters hold that key: in the first case it holds
    the formatted choice, which replaces an entry of the parameters -
    for the choice of the tool [name] it is
    [{"type": "function", "function": {"name": name}}] - and otherwise
    the entry of the parameters; so without tool specs the key
    [tool_choice] is absent unless the parameters hold it. *)
Theorem request_tools_and_tool_choice
    types_map self messages tool_specs system_prompt tool_choice
    system_prompt_content request :
  format_request types_map self messages tool_specs system_prompt tool_choice
    system_prompt_content = Return request ->
  let extra := default ∅ (params (config self)) in
  let chosen :=
    default [] tool_specs <> [] /\
    exists tc, tool_choice = Some tc /\ truthy_choice tc = true in
  (is_Some (request !! "tools") <->
   default [] tool_specs <> [] \/ is_Some (extra !! "tools")) /\
  (default [] tool_specs <> [] ->
   request !! "tools" =
     Some (PTools (List.map format_tool_spec (default [] tool_specs)))) /\
  (default [] tool_specs = [] ->
   request !! "tools" = PParam <$> extra !! "tools") /\
  (is_Some (request !! "tool_choice") <->
   chosen \/ is_Some (extra !! "tool_choice")) /\
  (forall tc,
     default [] tool_specs <> [] -> tool_choice = Some tc ->
     truthy_choice tc = true ->
     request !! "tool_choice" = Some (PToolChoice (format_tool_choice tc))) /\
  (forall name,
     tool_choice = Some (ToolChoiceTool name) -> default [] tool_specs <> [] ->
     request !! "tool_choice" = Some (PToolChoice (ChoiceFunction "function" name))) /\
  (~ chosen -> request !! "tool_choice" = PParam <$> extra !! "tool_choice") /\
  (default [] tool_specs = [] -> extra !! "tool_choice" = None ->
   request !! "tool_choice" = None).
Proof.
  intros Hrequest extra chosen.
  destruct (format_request_cases _ _ _ _ _ _ _ _ Hrequest) as (formatted & _ & ->).
  pose proof (request_base_extra self formatted "tools"
                ltac:(done) ltac:(done) ltac:(done) ltac:(done)) as Hbt.
  pose proof (request_base_extra self formatted "tool_choice"
                ltac:(done) ltac:(done) ltac:(done) ltac:(done)) as Hbc.
  fold extra in Hbt, Hbc. subst chosen.
  destruct (default [] tool_specs) as [|spec specs] eqn:Hspecs; cbn [truthy_list].
  { rewrite Hbt, Hbc, !fmap_is_Some. split_and!.
    - split; [by right | by intros [?|?]].
    - done.
    - done.
    - split; [by right | by intros [[? _]|?]].
    - done.
    - done.
    - done.
    - by intros _ ->. }
  assert (forall (m : gmap string PayloadValue) v,
            <["tools" := v]> m !! "tool_choice" = m !! "tool_choice") as Hne
    by (intros m v; by rewrite lookup_insert_ne).
  destruct tool_choice as [tc|]; [destruct (truthy_choice tc) eqn:Htc|].
  - rewrite lookup_insert_eq, lookup_insert_ne, lookup_insert_eq by done.
    split_and!.
    + split; [by left | by eexists].
    + done.
    + done.
    + split; [|by eexists]. intros _. left. split; [done|]. by exists tc.
    + by intros ? _ [= <-] _.
    + by intros name [= ->] _.
    + intros Hnot. destruct Hnot. split; [done|]. by exists tc.
    + done.
  - rewrite lookup_insert_eq, Hne, Hbc, !fmap_is_Some. split_and!.
    + split; [by left | by eexists].
    + done.
    + done.
    + split; [by right|]. intros [[_ (tc' & [= <-] & Htc')] | ?]; [congruence|done].
    + intros ? _ [= <-] ?. congruence.
    + intros name [= ->] _. done.
    + done.
    + done.
  - rewrite lookup_insert_eq, Hne, Hbc, !fmap_is_Some. split_and!.
    + split; [by left | by eexists].
    + done.
    + done.
    + split; [by right|]. by intros [[_ (tc' & ? & _)] | ?].
    + done.
    + done.
    + done.
    + done.
Qed.

Lemma request_tools_and_tool_choice_witness :
  match format_request no_types
          (model_answering None (Return []) (Raise (ApiError "unused")))
          hi (Some [weather_spec]) None (Some (ToolChoiceTool "get_weather")) None
  with
  | Return request =>
      request !! "tool_choice" =
        Some (PToolChoice (ChoiceFunction "function" "get_weather"))
  | Raise _ => False
  end.
Proof.
  destruct (request_tools_and_tool_choice no_types
              (model_answering None (Return []) (Raise (ApiError "unused")))
              hi (Some [weather_spec]) None (Some (ToolChoiceTool "get_weather")) None
              _ eq_refl) as (_ & _ & _ & _ & _ & Hspecific & _).
  exact (Hspecific "get_weather" eq_refl ltac:(discriminate)).
Defined.

(** C7, as stated, fails: the extra parameters of the configuration are
    merged into the request as they are, so a [tools] or [tool_choice]
    parameter is in the request although no tool spec and no tool choice
    was given. *)
Lemma request_tools_from_params :
  match format_request no_types
          (model_answering
             (Some {[ "tools" := JArr []; "tool_choice" := JStr "auto" ]})
             (Return []) (Raise (ApiError "unused")))
          hi None None None None
  with
  | Return request =>
      request !! "tools" = Some (PParam (JArr [])) /\
      request !! "tool_choice" = Some (PParam (JStr "auto"))
  | Raise _ => False
  end.
Proof. vm_compute. split; reflexivity. Qed.

(* ===================================================================== *)
(** * The request formatter *)
(* ===================================================================== *)

Lemma rmap_Forall {A B} (f : A -> Result B) (P : B -> Prop) l ys :
  (forall x y, f x = Return y -> P y) ->
  rmap f l = Return ys -> Forall P ys.
Proof.
  intros Hf. revert ys. induction l as [|x l IH]; simpl; intros ys H.
  - inversion H. constructor.
  - destruct (f x) as [e|y] eqn:Hx; [done|]. simpl in H.
    destruct (rmap f l) as [e|ys'] eqn:Hl; [done|]. simpl in H.
    inversion H; subst. constructor; eauto.
Qed.

Lemma rmap_length {A B} (f : A -> Result B) l ys :
  rmap f l = Return ys -> length ys = length l.
Proof.
  revert ys. induction l as [|x l IH]; simpl; intros ys H.
  - by inversion H.
  - destruct (f x) as [e|y]; [done|]. simpl in H.
    destruct (rmap f l) as [e|ys'] eqn:Hl; [done|]. simpl in H.
    inversion H; subst. simpl. f_equal. by apply IH.
Qed.

Lemma rmap_lookup {A B} (f : A -> Result B) l ys (i : nat) x :
  rmap f l = Return ys -> l !! i = Some x ->
  exists y, ys !! i = Some y /\ f x = Return y.
Proof.
  revert ys i. induction l as [|a l IH]; simpl; intros ys i H Hi; [done|].
  destruct (f a) as [e|y] eqn:Ha; [done|]. simpl in H.
  destruct (rmap f l) as [e|ys'] eqn:Hl; [done|]. simpl in H.
  inversion H; subst. destruct i as [|i]; simpl in *.
  - exists y. split; [done | congruence].
  - by apply IH.
Qed.

Lemma rmap_total {A B} (f : A -> Result B) l :
  Forall (fun x => exists y, f x = Return y) l -> exists ys, rmap f l = Return ys.
Proof.
  induction 1 as [|x l [y Hy] _ [ys Hys]]; simpl; [by eexists|].
  rewrite Hy, Hys. by eexists.
Qed.

Section FormatterLemmas.

Variable types_map : string -> option string.

Lemma format_request_tool_message_role tool_result m :
  format_request_tool_message types_map tool_result = Return m ->
  msg_role m = "tool" /\ msg_tool_call_id m = Some (tr_toolUseId tool_result).
Proof.
  unfold format_request_tool_message. destruct (rmap _ _); [done|].
  intros H. by inversion H.
Qed.

Lemma format_message_roles message ms :
  format_message types_map message = Return ms ->
  Forall (fun m => msg_role m <> "system") ms.
Proof.
  unfold format_message.
  destruct (rmap _ (List.filter _ _)) as [e|parts]; [done|]. cbn [mbind Result_bind rbind].
  destruct (rmap _ (omap _ _)) as [e|tms] eqn:Htms; [done|]. cbn [mbind Result_bind rbind].
  intros H. inversion H; subst. constructor.
  - cbn. by destruct (role message).
  - eapply rmap_Forall; [|exact Htms]. intros tr m Hm.
    apply format_request_tool_message_role in Hm as [-> _]. done.
Qed.

Lemma format_messages_loop_init messages init :
  format_messages_loop types_map messages init =
  (rest ← format_messages_loop types_map messages []; mret (init ++ rest)).
Proof.
  revert init. induction messages as [|message messages IH]; intros init; simpl.
  - cbn. by rewrite app_nil_r.
  - destruct (format_message types_map message) as [e|ms]; [done|].
    cbn [mbind Result_bind rbind]. rewrite (IH (init ++ ms)), (IH ms).
    destruct (format_messages_loop types_map messages []); [done|].
    cbn. by rewrite app_assoc.
Qed.

Lemma format_messages_loop_roles messages out :
  format_messages_loop types_map messages [] = Return out ->
  Forall (fun m => msg_role m <> "system") out.
Proof.
  revert out. induction messages as [|message messages IH]; intros out; simpl.
  - intros H. inversion H. constructor.
  - destruct (format_message types_map message) as [e|ms] eqn:Hms; [done|].
    cbn [mbind Result_bind rbind]. rewrite format_messages_loop_init.
    destruct (format_messages_loop types_map messages []) as [e|rest]; [done|].
    cbn. intros H. inversion H; subst. apply Forall_app. split.
    + by eapply format_message_roles.
    + by apply IH.
Qed.

Lemma format_request_messages_eq messages system_prompt system_prompt_content :
  format_request_messages types_map messages system_prompt system_prompt_content =
  (rest ← format_messages_loop types_map messages [];
   mret (List.filter kept
           (format_system_messages system_prompt system_prompt_content) ++
         List.filter kept rest)).
Proof.
  unfold format_request_messages. rewrite format_messages_loop_init.
  destruct (format_messages_loop types_map messages []); [done|].
  cbn. by rewrite List.filter_app.
Qed.

End FormatterLemmas.

(** What the code does with [system_prompt_content] equal to the empty
    list: what it does without [system_prompt_content].  A
    [system_prompt] that is not empty is emitted as the system message
    that opens the messages, and the messages hold no system message
    only when [system_prompt] is absent or empty. *)
Lemma empty_system_prompt_content_falls_back types_map messages :
  (forall system_prompt,
     format_request_messages types_map messages system_prompt (Some []) =
     format_request_messages types_map messages system_prompt None) /\
  (forall s, s <> "" ->
     format_request_messages types_map messages (Some s) (Some []) =
     (rest ← format_request_messages types_map messages None None;
      mret (system_message s :: rest))) /\
  (forall system_prompt out,
     system_prompt = None \/ system_prompt = Some "" ->
     format_request_messages types_map messages system_prompt (Some []) = Return out ->
     forall m, In m out -> msg_role m <> "system").
Proof.
  split; [done|]. split.
  - intros s Hs. rewrite !format_request_messages_eq.
    destruct (format_messages_loop types_map messages []) as [e|rest]; [done|].
    cbn [mbind Result_bind rbind mret Result_ret].
    assert (List.filter kept (format_system_messages (Some s) (Some []))
            = [system_message s]) as ->.
    { unfold format_system_messages, kept. simpl.
      destruct (String.eqb_spec s ""); [done|]. simpl.
      by destruct (String.eqb_spec s ""). }
    reflexivity.
  - intros system_prompt out Hsp. rewrite format_request_messages_eq.
    destruct (format_messages_loop types_map messages []) as [e|rest] eqn:Hloop;
      [done|].
    cbn [mbind Result_bind rbind mret Result_ret].
    assert (format_system_messages system_prompt (Some []) = []) as ->
      by (by destruct Hsp as [-> | ->]).
    intros H m Hm. inversion H; subst. cbn [List.filter app] in Hm.
    apply filter_In in Hm as [Hm _].
    apply format_messages_loop_roles in Hloop.
    rewrite Forall_forall in Hloop. apply Hloop. by apply list_elem_of_In.
Qed.

(** C1. The claim fails on the code at the system prompt ["Be brief."]
    with [system_prompt_content] equal to the empty list: the test
    [if system_prompt_content:] takes the empty list for an absent one,
    the [elif] on [system_prompt] runs, and the system message is
    emitted - where a list that is not empty and holds no text, the
    sibling case, does override the system prompt. *)
Lemma empty_system_prompt_content_keeps_system_prompt :
  format_request_messages no_types hi (Some "Be brief.") (Some []) =
    Return [system_message "Be brief.";
            {| msg_role := "user"; msg_content := ContentParts [ContentText "Hi"];
               msg_tool_calls := None; msg_tool_call_id := None |}] /\
  format_request_messages no_types hi (Some "Be brief.")
    (Some [ {| sys_text := None; sys_cachePoint := Some "default" |} ]) =
    Return [ {| msg_role := "user"; msg_content := ContentParts [ContentText "Hi"];
                msg_tool_calls := None; msg_tool_call_id := None |}].
Proof. split; reflexivity. Qed.

(* ===================================================================== *)
(** * [json.loads] after [json.dumps] *)
(* ===================================================================== *)

(** *** Strings *)

Lemma scan_escape_char c tail :
  scan_string (escape_char c +:+ tail) = option_map (prepend c) (scan_string tail).
Proof. destruct c as [[] [] [] [] [] [] [] []]; reflexivity. Qed.

Lemma scan_string_escape s rest :
  scan_string (escape s +:+ String dquote rest) = Some (s, rest).
Proof.
  induction s as [|c s IH]; [done|].
  cbn [escape]. by rewrite append_assoc, scan_escape_char, IH.
Qed.

(** *** Integers *)

Lemma span_digits_uint d rest :
  ends_number rest ->
  span_digits (NilEmpty.string_of_uint d +:+ rest) = (NilEmpty.string_of_uint d, rest).
Proof.
  intros Hrest. induction d; cbn [NilEmpty.string_of_uint];
    rewrite ?append_cons; cbn [span_digits];
    try (change (is_digit _) with true; cbn iota; by rewrite IHd).
  rewrite append_nil_l. destruct rest as [|c rest]; [done|].
  simpl in *. by rewrite Hrest.
Qed.

Lemma to_uint_no_leading_zero p d : Pos.to_uint p <> Decimal.D0 d.
Proof.
  pose proof (DecimalPos.Unsigned.to_of (Pos.to_uint p)) as H.
  rewrite DecimalPos.Unsigned.of_to in H. cbn [N.to_uint] in H.
  unfold Decimal.unorm in H.
  destruct (Decimal.nzhead (Pos.to_uint p)) eqn:Hnz;
    try (rewrite H; discriminate).
  - exfalso. by apply (DecimalPos.Unsigned.to_uint_nonzero p).
  - exfalso. by apply (DecimalFacts.nzhead_nonzero (Pos.to_uint p) u).
Qed.

Lemma int_of_digits d :
  d <> Decimal.Nil ->
  NilZero.uint_of_string (NilEmpty.string_of_uint d) = Some d.
Proof.
  intros Hd. rewrite <- (NilZero.usu d Hd). by destruct d.
Qed.

Lemma plain_digits_uint d :
  d <> Decimal.Nil -> (forall d', d = Decimal.D0 d' -> d' = Decimal.Nil) ->
  plain_digits (NilEmpty.string_of_uint d).
Proof.
  intros Hnil Hzero. destruct d; try done.
  cbn. split; [done|]. by rewrite (Hzero d).
Qed.

Lemma scan_int_pos ds rest i :
  plain_digits ds -> span_digits (ds +:+ rest) = (ds, rest) ->
  NilZero.uint_of_string ds = Some i ->
  scan_int (ds +:+ rest) = Some (Z.of_int (Decimal.Pos i), rest).
Proof.
  destruct ds as [|c ds']; [done|]. intros [Hc Hlead] Hspan Hint.
  unfold scan_int. rewrite append_cons.
  assert (Ascii.eqb c "-" = false) as Hminus.
  { destruct (Ascii.eqb_spec c "-") as [->|]; [done|done]. }
  rewrite Hminus. rewrite <- append_cons, Hspan, Hlead.
  cbn [String.append NilZero.int_of_string]. rewrite append_nil_l.
  unfold NilZero.int_of_string. rewrite Hminus, Hint. reflexivity.
Qed.

Lemma scan_int_neg ds rest i :
  plain_digits ds -> span_digits (ds +:+ rest) = (ds, rest) ->
  NilZero.uint_of_string ds = Some i ->
  scan_int (String "-" ds +:+ rest) = Some (Z.of_int (Decimal.Neg i), rest).
Proof.
  destruct ds as [|c ds']; [done|]. intros [Hc Hlead] Hspan Hint.
  unfold scan_int. rewrite append_cons. cbn [Ascii.eqb Bool.eqb].
  rewrite Hspan, Hlead.
  unfold NilZero.int_of_string. rewrite append_cons. cbn [Ascii.eqb Bool.eqb].
  rewrite append_nil_l, Hint. reflexivity.
Qed.

Lemma scan_int_encode n rest :
  ends_number rest -> scan_int (encode_int n +:+ rest) = Some (n, rest).
Proof.
  intros Hrest. rewrite <- (DecimalZ.of_to n) at 2. unfold encode_int.
  destruct n as [|p|p]; cbn [Z.to_int NilZero.string_of_int].
  - change (NilZero.string_of_uint Decimal.zero) with "0".
    apply scan_int_pos; [done| |done].
    by apply (span_digits_uint Decimal.zero).
  - assert (NilZero.string_of_uint (Pos.to_uint p)
            = NilEmpty.string_of_uint (Pos.to_uint p)) as ->.
    { pose proof (DecimalPos.Unsigned.to_uint_nonnil p). by destruct (Pos.to_uint p). }
    apply scan_int_pos.
    + apply plain_digits_uint; [apply DecimalPos.Unsigned.to_uint_nonnil|].
      intros d' Hd'. by apply to_uint_no_leading_zero in Hd'.
    + by apply span_digits_uint.
    + apply int_of_digits, DecimalPos.Unsigned.to_uint_nonnil.
  - assert (NilZero.string_of_uint (Pos.to_uint p)
            = NilEmpty.string_of_uint (Pos.to_uint p)) as ->.
    { pose proof (DecimalPos.Unsigned.to_uint_nonnil p). by destruct (Pos.to_uint p). }
    apply scan_int_neg.
    + apply plain_digits_uint; [apply DecimalPos.Unsigned.to_uint_nonnil|].
      intros d' Hd'. by apply to_uint_no_leading_zero in Hd'.
    + by apply span_digits_uint.
    + apply int_of_digits, DecimalPos.Unsigned.to_uint_nonnil.
Qed.

Lemma json_nested_ind (P : json -> Prop) :
  P JNull -> (forall b, P (JBool b)) -> (forall n, P (JInt n)) ->
  (forall s, P (JStr s)) ->
  (forall items, Forall P items -> P (JArr items)) ->
  (forall members, Forall (fun kv => P (snd kv)) members -> P (JObj members)) ->
  forall v, P v.
Proof.
  intros Hnull Hbool Hint Hstr Harr Hobj.
  fix IH 1. intros [| b | n | s | items | members].
  - exact Hnull.
  - apply Hbool.
  - apply Hint.
  - apply Hstr.
  - apply Harr. induction items as [|x items IHitems]; constructor; [apply IH | exact IHitems].
  - apply Hobj. induction members as [|[k x] members IHm]; constructor;
      [apply IH | exact IHm].
Qed.

Lemma encode_int_head n :
  exists c s, encode_int n = String c s /\ (c = "-"%char \/ is_digit c = true).
Proof.
  unfold encode_int. destruct n as [|p|p]; cbn [Z.to_int NilZero.string_of_int].
  - exists "0"%char, "". by split; [|right].
  - pose proof (DecimalPos.Unsigned.to_uint_nonnil p) as Hnil.
    destruct (Pos.to_uint p); try done; eexists _, _; (split; [reflexivity|by right]).
  - eexists _, _. split; [reflexivity|by left].
Qed.

Lemma number_head_opens c : c = "-"%char \/ is_digit c = true -> opens_value c.
Proof.
  intros [->|Hc]; [done|].
  destruct c as [[] [] [] [] [] [] [] []]; try discriminate Hc; done.
Qed.

Lemma dumps_head v : exists c s, dumps v = String c s /\ opens_value c.
Proof.
  destruct v as [| [] | n | s | items | members]; try (by eexists _, _).
  destruct (encode_int_head n) as (c & s & Hn & Hc).
  exists c, s. split; [done|]. by apply number_head_opens.
Qed.

Lemma parse_value_number fuel c s :
  c = "-"%char \/ is_digit c = true ->
  parse_value (S fuel) (String c s) =
  option_map (fun r => (JInt r.1, r.2)) (scan_int (String c s)).
Proof.
  intros [->|Hc]; [done|].
  destruct c as [[] [] [] [] [] [] [] []]; try discriminate Hc; reflexivity.
Qed.

Lemma parse_value_space fuel s : parse_value fuel (String " " s) = parse_value fuel s.
Proof. by destruct fuel. Qed.

Lemma parse_items_space fuel s : parse_items fuel (String " " s) = parse_items fuel s.
Proof. destruct fuel; [done|]. cbn [parse_items]. by rewrite parse_value_space. Qed.

Lemma parse_members_space fuel s :
  parse_members fuel (String " " s) = parse_members fuel s.
Proof. by destruct fuel. Qed.

(** *** Values *)

Lemma join_cons_cons sep (x y : string) l :
  join sep (x :: y :: l) = x +:+ sep +:+ join sep (y :: l).
Proof. reflexivity. Qed.

Lemma skip_ws_head c s : is_ws c = false -> skip_ws (String c s) = String c s.
Proof. intros H. cbn [skip_ws]. by rewrite H. Qed.

Lemma parse_items_dumps items fuel rest :
  Forall decodes items -> items <> [] ->
  (need_items items <= fuel)%nat ->
  parse_items fuel (join ", " (List.map dumps items) +:+ String "]" rest)
  = Some (items, rest).
Proof.
  intros Hitems. revert fuel.
  induction Hitems as [|x items Hx Hitems IH]; [done|]. intros fuel _ Hfuel.
  unfold need_items in Hfuel. cbn [fold_right] in Hfuel. fold (need_items items) in Hfuel.
  destruct fuel as [|fuel]; [lia|]. cbn [parse_items].
  destruct items as [|y items].
  - cbn [List.map join]. rewrite Hx by (done || lia). reflexivity.
  - cbn [List.map]. rewrite join_cons_cons, !append_assoc.
    rewrite Hx by (done || lia).
    change (", " +:+ ?s) with (String "," (String " " s)).
    rewrite skip_ws_head by done. cbn [Ascii.eqb Bool.eqb].
    rewrite parse_items_space.
    change (dumps y :: List.map dumps items) with (List.map dumps (y :: items)).
    rewrite IH by (done || lia). reflexivity.
Qed.

Lemma parse_members_head fuel s :
  parse_members (S fuel) (String dquote s) =
  match scan_string s with
  | None => None
  | Some (k, s2) =>
      match skip_ws s2 with
      | String c s3 =>
          if Ascii.eqb c ":" then
            match parse_value fuel s3 with
            | None => None
            | Some (v, s4) =>
                match skip_ws s4 with
                | String c' s5 =>
                    if Ascii.eqb c' "," then
                      option_map (fun r => ((k, v) :: r.1, r.2)) (parse_members fuel s5)
                    else if Ascii.eqb c' "}" then Some ([(k, v)], s5)
                    else None
                | EmptyString => None
                end
            end
          else None
      | EmptyString => None
      end
  end.
Proof. reflexivity. Qed.

Lemma dumps_member_append k v tail :
  dumps_member (k, v) +:+ tail =
  String dquote (escape k +:+ String dquote (String ":" (String " " (dumps v +:+ tail)))).
Proof.
  unfold dumps_member, encode_str. cbn [fst snd].
  by rewrite !append_cons, !append_assoc.
Qed.

Lemma parse_members_dumps members fuel rest :
  Forall (fun kv => decodes (snd kv)) members -> members <> [] ->
  (need_members members <= fuel)%nat ->
  parse_members fuel (join ", " (List.map dumps_member members) +:+ String "}" rest)
  = Some (members, rest).
Proof.
  intros Hmembers. revert fuel.
  induction Hmembers as [|[k x] members Hx Hmembers IH]; [done|]. intros fuel _ Hfuel.
  unfold need_members in Hfuel. cbn [fold_right snd] in Hfuel.
  fold (need_members members) in Hfuel. cbn [snd] in Hx.
  destruct fuel as [|fuel]; [lia|].
  destruct members as [|m members].
  - cbn [List.map join]. rewrite dumps_member_append, parse_members_head.
    rewrite scan_string_escape, skip_ws_head by done. cbn [Ascii.eqb Bool.eqb].
    rewrite parse_value_space, Hx by (done || lia). reflexivity.
  - cbn [List.map]. rewrite join_cons_cons, !append_assoc.
    rewrite dumps_member_append, parse_members_head.
    rewrite scan_string_escape, skip_ws_head by done. cbn [Ascii.eqb Bool.eqb].
    rewrite parse_value_space, Hx by (done || lia).
    change (", " +:+ ?s) with (String "," (String " " s)).
    rewrite skip_ws_head by done. cbn [Ascii.eqb Bool.eqb].
    rewrite parse_members_space.
    change (dumps_member m :: List.map dumps_member members)
      with (List.map dumps_member (m :: members)).
    rewrite IH by (done || lia). reflexivity.
Qed.

Lemma parse_value_array fuel s :
  parse_value (S fuel) (String "[" s) =
  match skip_ws s with
  | String c rest =>
      if Ascii.eqb c "]" then Some (JArr [], rest)
      else option_map (fun r => (JArr r.1, r.2)) (parse_items fuel s)
  | EmptyString => None
  end.
Proof. reflexivity. Qed.

Lemma parse_value_object fuel s :
  parse_value (S fuel) (String "{" s) =
  match skip_ws s with
  | String c rest =>
      if Ascii.eqb c "}" then Some (JObj [], rest)
      else option_map (fun r => (JObj r.1, r.2)) (parse_members fuel s)
  | EmptyString => None
  end.
Proof. reflexivity. Qed.

Lemma dumps_decodes v : decodes v.
Proof.
  induction v as [| b | n | s | items Hitems | members Hmembers] using json_nested_ind;
    intros fuel rest Hfuel Hrest; (destruct fuel as [|fuel]; [cbn in Hfuel; lia|]).
  - reflexivity.
  - by destruct b.
  - destruct (encode_int_head n) as (c & s & Hn & Hc).
    cbn [dumps]. rewrite Hn, append_cons, parse_value_number by done.
    by rewrite <- append_cons, <- Hn, scan_int_encode.
  - cbn [dumps]. unfold encode_str. rewrite append_cons, append_assoc, append_cons.
    change (parse_value (S fuel) (String dquote ?x))
      with (option_map (fun r : string * string => (JStr r.1, r.2)) (scan_string x)).
    by rewrite append_nil_l, scan_string_escape.
  - destruct items as [|x items]; [reflexivity|].
    cbn [dumps]. rewrite !append_cons, append_nil_l, append_assoc.
    change ("]" +:+ rest) with (String "]" rest).
    assert (exists c s, join ", " (List.map dumps (x :: items)) +:+ String "]" rest
                        = String c s /\ opens_value c) as (c & s & Hjoin & Hws & Hclose & _).
    { destruct (dumps_head x) as (c & s & Hx & Hc).
      destruct items; cbn [List.map]; [cbn [join]|rewrite join_cons_cons];
        rewrite Hx, append_cons; by eexists _, _. }
    rewrite parse_value_array.
    rewrite Hjoin at 1. rewrite skip_ws_head, Hclose by done.
    rewrite parse_items_dumps; [done|done|done|].
    cbn [need] in Hfuel. fold (need_items (x :: items)) in Hfuel. lia.
  - destruct members as [|m members]; [reflexivity|].
    cbn [dumps]. rewrite !append_cons, append_nil_l, append_assoc.
    change ("}" +:+ rest) with (String "}" rest).
    change (List.map (fun kv => encode_str kv.1 +:+ ": " +:+ dumps kv.2) (m :: members))
      with (List.map dumps_member (m :: members)).
    assert (exists s, join ", " (List.map dumps_member (m :: members)) +:+ String "}" rest
                      = String dquote s) as (s & Hjoin).
    { destruct m as [k x].
      destruct members; cbn [List.map]; [cbn [join]|rewrite join_cons_cons, append_assoc];
        rewrite dumps_member_append; by eexists. }
    rewrite parse_value_object.
    rewrite Hjoin at 1. rewrite skip_ws_head by done.
    change (Ascii.eqb dquote "}") with false. cbn iota.
    rewrite parse_members_dumps; [done|done|done|].
    cbn [need] in Hfuel. fold (need_members (m :: members)) in Hfuel. lia.
Qed.

(** *** Fuel *)

Lemma need_items_le items :
  Forall (fun x => (need x <= String.length (dumps x))%nat) items ->
  (need_items items <= S (String.length (join ", " (List.map dumps items))))%nat.
Proof.
  induction 1 as [|x items Hx Hitems IH]; [cbn; lia|].
  unfold need_items. cbn [fold_right]. fold (need_items items).
  destruct items as [|y items].
  - cbn [List.map join need_items fold_right]. lia.
  - cbn [List.map]. rewrite join_cons_cons, !length_append.
    cbn [List.map] in IH. cbn [String.length]. lia.
Qed.

Lemma need_members_le members :
  Forall (fun kv => (need (snd kv) <= String.length (dumps (snd kv)))%nat) members ->
  (need_members members
   <= S (String.length (join ", " (List.map dumps_member members))))%nat.
Proof.
  induction 1 as [|[k x] members Hx Hmembers IH]; [cbn; lia|].
  unfold need_members. cbn [fold_right snd]. fold (need_members members).
  cbn [snd] in Hx.
  assert (String.length (dumps x) <= String.length (dumps_member (k, x)))%nat as Hlen.
  { unfold dumps_member. cbn [fst snd]. rewrite !length_append. lia. }
  destruct members as [|m members].
  - cbn [List.map join need_members fold_right]. lia.
  - cbn [List.map]. rewrite join_cons_cons, !length_append.
    cbn [List.map] in IH. cbn [String.length]. lia.
Qed.

Lemma need_le_length v : (need v <= String.length (dumps v))%nat.
Proof.
  induction v as [| b | n | s | items Hitems | members Hmembers] using json_nested_ind.
  - cbn. lia.
  - destruct b; cbn; lia.
  - destruct (encode_int_head n) as (c & s & Hn & _). cbn [need dumps].
    rewrite Hn. cbn. lia.
  - cbn. lia.
  - cbn [need dumps]. fold (need_items items).
    pose proof (need_items_le items Hitems).
    rewrite !length_append. cbn [String.length]. lia.
  - cbn [need dumps]. fold (need_members members).
    pose proof (need_members_le members Hmembers).
    change (List.map (fun kv => encode_str kv.1 +:+ ": " +:+ dumps kv.2) members)
      with (List.map dumps_member members).
    rewrite !length_append. cbn [String.length]. lia.
Qed.

(** [json.loads(json.dumps(v)) == v] *)
Lemma loads_dumps v : loads (dumps v) = Some v.
Proof.
  unfold loads.
  rewrite <- (append_nil_r (dumps v)) at 2.
  rewrite dumps_decodes; [done| |done].
  pose proof (need_le_length v). lia.
Qed.

(* ===================================================================== *)
(** * Tool results *)
(* ===================================================================== *)

Lemma rmap_In {A B} (f : A -> Result B) l ys x :
  rmap f l = Return ys -> In x l -> exists y, In y ys /\ f x = Return y.
Proof.
  revert ys. induction l as [|a l IH]; simpl; intros ys H Hx; [done|].
  destruct (f a) as [e|y] eqn:Ha; [done|]. simpl in H.
  destruct (rmap f l) as [e|ys'] eqn:Hl; [done|]. simpl in H.
  inversion H; subst. destruct Hx as [->|Hx].
  - exists y. split; [by left | done].
  - destruct (IH ys' eq_refl Hx) as (y' & Hy' & Hfy). exists y'. split; [by right | done].
Qed.

Section ToolResults.

Variable types_map : string -> option string.

Lemma format_supported_entry c :
  supported_entry c ->
  exists part, format_request_message_content types_map (entry_block c) = Return part.
Proof.
  unfold supported_entry, entry_block, format_request_message_content.
  intros [[j Hj] | [[img Himg] | [t Ht]]].
  - rewrite Hj. by eexists.
  - destruct (trc_json c); [by eexists|]. cbn. rewrite Himg. by eexists.
  - destruct (trc_json c); [by eexists|]. cbn. rewrite Ht.
    destruct (trc_image c); by eexists.
Qed.

Lemma format_request_tool_message_eq tool_result :
  format_request_tool_message types_map tool_result =
  (parts ← rmap (format_request_message_content types_map)
             (List.map entry_block (tr_content tool_result));
   mret {| msg_role := "tool";
           msg_tool_call_id := Some (tr_toolUseId tool_result);
           msg_content := ContentParts parts;
           msg_tool_calls := None |}).
Proof. reflexivity. Qed.

Lemma format_message_tool_messages message ms tool_result block :
  format_message types_map message = Return ms ->
  In block (content message) -> toolResult block = Some tool_result ->
  exists m, In m ms /\ format_request_tool_message types_map tool_result = Return m.
Proof.
  unfold format_message. intros H Hblock Hresult.
  destruct (rmap _ (List.filter _ _)) as [e|parts]; [done|].
  cbn [mbind Result_bind rbind] in H.
  destruct (rmap _ (omap _ _)) as [e|tms] eqn:Htms; [done|].
  cbn [mbind Result_bind rbind] in H. inversion H; subst.
  assert (In tool_result (omap toolResult (content message))) as Hin.
  { apply list_elem_of_In, list_elem_of_omap. exists block.
    split; [by apply list_elem_of_In | done]. }
  destruct (rmap_In _ _ _ _ Htms Hin) as (m & Hm & Hfm).
  exists m. split; [by right | done].
Qed.

Lemma format_messages_loop_member messages out message :
  format_messages_loop types_map messages [] = Return out ->
  In message messages ->
  exists ms, format_message types_map message = Return ms /\
             forall m, In m ms -> In m out.
Proof.
  revert out. induction messages as [|a messages IH]; intros out H Hin; [done|].
  cbn [format_messages_loop] in H.
  destruct (format_message types_map a) as [e|ms] eqn:Ha; [done|].
  cbn [mbind Result_bind rbind app] in H. rewrite format_messages_loop_init in H.
  destruct (format_messages_loop types_map messages []) as [e|rest] eqn:Hrest; [done|].
  cbn in H. inversion H; subst. destruct Hin as [->|Hin].
  - exists ms. split; [done|]. intros m Hm. apply in_or_app. by left.
  - destruct (IH rest eq_refl Hin) as (ms' & Hms' & Hsub).
    exists ms'. split; [done|]. intros m Hm. apply in_or_app. right. by apply Hsub.
Qed.

End ToolResults.

Section FormatterTotal.

Variable types_map : string -> option string.

Lemma format_request_tool_message_total tool_result :
  Forall supported_entry (tr_content tool_result) ->
  exists m, format_request_tool_message types_map tool_result = Return m.
Proof.
  intros Hsupported. rewrite format_request_tool_message_eq.
  destruct (rmap_total (format_request_message_content types_map)
              (List.map entry_block (tr_content tool_result))) as [parts ->].
  { apply Forall_map. eapply Forall_impl; [exact Hsupported|].
    intros c Hc. by apply format_supported_entry. }
  by eexists.
Qed.

Lemma format_message_total message :
  Forall encodable_block (content message) ->
  exists ms, format_message types_map message = Return ms.
Proof.
  intros Hblocks. unfold format_message.
  destruct (rmap_total (format_request_message_content types_map)
              (List.filter (fun c => negb (bool_decide (is_Some (toolResult c))
                                           || bool_decide (is_Some (toolUse c))))
                           (content message))) as [parts ->].
  { apply Forall_forall. intros b Hb.
    apply list_elem_of_In, filter_In in Hb as [Hb Hplain].
    rewrite Forall_forall in Hblocks. apply list_elem_of_In, Hblocks in Hb.
    unfold encodable_block in Hb. unfold format_request_message_content.
    destruct (toolResult b); [done|]. destruct (toolUse b); [done|].
    destruct Hb as [[img ->] | [t Ht]]; [by eexists|].
    rewrite Ht. destruct (image b); by eexists. }
  cbn [mbind Result_bind rbind].
  destruct (rmap_total (format_request_tool_message types_map)
              (omap toolResult (content message))) as [tms ->].
  { apply Forall_forall. intros tr Htr.
    apply list_elem_of_omap in Htr as (b & Hb & Hresult).
    rewrite Forall_forall in Hblocks. apply Hblocks in Hb.
    unfold encodable_block in Hb. rewrite Hresult in Hb.
    by apply format_request_tool_message_total. }
  by eexists.
Qed.

Lemma format_request_messages_total messages system_prompt system_prompt_content :
  Forall (fun message => Forall encodable_block (content message)) messages ->
  exists out,
    format_request_messages types_map messages system_prompt system_prompt_content
    = Return out.
Proof.
  intros Hmessages. rewrite format_request_messages_eq.
  assert (exists rest, format_messages_loop types_map messages [] = Return rest)
    as [rest ->].
  { induction Hmessages as [|message messages Hm _ [rest IH]]; [by eexists|].
    cbn [format_messages_loop].
    destruct (format_message_total message Hm) as [ms ->].
    cbn [mbind Result_bind rbind app]. rewrite format_messages_loop_init, IH.
    by eexists. }
  by eexists.
Qed.

End FormatterTotal.

(** C8. A tool result with a [json] entry is formatted as a message of
    its own with role [tool] and [tool_call_id] equal to its
    [toolUseId]; the part that stands for the entry is a text part that
    holds [json.dumps] of the value, and [json.loads] of that text is the
    value.  The message is produced whenever every entry holds [json],
    [image] or [text]; [format_request_messages] returns whenever every
    block can be encoded, and the message is among those it returns. *)
Theorem tool_result_json_round_trip types_map tool_result i entry value :
  tr_content tool_result !! i = Some entry ->
  trc_json entry = Some value ->
  (Forall supported_entry (tr_content tool_result) ->
   exists m, format_request_tool_message types_map tool_result = Return m) /\
  (forall m,
     format_request_tool_message types_map tool_result = Return m ->
     msg_role m = "tool" /\
     msg_tool_call_id m = Some (tr_toolUseId tool_result) /\
     msg_tool_calls m = None /\
     exists parts t,
       msg_content m = ContentParts parts /\
       length parts = length (tr_content tool_result) /\
       parts !! i = Some (ContentText t) /\
       t = dumps value /\
       loads t = Some value) /\
  (forall messages message block system_prompt system_prompt_content,
     In message messages -> In block (content message) ->
     toolResult block = Some tool_result ->
     (Forall (fun message => Forall encodable_block (content message)) messages ->
      exists out,
        format_request_messages types_map messages system_prompt
          system_prompt_content = Return out) /\
     (forall out,
        format_request_messages types_map messages system_prompt
          system_prompt_content = Return out ->
        exists m, In m out /\
                  format_request_tool_message types_map tool_result = Return m)).
Proof.
  intros Hentry Hvalue.
  assert (forall m,
            format_request_tool_message types_map tool_result = Return m ->
            msg_role m = "tool" /\
            msg_tool_call_id m = Some (tr_toolUseId tool_result) /\
            msg_tool_calls m = None /\
            exists parts t,
              msg_content m = ContentParts parts /\
              length parts = length (tr_content tool_result) /\
              parts !! i = Some (ContentText t) /\
              t = dumps value /\
              loads t = Some value) as Hformatted.
  { intros m. rewrite format_request_tool_message_eq.
    destruct (rmap _ _) as [e|parts] eqn:Hparts; [done|].
    intros H. inversion H; subst. cbn. repeat split.
    exists parts, (dumps value). split; [done|]. split.
    { apply rmap_length in Hparts. by rewrite length_map in Hparts. }
    split; [|split; [done | apply loads_dumps]].
    assert (List.map entry_block (tr_content tool_result) !! i
            = Some (text_block (dumps value))) as Hblock.
    { rewrite list_lookup_fmap, Hentry. cbn. unfold entry_block. by rewrite Hvalue. }
    destruct (rmap_lookup _ _ _ _ _ Hparts Hblock) as (part & Hpart & Hfmt).
    cbn in Hfmt. by inversion Hfmt; subst. }
  split; [|split; [exact Hformatted|]].
  - apply format_request_tool_message_total.
  - intros messages message block system_prompt system_prompt_content
      Hmessage Hblock Hresult.
    split; [apply format_request_messages_total|]. intros out Hout.
    rewrite format_request_messages_eq in Hout.
    destruct (format_messages_loop types_map messages []) as [e|rest] eqn:Hloop;
      [done|].
    cbn in Hout. inversion Hout; subst.
    destruct (format_messages_loop_member _ _ _ _ Hloop Hmessage) as (ms & Hms & Hsub).
    destruct (format_message_tool_messages _ _ _ _ _ Hms Hblock Hresult)
      as (m & Hm & Hfm).
    exists m. split; [|done]. apply in_or_app. right. apply filter_In.
    split; [by apply Hsub|].
    destruct (Hformatted m Hfm) as (_ & _ & _ & parts & t & Hcontent & _ & Hpart & _).
    unfold kept. rewrite Hcontent. destruct parts; [by rewrite lookup_nil in Hpart|done].
Qed.

Lemma tool_result_json_round_trip_witness :
  exists m parts t,
    format_request_tool_message no_types weather_result = Return m /\
    msg_role m = "tool" /\ msg_tool_call_id m = Some "call_a" /\
    msg_content m = ContentParts parts /\
    parts !! 1%nat = Some (ContentText t) /\
    loads t = Some (JObj [("result", JInt 42);
                          ("tags", JArr [JStr "a"; JNull; JBool true])]).
Proof.
  destruct (tool_result_json_round_trip no_types weather_result 1
              (json_entry (JObj [("result", JInt 42);
                                 ("tags", JArr [JStr "a"; JNull; JBool true])]))
              _ eq_refl eq_refl) as (Htotal & Hformatted & _).
  destruct Htotal as [m Hm].
  { constructor; [right; right; by eexists|].
    constructor; [left; by eexists | constructor]. }
  destruct (Hformatted m Hm)
    as (Hrole & Hid & _ & parts & t & Hcontent & _ & Hpart & _ & Hloads).
  by exists m, parts, t.
Defined.

(* ===================================================================== *)
(** * The scenarios of the unit tests *)
(* ===================================================================== *)

Example simple_user_message :
  format_request_messages no_types hi None None =
  Return [ {| msg_role := "user"; msg_content := ContentParts [ContentText "Hi"];
              msg_tool_calls := None; msg_tool_call_id := None |} ].
Proof. reflexivity. Qed.

Example cache_points_only :
  format_request_messages no_types hi (Some "ignored")
    (Some [ {| sys_text := None; sys_cachePoint := Some "default" |} ]) =
  format_request_messages no_types hi None None.
Proof. reflexivity. Qed.

Example system_prompt_content_joined :
  format_system_messages (Some "ignored")
    (Some [ {| sys_text := Some "Important context."; sys_cachePoint := None |};
            {| sys_text := None; sys_cachePoint := Some "default" |};
            {| sys_text := Some "More context."; sys_cachePoint := None |} ]) =
  [system_message "Important context. More context."].
Proof. reflexivity. Qed.

Example tool_use_only_message_is_kept :
  format_request_messages no_types
    [ {| role := assistant;
         content := [ {| text := None; image := None;
                         toolUse := Some {| tu_toolUseId := "t1"; tu_name := "calc";
                                            tu_input := JObj [] |};
                         toolResult := None; first_key := Some "toolUse" |} ] |} ]
    None None =
  Return [ {| msg_role := "assistant"; msg_content := ContentParts [];
              msg_tool_calls := Some [ {| call_arguments := "{}"; call_name := "calc";
                                          call_id := "t1"; call_type := "function" |} ];
              msg_tool_call_id := None |} ].
Proof. reflexivity. Qed.

Example unsupported_content :
  format_request_message_content no_types unsupported_block =
    Raise (TypeError "content_type=<audio> | unsupported type") /\
  format_request_message_content no_types empty_block = Raise StopIteration.
Proof. split; reflexivity. Qed.

(** Runs outside the unit tests: an iterator that raises, a tool-call
    fragment without a function, a content block without a key. *)

Example iterator_raises_before_a_finish_reason :
  stream no_types (model_streaming broken_stream) hi None None None None =
  ([messageStart "assistant"; contentBlockStart None;
    contentBlockDelta (DeltaText (DataStr "Hel"))],
   Raise (ApiError "Connection reset")).
Proof. reflexivity. Qed.

Example iterator_raises_in_the_trailer :
  stream no_types
    (model_streaming {| delivered_chunks := [text_chunk "Hi"; finish_chunk "stop"];
                        raised_after := Some (ApiError "Connection reset") |})
    hi None None None None =
  ([messageStart "assistant"; contentBlockStart None;
    contentBlockDelta (DeltaText (DataStr "Hi")); contentBlockStop;
    messageStop "end_turn"],
   Raise (ApiError "Connection reset")).
Proof. reflexivity. Qed.

Example fragment_without_function :
  stream no_types
    (model_streaming
       (delivered [tool_chunk [headless_fragment] (Some "tool_calls")]))
    hi None None None None =
  ([messageStart "assistant"; contentBlockStart None; contentBlockStop],
   Raise (AttributeError "NoneType" "name")) /\
  stream no_types
    (model_streaming
       (delivered [tool_chunk [fragment 0 (Some "call_a") (Some "sum") None;
                               headless_fragment] (Some "tool_calls")]))
    hi None None None None =
  ([messageStart "assistant"; contentBlockStart None; contentBlockStop;
    contentBlockStart (Some {| start_name := Some "sum";
                               start_toolUseId := Some "call_a" |});
    contentBlockDelta (DeltaToolUse "")],
   Raise (AttributeError "NoneType" "arguments")).
Proof. split; reflexivity. Qed.

Example empty_block_in_a_run :
  stream no_types
    (model_answering None (Return []) (Raise (ApiError "unused")))
    [ {| role := user; content := [empty_block] |} ] None None None None =
  ([], Raise (RuntimeError "async generator raised StopIteration"
                (Some StopIteration))) /\
  format_request_messages no_types
    [ {| role := user; content := [empty_block] |} ] None None =
  Raise StopIteration.
Proof. split; reflexivity. Qed.

Example stop_reasons :
  format_chunk {| chunk_type := "message_stop"; data_type := None;
                  data := DataStr "tool_calls" |} = Return (messageStop "tool_use") /\
  format_chunk {| chunk_type := "message_stop"; data_type := None;
                  data := DataStr "length" |} = Return (messageStop "max_tokens") /\
  format_chunk {| chunk_type := "message_stop"; data_type := None;
                  data := DataStr "stop" |} = Return (messageStop "end_turn") /\
  format_chunk {| chunk_type := "message_stop"; data_type := None;
                  data := DataNone |} = Return (messageStop "end_turn").
Proof. by repeat split. Qed.

Example unknown_chunk_type :
  format_chunk {| chunk_type := "bogus"; data_type := None; data := DataNone |} =
  Raise (RuntimeError "chunk_type=<bogus> | unknown type" None).
Proof. reflexivity. Qed.

Example error_texts :
  handle_api_error (ApiError "Error code: 429 - Too Many Requests") =
    Raise (ModelThrottledException "Error code: 429 - Too Many Requests"
             (ApiError "Error code: 429 - Too Many Requests")) /\
  handle_api_error (ApiError "maximum context length exceeded") =
    Raise (ContextWindowOverflowException "maximum context length exceeded"
             (ApiError "maximum context length exceeded")) /\
  handle_api_error (ApiError "Rate limit: TOO MANY TOKENS") =
    Raise (ContextWindowOverflowException "Rate limit: TOO MANY TOKENS"
             (ApiError "Rate limit: TOO MANY TOKENS")) /\
  handle_api_error (ApiError "disk full") = Return tt.
Proof. by repeat split. Qed.

Example loads_of_dumps :
  loads (dumps (JObj [("result", JInt (-42));
                      ("tags", JArr [JStr "a/b\c"; JNull; JBool true; JArr []])])) =
  Some (JObj [("result", JInt (-42));
              ("tags", JArr [JStr "a/b\c"; JNull; JBool true; JArr []])]).
Proof. reflexivity. Qed.

Example loads_rejects :
  loads "[01]" = None /\ loads "[1.5]" = None /\ loads "[1,]" = None /\
  loads "nul" = None /\ loads "1 2" = None.
Proof. by repeat split. Qed.

(* ===================================================================== *)
(** * Configuration *)
(* ===================================================================== *)

Lemma lstrip_all_space s : all_space (lstrip s) = all_space s.
Proof.
  induction s as [|c s IH]; [done|]. simpl.
  destruct (isspace c) eqn:Hc; simpl; [done|]. by rewrite Hc.
Qed.

Lemma rstrip_empty s : rstrip s = "" <-> all_space s = true.
Proof.
  induction s as [|c s IH]; [done|]. simpl.
  destruct (isspace c); simpl; [|done].
  destruct (String.eqb_spec (rstrip s) ""); intuition congruence.
Qed.

Lemma strip_empty s : strip s = "" <-> all_space s = true.
Proof. unfold strip. by rewrite rstrip_empty, lstrip_all_space. Qed.

Lemma model_id_not_empty_eq v :
  model_id_not_empty v =
  if all_space v then Raise (ValueError "model_id must not be empty or whitespace")
  else Return v.
Proof.
  unfold model_id_not_empty, truthy_str.
  destruct (String.eqb_spec (strip v) "") as [Hs|Hs]; simpl.
  - apply strip_empty in Hs. by rewrite Hs.
  - destruct (all_space v) eqn:Hv; [|done]. by apply strip_empty in Hv.
Qed.

Lemma PortkeyConfig_init_eq fields :
  PortkeyConfig_init fields =
  match given_model_id fields with
  | None => inl (field_required "model_id")
  | Some v =>
      if all_space v
      then inl (value_error "model_id" "model_id must not be empty or whitespace")
      else inr {| model_id := v; params := default None (given_params fields) |}
  end.
Proof.
  unfold PortkeyConfig_init. destruct (given_model_id fields) as [v|]; [|done].
  rewrite model_id_not_empty_eq. by destruct (all_space v).
Qed.

Lemma update_config_eq self model_config :
  update_config self model_config =
  let id := default (model_id (config self)) (given_model_id model_config) in
  if all_space id
  then (self, Some (value_error "model_id" "model_id must not be empty or whitespace"))
  else ({| config := {| model_id := id;
                        params := default (params (config self))
                                    (given_params model_config) |};
           client := client self |}, None).
Proof.
  unfold update_config. rewrite PortkeyConfig_init_eq. unfold overlay, model_dump.
  cbn [given_model_id given_params].
  destruct (given_model_id model_config) as [v|]; cbn [default from_option id].
  - destruct (all_space v); [done|]. by destruct (given_params model_config).
  - destruct (all_space _); [done|]. by destruct (given_params model_config).
Qed.

(** X1. [PortkeyConfig] rejects a [model_id] iff it is empty or made of
    white space only, with the validator's message; an accepted
    [model_id] is stored as it was given - it is not stripped - and
    [params] defaults to [None]. *)
Theorem config_rejects_blank_model_id v ps :
  let fields := {| given_model_id := Some v; given_params := ps |} in
  (all_space v = true ->
   PortkeyConfig_init fields =
     inl (value_error "model_id" "model_id must not be empty or whitespace")) /\
  (all_space v = false ->
   PortkeyConfig_init fields =
     inr {| model_id := v; params := default None ps |}) /\
  PortkeyConfig_init {| given_model_id := None; given_params := ps |} =
    inl (field_required "model_id").
Proof.
  intros fields. subst fields. rewrite !PortkeyConfig_init_eq. cbn.
  repeat split; by intros ->.
Qed.

(** X2. The [model_id] of a model is never blank: the constructor
    returns only models with a [model_id] that holds a character other
    than white space, and [update_config] keeps it so, whether it
    succeeds or raises. *)
Theorem model_id_never_blank :
  (forall AsyncPortkey_new client_args model_config self,
     PortkeyModel_init AsyncPortkey_new client_args model_config = inr self ->
     all_space (model_id (get_config self)) = false) /\
  (forall self model_config,
     all_space (model_id (get_config self)) = false ->
     all_space (model_id (get_config (update_config self model_config).1)) = false).
Proof.
  split.
  - intros mk ca kw self. unfold PortkeyModel_init. rewrite PortkeyConfig_init_eq.
    destruct (given_model_id kw) as [v|]; [|done].
    destruct (all_space v) eqn:Hv; [done|]. intros [= <-]. done.
  - intros self kw Hvalid. rewrite update_config_eq. cbn zeta.
    by destruct (all_space (default _ _)) eqn:Hid.
Qed.

(** X3. [update_config] raises iff the [model_id] it would set - the one
    given, else the current one - is blank, and then the model is left as
    it was; otherwise only the fields given are replaced ([params] given
    as [None] clears the parameters) and the client is kept. *)
Theorem update_config_outcome self model_config :
  let id := default (model_id (config self)) (given_model_id model_config) in
  (all_space id = true ->
   update_config self model_config =
     (self, Some (value_error "model_id" "model_id must not be empty or whitespace"))) /\
  (all_space id = false ->
   (update_config self model_config).2 = None /\
   client (update_config self model_config).1 = client self /\
   get_config (update_config self model_config).1 =
     {| model_id := id;
        params := match given_params model_config with
                  | Some p => p
                  | None => params (config self)
                  end |}).
Proof.
  intros id. subst id. rewrite update_config_eq. cbn zeta.
  split; intros ->; [done|]. by repeat split.
Qed.

(** X4. Updates compose: after an update that succeeded, a second update
    has the outcome of the single update with both sets of fields, the
    later ones winning, and on success gives the same model; an update
    without fields changes nothing. *)
Theorem update_config_composes self first second :
  (update_config self first).2 = None ->
  (update_config (update_config self first).1 second).2 =
    (update_config self (overlay first second)).2 /\
  ((update_config self (overlay first second)).2 = None ->
   update_config (update_config self first).1 second =
     update_config self (overlay first second)) /\
  update_config (update_config self first).1 no_fields =
    update_config self first.
Proof.
  rewrite !update_config_eq. cbn zeta.
  destruct first as [id1 ps1], second as [id2 ps2]. cbn [given_model_id given_params overlay].
  destruct (all_space (default (model_id (config self)) id1)) eqn:H1; [done|].
  intros _. cbn [fst snd config client model_id params no_fields given_model_id given_params].
  assert (default (default (model_id (config self)) id1) id2
          = default (model_id (config self))
              (match id2 with Some v => Some v | None => id1 end)) as Hid
    by (by destruct id2).
  assert (default (default (params (config self)) ps1) ps2
          = default (params (config self))
              (match ps2 with Some p => Some p | None => ps1 end)) as Hps
    by (by destruct ps2).
  rewrite Hid, Hps. cbn [default from_option id].
  repeat split.
  - match goal with |- context [all_space ?x] => by destruct (all_space x) end.
  - match goal with |- context [all_space ?x] => by destruct (all_space x) end.
  - by rewrite H1.
Qed.

Lemma update_config_composes_witness :
  update_config
    (update_config (model_answering None (Return []) (Raise (ApiError "unused")))
       {| given_model_id := Some "gpt-4o-mini"; given_params := None |}).1
    {| given_model_id := None; given_params := Some (Some {[ "temperature" := JInt 0 ]}) |}
  = update_config (model_answering None (Return []) (Raise (ApiError "unused")))
      {| given_model_id := Some "gpt-4o-mini";
         given_params := Some (Some {[ "temperature" := JInt 0 ]}) |}.
Proof.
  destruct (update_config_composes
              (model_answering None (Return []) (Raise (ApiError "unused")))
              {| given_model_id := Some "gpt-4o-mini"; given_params := None |}
              {| given_model_id := None;
                 given_params := Some (Some {[ "temperature" := JInt 0 ]}) |}
              eq_refl) as (_ & Hsame & _).
  exact (Hsame eq_refl).
Defined.

(* ===================================================================== *)
(** * The error classifier *)
(* ===================================================================== *)

(** X5. The classifier looks for its fragments anywhere in the text and
    in any letter case, also inside a word: a text that holds an
    overflow fragment up to case is an overflow, and otherwise a text
    that holds ["rate"], ["429"], ["overloaded"] or ["529"] up to case -
    as in ["Generate"] - is throttling. *)
Theorem classifier_matches_inside_words e pre mid post :
  str e = pre +:+ mid +:+ post ->
  (In (lower mid) CONTEXT_WINDOW_OVERFLOW_MESSAGES ->
   handle_api_error e = Raise (ContextWindowOverflowException (str e) e)) /\
  (In (lower mid) ["rate"; "429"; "overloaded"; "529"] ->
   ~ overflow_text (str e) ->
   handle_api_error e = Raise (ModelThrottledException (str e) e)).
Proof.
  intros Hstr. unfold handle_api_error.
  pose proof (substring_of_lower pre mid post) as Hsub. rewrite <- Hstr in Hsub.
  split.
  - intros Hin.
    assert (overflow_text (str e)) as Hover by (by exists (lower mid)).
    apply overflow_text_decide in Hover. by rewrite Hover.
  - intros Hin Hno.
    destruct (existsb _ _) eqn:Hover; [by apply overflow_text_decide in Hover|].
    assert (throttling_text (str e)) as Hthr.
    { unfold throttling_text.
      destruct Hin as [H | [H | [H | [H | []]]]]; rewrite <- H in Hsub; tauto. }
    apply throttling_text_decide in Hthr. by rewrite Hthr.
Qed.

Lemma classifier_matches_inside_words_witness :
  handle_api_error (ApiError "Provider FAILED TO GENERATE a reply") =
  Raise (ModelThrottledException "Provider FAILED TO GENERATE a reply"
           (ApiError "Provider FAILED TO GENERATE a reply")).
Proof.
  destruct (classifier_matches_inside_words
              (ApiError "Provider FAILED TO GENERATE a reply")
              "Provider FAILED TO GENE" "RATE" " a reply" eq_refl) as [_ Hthrottled].
  apply Hthrottled.
  - by left.
  - rewrite <- overflow_text_decide. vm_compute. discriminate.
Defined.

(** X6. What the classifier raises carries the text of the original
    error and the original error as its cause, and is classified in the
    same way when it passes through the classifier again. *)
Theorem classified_error_keeps_text_and_class e e' :
  handle_api_error e = Raise e' ->
  str e' = str e /\ cause e' = Some e /\
  ((e' = ContextWindowOverflowException (str e) e /\
    handle_api_error e' = Raise (ContextWindowOverflowException (str e) e')) \/
   (e' = ModelThrottledException (str e) e /\
    handle_api_error e' = Raise (ModelThrottledException (str e) e'))).
Proof.
  unfold handle_api_error.
  destruct (existsb _ _) eqn:Hover.
  - intros [= <-]. cbn [str cause]. rewrite Hover. repeat split. by left.
  - destruct (contains "rate" _ || _ || _ || _) eqn:Hthr; [|done].
    intros [= <-]. cbn [str cause]. rewrite Hover, Hthr. repeat split. by right.
Qed.

Lemma classified_error_keeps_text_and_class_witness :
  handle_api_error
    (ModelThrottledException "Error code: 429 - Too Many Requests"
       (ApiError "Error code: 429 - Too Many Requests")) =
  Raise (ModelThrottledException "Error code: 429 - Too Many Requests"
           (ModelThrottledException "Error code: 429 - Too Many Requests"
              (ApiError "Error code: 429 - Too Many Requests"))).
Proof.
  destruct (classified_error_keeps_text_and_class
              (ApiError "Error code: 429 - Too Many Requests") _ eq_refl)
    as (_ & _ & [[Habs _] | [_ Hagain]]).
  - discriminate Habs.
  - exact Hagain.
Defined.

(* ===================================================================== *)
(** * More on the request formatter *)
(* ===================================================================== *)

Lemma rmap_Forall2 {A B} (f : A -> Result B) l ys :
  rmap f l = Return ys -> Forall2 (fun x y => f x = Return y) l ys.
Proof.
  revert ys. induction l as [|x l IH]; simpl; intros ys H.
  - inversion H. constructor.
  - destruct (f x) as [e|y] eqn:Hx; [done|]. simpl in H.
    destruct (rmap f l) as [e|ys'] eqn:Hl; [done|]. simpl in H.
    inversion H; subst. constructor; auto.
Qed.

Lemma rmap_Raise {A B} (f : A -> Result B) l e :
  rmap f l = Raise e -> exists x, In x l /\ f x = Raise e.
Proof.
  induction l as [|x l IH]; simpl; [done|].
  destruct (f x) as [e'|y] eqn:Hx; simpl.
  - intros [= <-]. exists x. auto.
  - destruct (rmap f l) as [e'|ys] eqn:Hl; simpl; [|done].
    intros [= <-]. destruct (IH eq_refl) as (x' & Hin & Hf). exists x'. auto.
Qed.

Section FormatterShape.

Variable types_map : string -> option string.

Lemma format_content_Raise b e :
  format_request_message_content types_map b = Raise e ->
  e = unsupported_error (first_key b).
Proof.
  unfold format_request_message_content.
  destruct (image b); [done|]. destruct (text b); [done|].
  destruct (first_key b); by intros [= <-].
Qed.

Lemma format_content_Return b part :
  format_request_message_content types_map b = Return part ->
  is_Some (image b) \/ is_Some (text b).
Proof.
  unfold format_request_message_content.
  destruct (image b); [by left|]. destruct (text b); [by right|].
  by destruct (first_key b).
Qed.

Lemma format_tool_message_Raise tool_result e :
  format_request_tool_message types_map tool_result = Raise e ->
  exists c, In c (tr_content tool_result) /\
            e = unsupported_error (trc_first_key c).
Proof.
  rewrite format_request_tool_message_eq.
  destruct (rmap _ _) as [e'|parts] eqn:Hparts; [|done].
  intros [= <-]. apply rmap_Raise in Hparts as (b & Hin & Hb).
  apply in_map_iff in Hin as (c & <- & Hc). exists c. split; [done|].
  unfold entry_block in Hb. destruct (trc_json c) eqn:Hjson; [done|].
  by apply format_content_Raise in Hb as ->.
Qed.

Lemma format_tool_message_Return tool_result m :
  format_request_tool_message types_map tool_result = Return m ->
  Forall supported_entry (tr_content tool_result) /\
  exists parts,
    length parts = length (tr_content tool_result) /\
    m = {| msg_role := "tool";
           msg_tool_call_id := Some (tr_toolUseId tool_result);
           msg_content := ContentParts parts;
           msg_tool_calls := None |}.
Proof.
  rewrite format_request_tool_message_eq.
  destruct (rmap _ _) as [e'|parts] eqn:Hparts; [done|]. intros [= <-]. split.
  - apply Forall_forall. intros c Hc. apply list_elem_of_In in Hc.
    destruct (rmap_In _ _ _ (entry_block c) Hparts) as (part & _ & Hpart).
    { by apply in_map. }
    apply format_content_Return in Hpart. unfold supported_entry.
    unfold entry_block in Hpart. destruct (trc_json c); [left; by eexists|].
    cbn in Hpart. tauto.
  - exists parts. split; [|done].
    apply rmap_length in Hparts. by rewrite Hparts, length_map.
Qed.

Lemma format_message_inv message ms :
  format_message types_map message = Return ms ->
  exists parts tms,
    rmap (format_request_message_content types_map)
         (List.filter plain_block (content message)) = Return parts /\
    rmap (format_request_tool_message types_map)
         (omap toolResult (content message)) = Return tms /\
    ms = own_message message parts :: tms.
Proof.
  unfold format_message. fold plain_block.
  change (fun c : ContentBlock =>
            negb (bool_decide (is_Some (toolResult c))
                  || bool_decide (is_Some (toolUse c)))) with plain_block.
  destruct (rmap _ (List.filter _ _)) as [e|parts]; [done|].
  cbn [mbind Result_bind rbind].
  destruct (rmap _ (omap _ _)) as [e|tms] eqn:Htms; [done|].
  cbn [mbind Result_bind rbind]. intros [= <-]. by exists parts, tms.
Qed.

Lemma format_message_Raise message e :
  format_message types_map message = Raise e ->
  exists key, e = unsupported_error key /\
              (key = None -> ~ Forall has_keys (content message)).
Proof.
  unfold format_message.
  destruct (rmap _ (List.filter _ _)) as [e'|parts] eqn:Hparts.
  { intros [= <-]. apply rmap_Raise in Hparts as (b & Hin & Hb).
    apply format_content_Raise in Hb. exists (first_key b). split; [done|].
    intros Hkey Hall. apply filter_In in Hin as [Hin _].
    rewrite Forall_forall in Hall. apply list_elem_of_In, Hall in Hin as [[k Hk] _].
    congruence. }
  cbn [mbind Result_bind rbind].
  destruct (rmap _ (omap _ _)) as [e'|tms] eqn:Htms; [|done].
  intros [= <-]. apply rmap_Raise in Htms as (tr & Hin & Htr).
  apply format_tool_message_Raise in Htr as (c & Hc & ->).
  exists (trc_first_key c). split; [done|]. intros Hkey Hall.
  apply list_elem_of_In, list_elem_of_omap in Hin as (b & Hb & Hresult).
  rewrite Forall_forall in Hall. apply Hall in Hb as [_ Hentries].
  specialize (Hentries _ Hresult). rewrite Forall_forall in Hentries.
  apply list_elem_of_In, Hentries in Hc as [k Hk]. congruence.
Qed.

Lemma format_message_Return message ms :
  format_message types_map message = Return ms ->
  Forall encodable_block (content message).
Proof.
  intros H. apply format_message_inv in H as (parts & tms & Hparts & Htms & _).
  apply Forall_forall. intros b Hb. apply list_elem_of_In in Hb.
  unfold encodable_block. destruct (toolResult b) as [tr|] eqn:Hresult.
  - destruct (rmap_In _ _ _ tr Htms) as (m & _ & Hm).
    { apply list_elem_of_In, list_elem_of_omap. exists b.
      split; [by apply list_elem_of_In | done]. }
    by apply format_tool_message_Return in Hm as [? _].
  - destruct (toolUse b) as [tu|] eqn:Huse; [done|].
    destruct (rmap_In _ _ _ b Hparts) as (part & _ & Hpart).
    { apply filter_In. split; [done|]. unfold plain_block.
      by rewrite Hresult, Huse. }
    by apply format_content_Return in Hpart.
Qed.

Lemma format_messages_loop_concat messages out :
  format_messages_loop types_map messages [] = Return out ->
  exists mss,
    Forall2 (fun message ms => format_message types_map message = Return ms)
            messages mss /\
    out = concat mss.
Proof.
  revert out. induction messages as [|a messages IH]; intros out H.
  - inversion H. exists []. split; [constructor | done].
  - cbn [format_messages_loop] in H.
    destruct (format_message types_map a) as [e|ms] eqn:Ha; [done|].
    cbn [mbind Result_bind rbind app] in H. rewrite format_messages_loop_init in H.
    destruct (format_messages_loop types_map messages []) as [e|rest] eqn:Hrest; [done|].
    cbn in H. inversion H; subst.
    destruct (IH rest eq_refl) as (mss & Hmss & ->).
    exists (ms :: mss). split; [by constructor | done].
Qed.

Lemma format_messages_loop_Raise messages e :
  format_messages_loop types_map messages [] = Raise e ->
  exists key,
    e = unsupported_error key /\
    (key = None ->
     ~ Forall (fun message => Forall has_keys (content message)) messages).
Proof.
  induction messages as [|a messages IH]; [done|].
  cbn [format_messages_loop].
  destruct (format_message types_map a) as [e'|ms] eqn:Ha.
  { intros [= <-]. apply format_message_Raise in Ha as (key & -> & Hkey).
    exists key. split; [done|]. intros Hnone Hall.
    inversion Hall; subst. by apply Hkey. }
  cbn [mbind Result_bind rbind app]. rewrite format_messages_loop_init.
  destruct (format_messages_loop types_map messages []) as [e'|rest]; [|done].
  intros [= <-]. destruct (IH eq_refl) as (key & -> & Hkey).
  exists key. split; [done|]. intros Hnone Hall.
  inversion Hall; subst. by apply Hkey.
Qed.


Lemma format_request_messages_Return messages system_prompt system_prompt_content out :
  format_request_messages types_map messages system_prompt system_prompt_content
  = Return out ->
  Forall (fun message => Forall encodable_block (content message)) messages.
Proof.
  rewrite format_request_messages_eq.
  destruct (format_messages_loop types_map messages []) as [e|rest] eqn:Hrest; [done|].
  intros _. apply format_messages_loop_concat in Hrest as (mss & Hmss & _).
  induction Hmss as [|message ms messages mss Hm _ IH]; constructor; [|done].
  by eapply format_message_Return.
Qed.


Lemma format_system_messages_cases system_prompt system_prompt_content :
  format_system_messages system_prompt system_prompt_content = [] \/
  exists s, s <> "" /\
    format_system_messages system_prompt system_prompt_content = [system_message s].
Proof.
  unfold format_system_messages.
  destruct (truthy_list _).
  - destruct (truthy_str (Some _)) eqn:Hs; [|by left]. right.
    eexists. split; [|done]. cbn in Hs. intros Heq. by rewrite Heq in Hs.
  - destruct system_prompt as [s|]; [|by left]. cbn.
    destruct (String.eqb_spec s ""); [by left|]. right. by exists s.
Qed.

Lemma format_system_messages_kept system_prompt system_prompt_content :
  List.filter kept (format_system_messages system_prompt system_prompt_content) =
  format_system_messages system_prompt system_prompt_content.
Proof.
  destruct (format_system_messages_cases system_prompt system_prompt_content)
    as [-> | (s & Hs & ->)]; [done|].
  cbn. unfold kept. cbn. by destruct (String.eqb_spec s "").
Qed.

Lemma own_message_role message parts :
  msg_role (own_message message parts) = "user" \/
  msg_role (own_message message parts) = "assistant".
Proof. cbn. destruct (role message); auto. Qed.

Lemma format_message_member_roles message ms :
  format_message types_map message = Return ms ->
  Forall (fun m => In (msg_role m) ["user"; "assistant"; "tool"]) ms.
Proof.
  intros H. apply format_message_inv in H as (parts & tms & _ & Htms & ->).
  constructor.
  - destruct (own_message_role message parts) as [-> | ->]; cbn; auto.
  - eapply rmap_Forall; [|exact Htms]. intros tr m Hm.
    apply format_request_tool_message_role in Hm as [-> _]. cbn. auto.
Qed.

(** X8. The shape of what the formatter returns: the messages of the
    system prompt - none, or one message of role [system] whose content
    is a string that is not empty - and then messages of role [user],
    [assistant] or [tool] only; every message returned has content that
    is not empty or has tool calls. *)
Theorem formatted_messages_shape
    messages system_prompt system_prompt_content out
    (Hout : format_request_messages types_map messages system_prompt
              system_prompt_content = Return out) :
  exists rest,
    out = format_system_messages system_prompt system_prompt_content ++ rest /\
    (format_system_messages system_prompt system_prompt_content = [] \/
     exists s, s <> "" /\
       format_system_messages system_prompt system_prompt_content
       = [system_message s]) /\
    Forall (fun m => In (msg_role m) ["user"; "assistant"; "tool"]) rest /\
    Forall (fun m => truthy_content (msg_content m) = true \/
                     is_Some (msg_tool_calls m)) out.
Proof.
  rewrite format_request_messages_eq in Hout.
  destruct (format_messages_loop types_map messages []) as [e|rest] eqn:Hrest; [done|].
  cbn in Hout. inversion Hout as [Heq]. clear Hout.
  rewrite format_system_messages_kept.
  exists (List.filter kept rest). split; [done|].
  split; [apply format_system_messages_cases|]. split.
  - apply format_messages_loop_concat in Hrest as (mss & Hmss & ->).
    apply Forall_forall. intros m Hm.
    apply list_elem_of_In, filter_In in Hm as [Hm _].
    apply in_concat in Hm as (ms & Hms & Hm).
    apply list_elem_of_In in Hms.
    apply list_elem_of_lookup in Hms as [i Hi].
    destruct (Forall2_lookup_r _ _ _ _ _ Hmss Hi) as (message & _ & Hmessage).
    apply format_message_member_roles in Hmessage.
    rewrite Forall_forall in Hmessage. by apply Hmessage, list_elem_of_In.
  - rewrite <- format_system_messages_kept at 1. rewrite <- List.filter_app.
    apply Forall_forall. intros m Hm.
    apply list_elem_of_In, filter_In in Hm as [_ Hm].
    unfold kept in Hm. apply orb_true_iff in Hm as [Hm|Hm]; [by left|].
    right. by apply bool_decide_eq_true in Hm.
Qed.

(** X9. A [system_prompt_content] that is not the empty list decides the
    system message alone: [system_prompt] is not read; the message holds
    the texts of the blocks joined by one space, and there is no system
    message when that text is empty - in particular when no block holds
    [text]. *)
Theorem system_prompt_content_takes_precedence
    messages system_prompt system_prompt' block blocks :
  format_request_messages types_map messages system_prompt (Some (block :: blocks)) =
  format_request_messages types_map messages system_prompt' (Some (block :: blocks))
  /\
  format_system_messages system_prompt (Some (block :: blocks)) =
  (if String.eqb (join " " (omap sys_text (block :: blocks))) "" then []
   else [system_message (join " " (omap sys_text (block :: blocks)))])
  /\
  (Forall (fun b => sys_text b = None) (block :: blocks) ->
   format_request_messages types_map messages system_prompt (Some (block :: blocks)) =
   format_request_messages types_map messages None None).
Proof.
  assert (forall sp,
    format_system_messages sp (Some (block :: blocks)) =
    (if String.eqb (join " " (omap sys_text (block :: blocks))) "" then []
     else [system_message (join " " (omap sys_text (block :: blocks)))])) as Hsys.
  { intros sp. unfold format_system_messages.
    cbn [default truthy_list truthy_str].
    by destruct (String.eqb _ ""). }
  split; [|split].
  - by rewrite !format_request_messages_eq, !Hsys.
  - apply Hsys.
  - intros Hnone. rewrite !format_request_messages_eq, Hsys.
    assert (omap sys_text (block :: blocks) = []) as ->; [|reflexivity].
    revert Hnone. generalize (block :: blocks).
    induction 1 as [|b bs Hb _ IH]; [done|]. cbn. by rewrite Hb.
Qed.

Lemma kept_tool_messages trs tms :
  Forall2 (fun tr tm => format_request_tool_message types_map tr = Return tm) trs tms ->
  List.map msg_tool_call_id (List.filter is_tool_message (List.filter kept tms)) =
  List.map (fun tr => Some (tr_toolUseId tr)) (List.filter has_entries trs).
Proof.
  induction 1 as [|tr tm trs tms Htm _ IH]; [done|].
  apply format_tool_message_Return in Htm as (_ & parts & Hlen & ->).
  cbn [List.filter]. unfold kept at 1, has_entries at 1.
  cbn [msg_content msg_tool_calls truthy_content].
  assert (truthy_list parts = truthy_list (tr_content tr)) as ->.
  { destruct parts, (tr_content tr); done. }
  rewrite bool_decide_eq_false_2 by (by intros [? ?]). rewrite orb_false_r.
  destruct (truthy_list (tr_content tr)); [|done].
  cbn [List.filter].
  change (is_tool_message _) with true. cbn [List.map msg_tool_call_id]. by f_equal.
Qed.

Lemma kept_tool_messages_concat messages mss :
  Forall2 (fun message ms => format_message types_map message = Return ms)
          messages mss ->
  List.map msg_tool_call_id
    (List.filter is_tool_message (List.filter kept (concat mss))) =
  List.map (fun tr => Some (tr_toolUseId tr))
    (List.filter has_entries (tool_results messages)).
Proof.
  unfold tool_results.
  induction 1 as [|message ms messages mss Hms _ IH]; [done|].
  apply format_message_inv in Hms as (parts & tms & _ & Htms & ->).
  apply rmap_Forall2 in Htms.
  cbn [concat List.map]. rewrite !List.filter_app, !List.map_app.
  rewrite <- IH. f_equal.
  rewrite <- (kept_tool_messages _ _ Htms).
  cbn [app List.filter]. destruct (kept (own_message message parts)); [|done].
  cbn [List.filter].
  assert (is_tool_message (own_message message parts) = false) as ->; [|done].
  unfold is_tool_message.
  by destruct (own_message_role message parts) as [-> | ->].
Qed.

(** X11. The messages of role [tool] that the formatter returns are, in
    order, one for every tool result whose content is not empty, each
    with the [toolUseId] of its result as [tool_call_id]; a tool result
    with empty content leaves no message. *)
Theorem tool_messages_follow_tool_results
    messages system_prompt system_prompt_content out
    (Hout : format_request_messages types_map messages system_prompt
              system_prompt_content = Return out) :
  List.map msg_tool_call_id (List.filter is_tool_message out) =
  List.map (fun tr => Some (tr_toolUseId tr))
    (List.filter has_entries (tool_results messages)).
Proof.
  rewrite format_request_messages_eq in Hout.
  destruct (format_messages_loop types_map messages []) as [e|rest] eqn:Hrest; [done|].
  cbn in Hout. inversion Hout as [Heq]. clear Hout.
  apply format_messages_loop_concat in Hrest as (mss & Hmss & ->).
  rewrite List.filter_app, List.map_app, (kept_tool_messages_concat _ _ Hmss).
  rewrite format_system_messages_kept.
  destruct (format_system_messages_cases system_prompt system_prompt_content)
    as [-> | (s & _ & ->)]; done.
Qed.

(** X10. Every message that holds tool uses yields a returned message of
    its role whose [tool_calls] list them in the order of the blocks:
    each call has the [toolUseId] and the [name] of its tool use, type
    [function], and arguments that [json.loads] reads back as the input
    of the tool use - even when the message holds nothing else. *)
Theorem tool_uses_become_tool_calls
    messages system_prompt system_prompt_content out message
    (Hout : format_request_messages types_map messages system_prompt
              system_prompt_content = Return out)
    (Hmessage : In message messages)
    (Huses : omap toolUse (content message) <> []) :
  exists m calls,
    In m out /\
    msg_role m = role_str (role message) /\
    msg_tool_calls m = Some calls /\
    Forall2 (fun tool_use call =>
               call_id call = tu_toolUseId tool_use /\
               call_name call = tu_name tool_use /\
               call_type call = "function" /\
               loads (call_arguments call) = Some (tu_input tool_use))
            (omap toolUse (content message)) calls.
Proof.
  rewrite format_request_messages_eq in Hout.
  destruct (format_messages_loop types_map messages []) as [e|rest] eqn:Hrest; [done|].
  cbn in Hout. inversion Hout as [Heq]. clear Hout.
  destruct (format_messages_loop_member _ _ _ _ Hrest Hmessage) as (ms & Hms & Hsub).
  apply format_message_inv in Hms as (parts & tms & _ & _ & ->).
  exists (own_message message parts),
         (List.map format_request_message_tool_call (omap toolUse (content message))).
  assert (msg_tool_calls (own_message message parts) =
          Some (List.map format_request_message_tool_call
                  (omap toolUse (content message)))) as Hcalls.
  { cbn. by destruct (omap toolUse (content message)). }
  split; [|split; [done|split; [done|]]].
  - apply in_or_app. right. apply filter_In. split; [apply Hsub; by left|].
    unfold kept. rewrite Hcalls. apply orb_true_iff. right.
    by apply bool_decide_eq_true.
  - clear. induction (omap toolUse (content message)) as [|tu tus IH];
      constructor; [|done].
    cbn. by rewrite loads_dumps.
Qed.

End FormatterShape.

Lemma formatted_messages_shape_witness :
  exists out rest,
    format_request_messages no_types weather_conversation (Some "Be brief") None
    = Return out /\
    out = [system_message "Be brief"] ++ rest /\
    Forall (fun m => In (msg_role m) ["user"; "assistant"; "tool"]) rest /\
    Forall (fun m => truthy_content (msg_content m) = true \/
                     is_Some (msg_tool_calls m)) out.
Proof.
  eexists.
  destruct (formatted_messages_shape no_types weather_conversation
              (Some "Be brief") None _ eq_refl)
    as (rest & Hout & _ & Hroles & Hkept).
  exists rest. split; [reflexivity|]. by split.
Defined.

Lemma tool_messages_follow_tool_results_witness :
  exists out,
    format_request_messages no_types weather_conversation None None = Return out /\
    List.map msg_tool_call_id (List.filter is_tool_message out) = [Some "call_a"].
Proof.
  eexists. split; [reflexivity|].
  exact (tool_messages_follow_tool_results no_types weather_conversation
           None None _ eq_refl).
Defined.

Lemma tool_uses_become_tool_calls_witness :
  exists out m call,
    format_request_messages no_types weather_conversation None None = Return out /\
    In m out /\ msg_role m = "assistant" /\ msg_tool_calls m = Some [call] /\
    call_id call = "call_a" /\ call_name call = "get_weather" /\
    loads (call_arguments call) = Some (JObj [("city", JStr "Paris"); ("days", JInt 2)]).
Proof.
  eexists.
  destruct (tool_uses_become_tool_calls no_types weather_conversation None None _
              {| role := assistant; content := [use_block weather_use] |}
              eq_refl)
    as (m & calls & Hm & Hrole & Hcalls & Hall).
  { right. by left. }
  { done. }
  inversion Hall as [|tu call tus calls' (Hid & Hname & _ & Hloads) Hnil]; subst.
  inversion Hnil; subst.
  exists m, call. split; [reflexivity|]. by repeat split.
Defined.

(* ===================================================================== *)
(** * More on [stream] *)
(* ===================================================================== *)

Lemma joined_text_app l1 l2 :
  joined_text (l1 ++ l2) = joined_text l1 +:+ joined_text l2.
Proof.
  induction l1 as [|e l1 IH]; [done|].
  destruct e as [| |[[]| |]| | |]; cbn [joined_text app]; try done.
  by rewrite IH, append_assoc.
Qed.

Lemma joined_reasoning_app l1 l2 :
  joined_reasoning (l1 ++ l2) = joined_reasoning l1 +:+ joined_reasoning l2.
Proof.
  induction l1 as [|e l1 IH]; [done|].
  destruct e as [| |[| |[]]| | |]; cbn [joined_reasoning app]; try done.
  by rewrite IH, append_assoc.
Qed.

Lemma joined_tool_block tds :
  joined_text (tool_block tds) = "" /\ joined_reasoning (tool_block tds) = "".
Proof.
  destruct tds as [|first rest]; [done|]. unfold tool_block.
  cbn [joined_text joined_reasoning].
  induction (first :: rest) as [|d ds IH]; [done|]. exact IH.
Qed.

Lemma joined_tool_blocks calls :
  joined_text (concat (List.map tool_block calls)) = "" /\
  joined_reasoning (concat (List.map tool_block calls)) = "".
Proof.
  induction calls as [|tds calls [IHt IHr]]; [done|]. cbn [List.map concat].
  rewrite joined_text_app, joined_reasoning_app, IHt, IHr.
  by destruct (joined_tool_block tds) as [-> ->].
Qed.

Lemma joined_chunk_events c :
  joined_text (chunk_events c) = chunk_text c /\
  joined_reasoning (chunk_events c) = chunk_reasoning c.
Proof.
  unfold chunk_events, chunk_text, chunk_reasoning.
  destruct (choices c) as [|choice ?]; [done|]. cbn zeta.
  destruct (delta_content (choice_delta choice)) as [t|],
           (delta_reasoning_content (choice_delta choice)) as [r|];
    cbn [truthy_str default].
  all: try destruct (String.eqb_spec t ""); try destruct (String.eqb_spec r "");
    subst; cbn [negb app joined_text joined_reasoning]; by rewrite ?append_nil_r.
Qed.

Lemma joined_chunks_events cs :
  joined_text (concat (List.map chunk_events cs)) =
    concat_strings (List.map chunk_text cs) /\
  joined_reasoning (concat (List.map chunk_events cs)) =
    concat_strings (List.map chunk_reasoning cs).
Proof.
  induction cs as [|c cs [IHt IHr]]; [done|]. cbn [List.map concat concat_strings].
  rewrite joined_text_app, joined_reasoning_app, IHt, IHr.
  by destruct (joined_chunk_events c) as [-> ->].
Qed.

Lemma joined_content_phase response :
  joined_text (content_phase_events response) =
    concat_strings (List.map chunk_text (consumed response)) /\
  joined_reasoning (content_phase_events response) =
    concat_strings (List.map chunk_reasoning (consumed response)).
Proof.
  unfold content_phase_events.
  rewrite !joined_text_app, !joined_reasoning_app.
  destruct (joined_chunks_events (consumed response)) as [-> ->].
  destruct (joined_tool_blocks
              (List.map snd (accumulate (fragments (consumed response)) [])))
    as [-> ->].
  cbn [joined_text joined_reasoning]. by rewrite !append_nil_l, !append_nil_r.
Qed.

Lemma joined_tool_events evs :
  Forall (fun e => is_tool_use e = true \/ e = contentBlockStop) evs ->
  joined_text evs = "" /\ joined_reasoning evs = "".
Proof.
  induction 1 as [|e evs He _ [IHt IHr]]; [done|].
  destruct He as [He | ->]; [|done].
  by destruct e as [|[]|[]| | |].
Qed.

Lemma joined_text_phase response :
  joined_text (text_phase_events response) =
    concat_strings (List.map chunk_text (consumed response)) /\
  joined_reasoning (text_phase_events response) =
    concat_strings (List.map chunk_reasoning (consumed response)).
Proof.
  unfold text_phase_events.
  rewrite !joined_text_app, !joined_reasoning_app.
  destruct (joined_chunks_events (consumed response)) as [-> ->].
  cbn [joined_text joined_reasoning]. by rewrite !append_nil_l, !append_nil_r.
Qed.

Lemma consumed_unended response :
  existsb ends_phase response = false -> consumed response = response.
Proof.
  induction response as [|c cs IH]; [done|]. cbn [existsb consumed].
  intros H. apply orb_false_iff in H as [-> H]. by rewrite IH.
Qed.

(** ** The flush of the tool calls, whatever the fragments hold *)

Lemma for_each_deltas_cases (l : list ChoiceDeltaToolCall) :
  let run :=
    for_each l (fun tool_delta =>
      yield_chunk {| chunk_type := "content_delta"; data_type := Some "tool";
                     data := DataToolCall tool_delta |}) in
  Forall (fun e => is_tool_input e = true) (events run) /\
  (outcome run = Return tt \/
   outcome run = Raise (AttributeError "NoneType" "arguments")).
Proof.
  cbn zeta. induction l as [|d l [IHe IHo]]; [split; [constructor | by left]|].
  cbn [for_each]. rewrite yield_tool_delta.
  destruct (tc_function d); [|split; [constructor | by right]].
  destruct (for_each l _) as [evs r]. cbn [events outcome fst snd] in *.
  cbn [mbind Gen_bind gbind app events outcome fst snd].
  split; [by constructor | done].
Qed.

Lemma bracket_state_app open l1 l2 :
  bracket_state open (l1 ++ l2) =
  bracket_state open l1 ≫= fun open' => bracket_state open' l2.
Proof.
  revert open. induction l1 as [|e l1 IH]; intros open; [done|].
  destruct e, open; cbn [app bracket_state]; by rewrite ?IH.
Qed.

Lemma bracket_state_deltas ds :
  Forall (fun e => is_text_delta e = true \/ is_tool_input e = true) ds ->
  bracket_state true ds = Some true.
Proof.
  induction 1 as [|e ds He _ IH]; [done|].
  destruct e as [| |d| | |]; try (by destruct He as [He|He]; discriminate He).
  exact IH.
Qed.

Lemma flush_tool_call_cases tool_deltas :
  tool_deltas <> [] ->
  let run := flush_tool_call tool_deltas in
  Forall (fun e => is_tool_use e = true \/ e = contentBlockStop) (events run) /\
  ((outcome run = Return tt /\ bracket_state false (events run) = Some false) \/
   (outcome run = Raise (AttributeError "NoneType" "name") /\ events run = []) \/
   (outcome run = Raise (AttributeError "NoneType" "arguments") /\
    bracket_state false (events run) = Some true)).
Proof.
  destruct tool_deltas as [|first rest]; [done|]. intros _. cbn zeta.
  unfold flush_tool_call.
  change (call (Return first)) with (([], Return first) : Gen StreamEvent _).
  rewrite gbind_return, yield_tool_start. cbn [app].
  destruct (tc_function first) as [fn|];
    [|split; [constructor | right; left; by split]].
  destruct (for_each_deltas_cases (first :: rest)) as [Hevs Hout].
  destruct (for_each (first :: rest) _) as [evs r].
  cbn [events outcome fst snd] in Hevs, Hout.
  assert (Forall (fun e => is_tool_use e = true \/ e = contentBlockStop) evs)
    as Htool.
  { eapply Forall_impl; [exact Hevs|]. intros e He. left.
    by destruct e as [| |[]| | |]. }
  assert (bracket_state true evs = Some true) as Hstate.
  { apply bracket_state_deltas. eapply Forall_impl; [exact Hevs|]. by right. }
  destruct Hout as [-> | ->];
    cbn [mbind Gen_bind gbind app events outcome fst snd yield_chunk call yield
         format_chunk chunk_type String.eqb Ascii.eqb Bool.eqb mret Result_ret
         Result_bind rbind].
  - split.
    + constructor; [by left|]. apply Forall_app. split; [done|].
      constructor; [by right | constructor].
    + left. split; [done|]. cbn [bracket_state].
      by rewrite bracket_state_app, Hstate.
  - split; [constructor; [by left | done]|].
    right; right. split; [done|]. cbn [bracket_state]. exact Hstate.
Qed.

Lemma flush_all_cases (calls : list (list ChoiceDeltaToolCall)) :
  Forall (fun tds => tds <> []) calls ->
  let run := for_each calls flush_tool_call in
  Forall (fun e => is_tool_use e = true \/ e = contentBlockStop) (events run) /\
  ((outcome run = Return tt /\ bracket_state false (events run) = Some false) \/
   (outcome run = Raise (AttributeError "NoneType" "name") /\
    bracket_state false (events run) = Some false) \/
   (outcome run = Raise (AttributeError "NoneType" "arguments") /\
    bracket_state false (events run) = Some true)).
Proof.
  cbn zeta. induction 1 as [|tds calls Hne _ [IHe IHo]].
  { split; [constructor | left; by split]. }
  cbn [for_each].
  destruct (flush_tool_call_cases tds Hne) as [Hevs Hout].
  destruct (flush_tool_call tds) as [evs r].
  destruct (for_each calls flush_tool_call) as [evs' r'].
  cbn [events outcome fst snd] in *.
  destruct Hout as [[-> Hstate] | [[-> ->] | [-> Hstate]]];
    cbn [mbind Gen_bind gbind app events outcome fst snd].
  - split; [by apply Forall_app|]. rewrite bracket_state_app, Hstate. exact IHo.
  - split; [constructor|]. right; left. by split.
  - split; [done|]. right; right. by split.
Qed.

Lemma flush_accumulated_cases frags :
  let run := for_each (List.map snd (accumulate frags [])) flush_tool_call in
  Forall (fun e => is_tool_use e = true \/ e = contentBlockStop) (events run) /\
  ((outcome run = Return tt /\ bracket_state false (events run) = Some false) \/
   (~ Forall has_function frags /\
    outcome run = Raise (AttributeError "NoneType" "name") /\
    bracket_state false (events run) = Some false) \/
   (~ Forall has_function frags /\
    outcome run = Raise (AttributeError "NoneType" "arguments") /\
    bracket_state false (events run) = Some true)).
Proof.
  cbn zeta.
  destruct (flush_all_cases (List.map snd (accumulate frags []))) as [Hevs Hout].
  { rewrite Forall_map. apply accumulate_nonempty. constructor. }
  split; [done|].
  destruct Hout as [H | [[Hr Hs] | [Hr Hs]]]; [by left | right; left | right; right];
    (split; [|done]); intros Hfun; rewrite (flush_accumulated _ Hfun) in Hr;
    discriminate Hr.
Qed.

Lemma events_async_generator {E A} (g : Gen E A) :
  events (async_generator g) = events g.
Proof. by destruct g as [evs [e|a]]. Qed.

Lemma joined_stream_response response :
  joined_text (events (stream_response response)) =
    concat_strings (List.map chunk_text (consumed (delivered_chunks response))) /\
  joined_reasoning (events (stream_response response)) =
    concat_strings
      (List.map chunk_reasoning (consumed (delivered_chunks response))).
Proof.
  rewrite stream_response_nf.
  set (cs := delivered_chunks response).
  destruct (joined_text_phase cs) as [Ht Hr].
  destruct (flush_accumulated_cases (fragments (consumed cs))) as [Hflush _].
  apply joined_tool_events in Hflush as [Hft Hfr].
  assert (forall failure,
    let run :=
      match outcome (for_each (List.map snd (accumulate (fragments (consumed cs)) []))
                              flush_tool_call) with
      | Raise e =>
          (text_phase_events cs ++
           events (for_each (List.map snd (accumulate (fragments (consumed cs)) []))
                            flush_tool_call), Raise e)
      | Return _ =>
          match last_choice (consumed cs) None with
          | None =>
              (text_phase_events cs ++
               events (for_each
                         (List.map snd (accumulate (fragments (consumed cs)) []))
                         flush_tool_call),
               Raise (UnboundLocalError "choice"))
          | Some choice =>
              match failure : option exn with
              | Some e =>
                  (text_phase_events cs ++
                   events (for_each
                             (List.map snd (accumulate (fragments (consumed cs)) []))
                             flush_tool_call) ++
                   [messageStop (stop_reason (finish_reason choice))], Raise e)
              | None =>
                  (text_phase_events cs ++
                   events (for_each
                             (List.map snd (accumulate (fragments (consumed cs)) []))
                             flush_tool_call) ++
                   [messageStop (stop_reason (finish_reason choice))] ++
                   metadata_events (final_usage cs), Return tt)
              end
          end
      end : Gen StreamEvent unit in
    joined_text (events run) = concat_strings (List.map chunk_text (consumed cs)) /\
    joined_reasoning (events run) =
      concat_strings (List.map chunk_reasoning (consumed cs))) as Hended.
  { intros failure. cbn zeta.
    destruct (outcome _); [|destruct (last_choice _ _); [destruct failure|]];
      cbn [events fst];
      rewrite !joined_text_app, !joined_reasoning_app, ?Ht, ?Hr, ?Hft, ?Hfr;
      cbn [joined_text joined_reasoning];
      try (destruct (final_usage cs);
           cbn [metadata_events joined_text joined_reasoning]);
      by rewrite ?append_nil_r. }
  destruct (raised_after response) as [e|]; [|exact (Hended None)].
  destruct (existsb ends_phase cs) eqn:Hends; [exact (Hended (Some e))|].
  cbn [events fst]. rewrite (consumed_unended _ Hends).
  rewrite !joined_text_app, !joined_reasoning_app.
  destruct (joined_chunks_events cs) as [-> ->].
  cbn [joined_text joined_reasoning]. by rewrite !append_nil_l.
Qed.

(** X12. The text deltas of a run carry, joined, the [content] of the
    first choices of the chunks read by the first loop, joined, and its
    reasoning deltas their [reasoning_content]: nothing is lost,
    repeated or reordered, and the content of a chunk that comes after
    the one that declares the finish reason is not streamed.  This holds
    of every answer of the gateway, also when the run fails after the
    first loop or when the iterator raises. *)
Theorem streamed_text_is_consumed_content
    types_map self messages tool_specs system_prompt tool_choice
    system_prompt_content request response :
  format_request types_map self messages tool_specs system_prompt tool_choice
    system_prompt_content = Return request ->
  chat_completions_create (client self) request = Return response ->
  let run := stream types_map self messages tool_specs system_prompt tool_choice
               system_prompt_content in
  joined_text (events run) =
    concat_strings (List.map chunk_text (consumed (delivered_chunks response))) /\
  joined_reasoning (events run) =
    concat_strings
      (List.map chunk_reasoning (consumed (delivered_chunks response))).
Proof.
  intros Hrequest Hcreate run. subst run.
  rewrite (stream_answered _ _ _ _ _ _ _ _ Hrequest _ Hcreate).
  rewrite events_async_generator. apply joined_stream_response.
Qed.

Lemma streamed_text_is_consumed_content_witness :
  joined_text
    (events (stream no_types
               (model_answering None
                  (Return [text_chunk "Hel"; keepalive_chunk; text_chunk "lo";
                           finish_chunk "stop"; text_chunk "late"])
                  (Raise (ApiError "unused")))
               hi None None None None))
  = "Hello".
Proof.
  exact (proj1 (streamed_text_is_consumed_content no_types
                  (model_answering None
                     (Return [text_chunk "Hel"; keepalive_chunk; text_chunk "lo";
                              finish_chunk "stop"; text_chunk "late"])
                     (Raise (ApiError "unused")))
                  hi None None None None _ _ eq_refl eq_refl)).
Defined.

Lemma stream_cases types_map self messages tool_specs system_prompt tool_choice
    system_prompt_content :
  let run := stream types_map self messages tool_specs system_prompt tool_choice
               system_prompt_content in
  (exists e,
     format_request types_map self messages tool_specs system_prompt tool_choice
       system_prompt_content = Raise e /\
     run = ([], Raise (leave_generator e))) \/
  (exists request e,
     format_request types_map self messages tool_specs system_prompt tool_choice
       system_prompt_content = Return request /\
     chat_completions_create (client self) request = Raise e /\
     run = ([], match handle_api_error e with
                | Raise e' => Raise e'
                | Return _ => Raise (leave_generator e)
                end)) \/
  (exists request response,
     format_request types_map self messages tool_specs system_prompt tool_choice
       system_prompt_content = Return request /\
     chat_completions_create (client self) request = Return response /\
     run = async_generator (stream_response response)).
Proof.
  cbn zeta.
  destruct (format_request types_map self messages tool_specs system_prompt
              tool_choice system_prompt_content) as [e|request] eqn:Hrequest.
  - left. exists e. split; [done|]. unfold stream. by rewrite Hrequest.
  - right.
    destruct (chat_completions_create (client self) request) as [e|response]
      eqn:Hcreate.
    + left. exists request, e. split; [done|]. split; [done|].
      exact (stream_failed _ _ _ _ _ _ _ _ Hrequest _ Hcreate).
    + right. exists request, response. split; [done|]. split; [done|].
      exact (stream_answered _ _ _ _ _ _ _ _ Hrequest _ Hcreate).
Qed.

(** The run of [stream_response], by the place where it ends. *)
Lemma stream_response_cases response :
  let cs := delivered_chunks response in
  let run := stream_response response in
  (exists e, raised_after response = Some e /\ outcome run = Raise e /\
             bracket_state false (events run) = Some true) \/
  (exists e, raised_after response = Some e /\ outcome run = Raise e /\
             bracket_state false (events run) = Some false) \/
  (~ Forall has_function (fragments (consumed cs)) /\
   outcome run = Raise (AttributeError "NoneType" "name") /\
   bracket_state false (events run) = Some false) \/
  (~ Forall has_function (fragments (consumed cs)) /\
   outcome run = Raise (AttributeError "NoneType" "arguments") /\
   bracket_state false (events run) = Some true) \/
  (Forall (fun c => choices c = []) cs /\
   run = ([messageStart "assistant"; contentBlockStart None; contentBlockStop],
          Raise (UnboundLocalError "choice"))) \/
  (outcome run = Return tt /\ bracket_state false (events run) = Some false).
Proof.
  cbn zeta. rewrite stream_response_nf.
  set (cs := delivered_chunks response).
  assert (forall rest, bracket_state false (text_phase_events cs ++ rest) =
                       bracket_state false rest) as Htext.
  { intros rest. unfold text_phase_events. rewrite <- !app_assoc.
    cbn [app bracket_state]. rewrite bracket_state_app, bracket_state_deltas.
    - done.
    - eapply Forall_impl; [apply chunk_events_text|]. intros e He. by left. }
  destruct (flush_accumulated_cases (fragments (consumed cs))) as [_ Hflush].
  assert (forall failure : option exn,
    (failure = None \/ failure = raised_after response) ->
    let run :=
      match outcome (for_each (List.map snd (accumulate (fragments (consumed cs)) []))
                              flush_tool_call) with
      | Raise e =>
          (text_phase_events cs ++
           events (for_each (List.map snd (accumulate (fragments (consumed cs)) []))
                            flush_tool_call), Raise e)
      | Return _ =>
          match last_choice (consumed cs) None with
          | None =>
              (text_phase_events cs ++
               events (for_each
                         (List.map snd (accumulate (fragments (consumed cs)) []))
                         flush_tool_call),
               Raise (UnboundLocalError "choice"))
          | Some choice =>
              match failure with
              | Some e =>
                  (text_phase_events cs ++
                   events (for_each
                             (List.map snd (accumulate (fragments (consumed cs)) []))
                             flush_tool_call) ++
                   [messageStop (stop_reason (finish_reason choice))], Raise e)
              | None =>
                  (text_phase_events cs ++
                   events (for_each
                             (List.map snd (accumulate (fragments (consumed cs)) []))
                             flush_tool_call) ++
                   [messageStop (stop_reason (finish_reason choice))] ++
                   metadata_events (final_usage cs), Return tt)
              end
          end
      end : Gen StreamEvent unit in
    (exists e, raised_after response = Some e /\ outcome run = Raise e /\
               bracket_state false (events run) = Some false) \/
    (~ Forall has_function (fragments (consumed cs)) /\
     outcome run = Raise (AttributeError "NoneType" "name") /\
     bracket_state false (events run) = Some false) \/
    (~ Forall has_function (fragments (consumed cs)) /\
     outcome run = Raise (AttributeError "NoneType" "arguments") /\
     bracket_state false (events run) = Some true) \/
    (Forall (fun c => choices c = []) cs /\
     run = ([messageStart "assistant"; contentBlockStart None; contentBlockStop],
            Raise (UnboundLocalError "choice"))) \/
    (outcome run = Return tt /\ bracket_state false (events run) = Some false))
    as Hended.
  { intros failure Hfailure. cbn zeta.
    destruct Hflush as [[Hr Hs] | [(Hnot & Hr & Hs) | (Hnot & Hr & Hs)]];
      rewrite Hr.
    - destruct (last_choice (consumed cs) None) as [choice|] eqn:Hchoice.
      + destruct failure as [e|].
        * left. exists e. destruct Hfailure as [?|<-]; [done|].
          split; [done|]. split; [done|]. cbn [events fst].
          by rewrite Htext, bracket_state_app, Hs.
        * do 4 right. split; [done|]. cbn [events fst].
          rewrite Htext, bracket_state_app, Hs. cbn.
          by destruct (final_usage cs).
      + do 3 right. left.
        assert (Forall (fun c => choices c = []) cs) as Hnone.
        { apply Forall_forall. intros c Hc.
          destruct (choices c) as [|choice chs] eqn:Hchoices; [done|]. exfalso.
          assert (Exists (fun c => choices c <> []) cs) as Hex.
          { apply Exists_exists. exists c. split; [done|]. by rewrite Hchoices. }
          destruct (last_choice_exists cs None Hex) as [? ?]. congruence. }
        split; [done|].
        destruct (no_choices_consumed _ Hnone) as (Hcons & Hev & Hfr & _).
        unfold text_phase_events. rewrite Hcons, Hev, Hfr. reflexivity.
    - right; left. split; [done|]. split; [done|]. cbn [events fst].
      by rewrite Htext.
    - right; right; left. split; [done|]. split; [done|]. cbn [events fst].
      by rewrite Htext. }
  destruct (raised_after response) as [e|] eqn:Hraised.
  - destruct (existsb ends_phase cs).
    + right. exact (Hended (Some e) ltac:(by right)).
    + left. exists e. split; [done|]. split; [done|]. cbn [events fst app].
      cbn [bracket_state]. apply bracket_state_deltas.
      eapply Forall_impl; [apply chunk_events_text|]. intros e' He. by left.
  - right. exact (Hended None ltac:(by left)).
Qed.

(** X13. In every run of [stream], whatever the gateway answers and
    however the run ends, no event is out of place: a block is opened
    only when none is open, every delta and every stop lies inside an
    open block, and [messageStart], [messageStop] and [metadata] lie
    outside.  A run that returns leaves no block open.  A block is left
    open only by a run in which the iterator of the gateway raised, or
    in which a fragment without [function] ended the flush at a tool
    input delta. *)
Theorem stream_blocks_well_bracketed
    types_map self messages tool_specs system_prompt tool_choice
    system_prompt_content :
  let run := stream types_map self messages tool_specs system_prompt tool_choice
               system_prompt_content in
  exists open,
    bracket_state false (events run) = Some open /\
    (outcome run = Return tt -> open = false) /\
    (open = true ->
     (exists request response e,
        format_request types_map self messages tool_specs system_prompt
          tool_choice system_prompt_content = Return request /\
        chat_completions_create (client self) request = Return response /\
        raised_after response = Some e /\
        outcome run = Raise (leave_generator e)) \/
     outcome run = Raise (AttributeError "NoneType" "arguments")).
Proof.
  cbn zeta.
  destruct (stream_cases types_map self messages tool_specs system_prompt
              tool_choice system_prompt_content)
    as [(e & _ & ->) | [(request & e & _ & _ & ->)
                       | (request & response & Hrequest & Hcreate & ->)]].
  - exists false. by repeat split.
  - exists false. by repeat split.
  - rewrite events_async_generator.
    destruct (stream_response_cases response)
      as [(e & Hraised & Hr & Hs) | [(e & Hraised & Hr & Hs)
         | [(_ & Hr & Hs) | [(_ & Hr & Hs) | [[_ Hrun] | [Hr Hs]]]]]].
    + exists true. split; [done|].
      destruct (stream_response response) as [evs r]. cbn [outcome snd] in *.
      subst r. cbn [async_generator outcome snd]. split; [done|]. intros _. left.
      by exists request, response, e.
    + exists false. by repeat split.
    + exists false. by repeat split.
    + exists true. split; [done|].
      destruct (stream_response response) as [evs r]. cbn [outcome snd] in *.
      subst r. cbn [async_generator outcome snd]. split; [done|]. intros _.
      by right.
    + exists false. rewrite Hrun. by repeat split.
    + exists false. by repeat split.
Qed.

Lemma format_request_Raise types_map self messages tool_specs system_prompt
    tool_choice system_prompt_content e :
  format_request types_map self messages tool_specs system_prompt tool_choice
    system_prompt_content = Raise e ->
  format_messages_loop types_map messages [] = Raise e.
Proof.
  unfold format_request. rewrite format_request_messages_eq.
  destruct (format_messages_loop types_map messages []) as [e'|rest];
    intros H; [cbn in H; by injection H as ->|]. exfalso. cbn in H.
  destruct (truthy_list _); [|discriminate H].
  destruct tool_choice as [tc|]; [destruct (truthy_choice tc)|]; discriminate H.
Qed.

Lemma format_request_Return types_map self messages tool_specs system_prompt
    tool_choice system_prompt_content request :
  format_request types_map self messages tool_specs system_prompt tool_choice
    system_prompt_content = Return request ->
  Forall (fun message => Forall encodable_block (content message)) messages.
Proof.
  unfold format_request.
  destruct (format_request_messages _ _ _ _) as [e'|formatted] eqn:Hformatted; [done|].
  intros _. by eapply format_request_messages_Return.
Qed.


(** X14. The ways in which a run of [stream] can end.  It returns; or a
    block cannot be encoded, and the error of the formatter leaves the
    generator before any event; or the gateway call raises, and its
    error or what [handle_api_error] made of it leaves before any event;
    or the iterator of the gateway raises, and its error leaves after
    the events yielded so far; or a fragment of a tool call has no
    [function], and the [AttributeError] of [format_chunk] leaves during
    the flush; or no chunk carries choice data, and the
    [UnboundLocalError] on [choice] leaves after the text block.  The
    code has no other way to fail: no [IndexError] on an empty list of
    fragments, no [UnboundLocalError] on [event], no [KeyError] and no
    unknown chunk type in [format_chunk]. *)
Theorem stream_outcomes
    types_map self messages tool_specs system_prompt tool_choice
    system_prompt_content :
  let run := stream types_map self messages tool_specs system_prompt tool_choice
               system_prompt_content in
  outcome run = Return tt \/
  (~ Forall (fun message => Forall encodable_block (content message)) messages /\
   exists key, run = ([], Raise (leave_generator (unsupported_error key)))) \/
  (exists request e,
     format_request types_map self messages tool_specs system_prompt tool_choice
       system_prompt_content = Return request /\
     chat_completions_create (client self) request = Raise e /\
     (run = ([], Raise (leave_generator e)) \/
      run = ([], Raise (ContextWindowOverflowException (str e) e)) \/
      run = ([], Raise (ModelThrottledException (str e) e)))) \/
  (exists request response,
     format_request types_map self messages tool_specs system_prompt tool_choice
       system_prompt_content = Return request /\
     chat_completions_create (client self) request = Return response /\
     ((exists e, raised_after response = Some e /\
                 outcome run = Raise (leave_generator e)) \/
      (~ Forall has_function (fragments (consumed (delivered_chunks response))) /\
       (outcome run = Raise (AttributeError "NoneType" "name") \/
        outcome run = Raise (AttributeError "NoneType" "arguments"))) \/
      (Forall (fun c => choices c = []) (delivered_chunks response) /\
       run = ([messageStart "assistant"; contentBlockStart None;
               contentBlockStop],
              Raise (UnboundLocalError "choice"))))).
Proof.
  cbn zeta.
  destruct (stream_cases types_map self messages tool_specs system_prompt
              tool_choice system_prompt_content)
    as [(e & Hrequest & ->) | [(request & e & Hrequest & Hcreate & ->)
                              | (request & response & Hrequest & Hcreate & ->)]].
  - right; left.
    assert (~ Forall (fun message => Forall encodable_block (content message))
              messages) as Hnot.
    { intros Hall.
      destruct (format_request_messages_total types_map messages system_prompt
                  system_prompt_content Hall) as [out Hout].
      unfold format_request in Hrequest. by rewrite Hout in Hrequest;
        cbn [mbind Result_bind rbind] in Hrequest;
        destruct (truthy_list _);
        [destruct tool_choice as [tc|]; [destruct (truthy_choice tc)|]|]. }
    split; [done|].
    apply format_request_Raise in Hrequest.
    apply format_messages_loop_Raise in Hrequest as (key & -> & _).
    by exists key.
  - right; right; left. exists request, e. split; [done|]. split; [done|].
    unfold handle_api_error.
    destruct (existsb _ _); [right; left; reflexivity|].
    destruct (_ || _); [right; right; reflexivity | left; reflexivity].
  - destruct (stream_response_cases response)
      as [(e & Hraised & Hr & _) | [(e & Hraised & Hr & _)
         | [(Hnot & Hr & _) | [(Hnot & Hr & _) | [[Hnone Hrun] | [Hr _]]]]]].
    all: try (destruct (stream_response response) as [evs r];
              cbn [outcome snd] in Hr; subst r;
              cbn [async_generator outcome snd]).
    + do 3 right. exists request, response. split; [done|]. split; [done|].
      left. by exists e.
    + do 3 right. exists request, response. split; [done|]. split; [done|].
      left. by exists e.
    + do 3 right. exists request, response. split; [done|]. split; [done|].
      right; left. split; [done|]. by left.
    + do 3 right. exists request, response. split; [done|]. split; [done|].
      right; left. split; [done|]. by right.
    + do 3 right. exists request, response. split; [done|]. split; [done|].
      right; right. split; [done|]. by rewrite Hrun.
    + by left.
Qed.

Lemma last_choice_source cs init choice :
  last_choice cs init = Some choice ->
  init = Some choice \/ exists c chs, In c cs /\ choices c = choice :: chs.
Proof.
  unfold last_choice. revert init.
  induction cs as [|c cs IH]; intros init H; [by left|].
  cbn [fold_left] in H. apply IH in H as [H | (c' & chs & Hin & Hc')].
  - destruct (choices c) as [|ch chs] eqn:Hc; [by left|].
    right. exists c, chs. split; [by left|]. congruence.
  - right. exists c', chs. split; [by right | done].
Qed.

Lemma consumed_all response :
  Forall (fun c => ends_phase c = false) response ->
  consumed response = response /\ remaining response = [].
Proof.
  induction 1 as [|c cs Hc _ [IHc IHr]]; [done|].
  cbn [consumed remaining]. by rewrite Hc, IHc, IHr.
Qed.

(** X15. A response that is delivered to its end and carries choice data
    but never declares a finish reason is read to its end by the first
    loop, and the run - every fragment carrying its [function] - ends
    the turn as if the model had stopped by itself: it yields the content
    events, [messageStop] with the stop reason [end_turn], then the
    metadata of the last chunk if it has a usage, and returns. *)
Theorem stream_without_finish_reason
    types_map self messages tool_specs system_prompt tool_choice
    system_prompt_content request response :
  format_request types_map self messages tool_specs system_prompt tool_choice
    system_prompt_content = Return request ->
  chat_completions_create (client self) request = Return (delivered response) ->
  Exists (fun c => choices c <> []) response ->
  Forall (fun c => ends_phase c = false) response ->
  Forall has_function (fragments (consumed response)) ->
  consumed response = response /\
  stream types_map self messages tool_specs system_prompt tool_choice
    system_prompt_content =
  (content_phase_events response ++
   [messageStop "end_turn"] ++ metadata_events (final_usage response),
   Return tt).
Proof.
  intros Hrequest Hcreate Hex Hno Hfun.
  destruct (consumed_all response Hno) as [Hconsumed _]. split; [done|].
  rewrite (stream_delivered _ _ _ _ _ _ _ _ Hrequest _ Hcreate Hfun).
  destruct (last_choice_exists response None Hex) as [choice Hchoice].
  rewrite Hchoice. rewrite Hconsumed in Hchoice.
  apply last_choice_source in Hchoice as [? | (c & chs & Hin & Hc)]; [done|].
  rewrite Forall_forall in Hno. apply list_elem_of_In, Hno in Hin.
  unfold ends_phase in Hin. rewrite Hc in Hin.
  assert (stop_reason (finish_reason choice) = "end_turn") as ->; [|done].
  destruct (finish_reason choice) as [s|]; [|done].
  cbn in Hin. destruct (String.eqb_spec s ""); [by subst | done].
Qed.

Lemma stream_without_finish_reason_witness :
  stream no_types
    (model_answering None
       (Return [text_chunk "Hel"; text_chunk "lo"; usage_chunk 3 2 5])
       (Raise (ApiError "unused")))
    hi None None None None =
  ([messageStart "assistant"; contentBlockStart None;
    contentBlockDelta (DeltaText (DataStr "Hel"));
    contentBlockDelta (DeltaText (DataStr "lo"));
    contentBlockStop; messageStop "end_turn";
    metadata {| inputTokens := 3; outputTokens := 2; totalTokens := 5 |} 0],
   Return tt).
Proof.
  refine (proj2 (stream_without_finish_reason no_types
                   (model_answering None
                      (Return [text_chunk "Hel"; text_chunk "lo"; usage_chunk 3 2 5])
                      (Raise (ApiError "unused")))
                   hi None None None None _ _ eq_refl eq_refl _ _ _)).
  - constructor. done.
  - repeat constructor.
  - fragments_have_function.
Defined.

Lemma ends_phase_first_choice c : ends_phase (first_choice_only c) = ends_phase c.
Proof. unfold ends_phase, first_choice_only. cbn. by destruct (choices c). Qed.

Lemma consumed_first_choice response :
  consumed (List.map first_choice_only response) =
  List.map first_choice_only (consumed response).
Proof.
  induction response as [|c cs IH]; [done|]. cbn [List.map consumed].
  rewrite ends_phase_first_choice. destruct (ends_phase c); [done|].
  cbn [List.map]. by rewrite IH.
Qed.

Lemma chunk_events_first_choice cs :
  List.map chunk_events (List.map first_choice_only cs) = List.map chunk_events cs.
Proof.
  rewrite List.map_map. apply List.map_ext. intros c.
  unfold chunk_events, first_choice_only. cbn. by destruct (choices c).
Qed.

Lemma fragments_first_choice cs :
  fragments (List.map first_choice_only cs) = fragments cs.
Proof.
  unfold fragments. f_equal. rewrite List.map_map. apply List.map_ext. intros c.
  unfold chunk_fragments, first_choice_only. cbn. by destruct (choices c).
Qed.

Lemma last_choice_first_choice cs init :
  last_choice (List.map first_choice_only cs) init = last_choice cs init.
Proof.
  unfold last_choice. revert init.
  induction cs as [|c cs IH]; intros init; [done|]. cbn [List.map fold_left].
  rewrite IH. f_equal. unfold first_choice_only. cbn. by destruct (choices c).
Qed.

Lemma final_usage_first_choice response :
  final_usage (List.map first_choice_only response) = final_usage response.
Proof.
  unfold final_usage.
  induction response as [|c cs IH] using rev_ind; [done|].
  rewrite List.map_app. cbn [List.map]. by rewrite !last_snoc.
Qed.

Lemma existsb_ends_phase_first_choice response :
  existsb ends_phase (List.map first_choice_only response) =
  existsb ends_phase response.
Proof.
  induction response as [|c cs IH]; [done|]. cbn [List.map existsb].
  by rewrite ends_phase_first_choice, IH.
Qed.

Lemma stream_response_first_choice response :
  stream_response (first_choices response) = stream_response response.
Proof.
  rewrite !stream_response_nf. unfold text_phase_events.
  cbn [first_choices delivered_chunks raised_after].
  by rewrite existsb_ends_phase_first_choice, consumed_first_choice,
    !chunk_events_first_choice, fragments_first_choice, last_choice_first_choice,
    final_usage_first_choice.
Qed.

(** X16. Of every chunk only the first choice is read: a gateway that
    answers the same request with an iterator that delivers the same
    chunks cut down to their first choices, and ends or raises alike,
    gives the same run - the same events and the same outcome. *)
Theorem only_first_choice_is_read
    types_map self self' messages tool_specs system_prompt tool_choice
    system_prompt_content request response :
  config self' = config self ->
  format_request types_map self messages tool_specs system_prompt tool_choice
    system_prompt_content = Return request ->
  chat_completions_create (client self) request = Return response ->
  chat_completions_create (client self') request =
    Return (first_choices response) ->
  stream types_map self' messages tool_specs system_prompt tool_choice
    system_prompt_content =
  stream types_map self messages tool_specs system_prompt tool_choice
    system_prompt_content.
Proof.
  intros Hconfig Hrequest Hcreate Hcreate'.
  assert (format_request types_map self' messages tool_specs system_prompt
            tool_choice system_prompt_content = Return request) as Hrequest'.
  { rewrite <- Hrequest. unfold format_request. by rewrite Hconfig. }
  rewrite (stream_answered _ _ _ _ _ _ _ _ Hrequest _ Hcreate),
    (stream_answered _ _ _ _ _ _ _ _ Hrequest' _ Hcreate').
  by rewrite stream_response_first_choice.
Qed.

Lemma only_first_choice_is_read_witness :
  stream no_types
    (model_answering None (Return [text_chunk "Hi"]) (Raise (ApiError "unused")))
    hi None None None None =
  stream no_types
    (model_answering None (Return [two_choice_chunk]) (Raise (ApiError "unused")))
    hi None None None None.
Proof.
  exact (only_first_choice_is_read no_types
           (model_answering None (Return [two_choice_chunk])
              (Raise (ApiError "unused")))
           (model_answering None (Return [text_chunk "Hi"])
              (Raise (ApiError "unused")))
           hi None None None None _ _ eq_refl eq_refl eq_refl eq_refl).
Defined.

(* ===================================================================== *)
(** * More on the request and on [structured_output] *)
(* ===================================================================== *)

Section RequestKeys.

Variable types_map : string -> option string.


(** X18. The keys of the request.  A key of the extra parameters other
    than [tools] and [tool_choice] goes into the request with the value
    of the parameters, also when it is [messages], [model], [stream] or
    [stream_options]; where the parameters are silent these four hold
    the formatted messages, the model id of the configuration, [True]
    and [include_usage].  Tool specs, when there are some, replace a
    [tools] key of the parameters; without tool specs the [tools] and
    [tool_choice] of the parameters stay. *)
Theorem request_keys
    self messages tool_specs system_prompt tool_choice system_prompt_content
    request
    (Hrequest : format_request types_map self messages tool_specs system_prompt
                  tool_choice system_prompt_content = Return request) :
  let extra := default ∅ (params (config self)) in
  (forall key v, extra !! key = Some v -> key <> "tools" -> key <> "tool_choice" ->
     request !! key = Some (PParam v)) /\
  (extra !! "messages" = None ->
   exists formatted,
     format_request_messages types_map messages system_prompt system_prompt_content
       = Return formatted /\
     request !! "messages" = Some (PMessages formatted)) /\
  (extra !! "model" = None ->
   request !! "model" = Some (PStr (model_id (config self)))) /\
  (extra !! "stream" = None -> request !! "stream" = Some (PBool true)) /\
  (extra !! "stream_options" = None ->
   request !! "stream_options" = Some (PStreamOptions true)) /\
  (default [] tool_specs <> [] ->
   request !! "tools" =
     Some (PTools (List.map format_tool_spec (default [] tool_specs)))) /\
  (default [] tool_specs = [] ->
   request !! "tools" = PParam <$> extra !! "tools" /\
   request !! "tool_choice" = PParam <$> extra !! "tool_choice").
Proof.
  cbn zeta.
  destruct (format_request_cases _ _ _ _ _ _ _ _ Hrequest)
    as (formatted & Hformatted & Heq).
  assert (forall key, key <> "tools" -> key <> "tool_choice" ->
            request !! key = request_base self formatted !! key) as Hbase.
  { intros key Ht Hc. rewrite Heq. destruct (truthy_list _); [|done].
    destruct tool_choice as [tc|]; [destruct (truthy_choice tc)|];
      by rewrite ?lookup_insert_ne. }
  assert (forall key, default ∅ (params (config self)) !! key = None ->
            request_base self formatted !! key =
            (<["messages" := PMessages formatted]>
              (<["model" := PStr (model_id (config self))]>
                (<["stream" := PBool true]>
                  (<["stream_options" := PStreamOptions true]>
                    (∅ : gmap string PayloadValue))))) !! key)
    as Hsilent.
  { intros key Hkey. unfold request_base.
    apply lookup_union_r. by rewrite lookup_fmap, Hkey. }
  repeat split.
  - intros key v Hkey Ht Hc. rewrite Hbase by done. unfold request_base.
    apply lookup_union_Some_l. by rewrite lookup_fmap, Hkey.
  - intros Hkey. exists formatted. split; [done|].
    rewrite Hbase, Hsilent by done. by rewrite lookup_insert_eq.
  - intros Hkey. rewrite Hbase, Hsilent by done.
    rewrite ?lookup_insert_ne by done. by rewrite lookup_insert_eq.
  - intros Hkey. rewrite Hbase, Hsilent by done.
    rewrite ?lookup_insert_ne by done. by rewrite lookup_insert_eq.
  - intros Hkey. rewrite Hbase, Hsilent by done.
    rewrite ?lookup_insert_ne by done. by rewrite lookup_insert_eq.
  - intros Hspecs. rewrite Heq.
    destruct (default [] tool_specs) as [|spec specs]; [done|]. cbn [truthy_list].
    destruct tool_choice as [tc|]; [destruct (truthy_choice tc)|];
      rewrite ?lookup_insert_ne by done; by rewrite lookup_insert_eq.
  - rewrite Heq, H. cbn [truthy_list]. unfold request_base.
    destruct (default ∅ (params (config self)) !! "tools") as [v|] eqn:Hkey.
    + apply lookup_union_Some_l. by rewrite lookup_fmap, Hkey.
    + rewrite lookup_union_r by (by rewrite lookup_fmap, Hkey). done.
  - rewrite Heq, H. cbn [truthy_list]. unfold request_base.
    destruct (default ∅ (params (config self)) !! "tool_choice") as [v|] eqn:Hkey.
    + apply lookup_union_Some_l. by rewrite lookup_fmap, Hkey.
    + rewrite lookup_union_r by (by rewrite lookup_fmap, Hkey). done.
Qed.

Lemma structured_output_request self prompt system_prompt formatted :
  format_request_messages types_map prompt system_prompt None = Return formatted ->
  exists request,
    format_request types_map self prompt None system_prompt None None
      = Return request /\
    request !! "messages" = Some (sent_messages self formatted).
Proof.
  intros Hformatted. exists (request_base self formatted). split.
  - unfold format_request. by rewrite Hformatted.
  - unfold request_base, sent_messages.
    destruct (default ∅ (params (config self)) !! "messages") as [v|] eqn:Hkey.
    + apply lookup_union_Some_l. by rewrite lookup_fmap, Hkey.
    + rewrite lookup_union_r by (by rewrite lookup_fmap, Hkey).
      by rewrite lookup_insert_eq.
Qed.

(** X19. The one gateway call of [structured_output]: it is made with
    the model id of the configuration, the requested model and, as
    messages, the prompt formatted with the system prompt alone - or the
    [messages] of the extra parameters when they hold that key.  An
    error of that call leaves the generator as every error leaves an
    async generator - as it is, a [StopIteration] apart -, with no
    event and without the classification that [stream] applies; and the
    run depends on the client through the answer to that call only. *)
Theorem structured_output_gateway_call
    self output_model prompt system_prompt formatted
    (Hformatted : format_request_messages types_map prompt system_prompt None
                  = Return formatted) :
  (forall e,
     beta_chat_completions_parse (client self) (model_id (config self))
       (sent_messages self formatted) output_model = Raise e ->
     structured_output types_map self output_model prompt system_prompt
     = ([], Raise (leave_generator e))) /\
  (forall self',
     config self' = config self ->
     beta_chat_completions_parse (client self') (model_id (config self))
       (sent_messages self formatted) output_model =
     beta_chat_completions_parse (client self) (model_id (config self))
       (sent_messages self formatted) output_model ->
     structured_output types_map self' output_model prompt system_prompt =
     structured_output types_map self output_model prompt system_prompt).
Proof.
  destruct (structured_output_request self prompt system_prompt formatted Hformatted)
    as (request & Hrequest & Hmessages).
  split.
  - intros e Hparse. unfold structured_output.
    rewrite Hrequest. cbn [call mbind Gen_bind gbind]. rewrite Hmessages.
    cbn [call mbind Gen_bind gbind]. by rewrite Hparse.
  - intros self' Hconfig Hparse.
    destruct (structured_output_request self' prompt system_prompt formatted
                Hformatted) as (request' & Hrequest' & Hmessages').
    assert (sent_messages self' formatted = sent_messages self formatted) as Hsent
      by (unfold sent_messages; by rewrite Hconfig).
    unfold structured_output.
    rewrite Hrequest, Hrequest'. cbn [call mbind Gen_bind gbind].
    rewrite Hmessages, Hmessages'. cbn [call mbind Gen_bind gbind].
    by rewrite Hconfig, Hsent, Hparse.
Qed.

End RequestKeys.


Lemma request_keys_witness :
  exists request,
    format_request no_types
      (model_answering (Some sampling_params) (Return [])
         (Raise (ApiError "unused")))
      hi None None None None = Return request /\
    request !! "model" = Some (PParam (JStr "gpt-4o-mini")) /\
    request !! "temperature" = Some (PParam (JInt 0)) /\
    request !! "stream" = Some (PBool true).
Proof.
  eexists.
  destruct (request_keys no_types
              (model_answering (Some sampling_params) (Return [])
                 (Raise (ApiError "unused")))
              hi None None None None _ eq_refl)
    as (Hextra & _ & _ & Hstream & _).
  split; [reflexivity|]. split; [|split].
  - by apply Hextra.
  - by apply Hextra.
  - by apply Hstream.
Defined.

Lemma structured_output_gateway_call_witness :
  structured_output no_types
    (model_answering None (Return [])
       (Raise (ApiError "Error code: 429 - Too Many Requests")))
    "WeatherReport" hi None
  = ([], Raise (ApiError "Error code: 429 - Too Many Requests")).
Proof.
  exact (proj1 (structured_output_gateway_call no_types
                  (model_answering None (Return [])
                     (Raise (ApiError "Error code: 429 - Too Many Requests")))
                  "WeatherReport" hi None _ eq_refl) _ eq_refl).
Defined.

Section Turns.

Variable types_map : string -> option string.

Lemma own_message_kept message parts :
  length parts = length (List.filter plain_block (content message)) ->
  kept (own_message message parts) = has_own_content message.
Proof.
  intros Hlen. unfold kept, has_own_content.
  cbn [own_message msg_content msg_tool_calls truthy_content]. f_equal.
  - destruct parts, (List.filter plain_block (content message)); done.
  - by destruct (omap toolUse (content message)).
Qed.

Lemma own_message_turn message parts :
  is_turn_message (own_message message parts) = true.
Proof. unfold is_turn_message. cbn. by destruct (role message). Qed.

Lemma tool_messages_no_turn trs tms :
  Forall2 (fun tr tm => format_request_tool_message types_map tr = Return tm) trs tms ->
  List.filter is_turn_message (List.filter kept tms) = [].
Proof.
  induction 1 as [|tr tm trs tms Htm _ IH]; [done|].
  apply format_request_tool_message_role in Htm as [Hrole _].
  cbn [List.filter]. destruct (kept tm); [|done].
  cbn [List.filter]. unfold is_turn_message at 1. by rewrite Hrole.
Qed.

Lemma kept_turn_messages messages mss :
  Forall2 (fun message ms => format_message types_map message = Return ms)
          messages mss ->
  List.map msg_role (List.filter is_turn_message (List.filter kept (concat mss))) =
  List.map (fun message => role_str (role message))
    (List.filter has_own_content messages).
Proof.
  induction 1 as [|message ms messages mss Hms _ IH]; [done|].
  apply format_message_inv in Hms as (parts & tms & Hparts & Htms & ->).
  apply rmap_Forall2 in Htms. apply rmap_length in Hparts.
  cbn [concat app]. cbn [List.filter].
  rewrite (own_message_kept _ _ Hparts).
  destruct (has_own_content message); cbn [List.filter List.map];
    rewrite ?own_message_turn, !List.filter_app, (tool_messages_no_turn _ _ Htms);
    cbn [app List.map]; by rewrite IH.
Qed.

(** X20. The messages of role [user] or [assistant] that the formatter
    returns are, in order and with their roles, the messages given that
    hold a block of their own or a tool use: a message made of tool
    results only leaves no message of its role, and so does a message
    without content. *)
Theorem turn_messages_follow_messages
    messages system_prompt system_prompt_content out
    (Hout : format_request_messages types_map messages system_prompt
              system_prompt_content = Return out) :
  List.map msg_role (List.filter is_turn_message out) =
  List.map (fun message => role_str (role message))
    (List.filter has_own_content messages).
Proof.
  rewrite format_request_messages_eq in Hout.
  destruct (format_messages_loop types_map messages []) as [e|rest] eqn:Hrest; [done|].
  cbn in Hout. inversion Hout as [Heq]. clear Hout.
  apply format_messages_loop_concat in Hrest as (mss & Hmss & ->).
  rewrite List.filter_app, List.map_app, (kept_turn_messages _ _ Hmss).
  rewrite format_system_messages_kept.
  destruct (format_system_messages_cases system_prompt system_prompt_content)
    as [-> | (s & _ & ->)]; done.
Qed.

End Turns.

Lemma turn_messages_follow_messages_witness :
  exists out,
    format_request_messages no_types weather_conversation (Some "Be brief") None
    = Return out /\
    List.map msg_role (List.filter is_turn_message out) = ["user"; "assistant"].
Proof.
  eexists. split; [reflexivity|].
  exact (turn_messages_follow_messages no_types weather_conversation
           (Some "Be brief") None _ eq_refl).
Defined.
